(** * XRShare docset scripts: ingestion, chunking and retrieval

    A shallow embedding of [scripts/ingest_docset.py],
    [scripts/query_docset.py] and [scripts/assist.py].

    Python integers are [Z], Python floats are the rationals they
    denote, Python lists are [list], dictionaries with string keys are
    [gmap string _].  Exceptions are an explicit result
    type; the file system and the observable calls to the external
    collaborators (embedding backend, vector index library) are threaded
    through a state-and-error monad. *)

From Stdlib Require Import ZArith List Lia Ascii String QArith Sorted.
From stdpp Require Import base option list strings gmap.

Local Open Scope Z_scope.

(** ** Python runtime fragments used by the scripts *)

Module Py.

(** Exceptions that the modelled fragments can raise.  [SystemExit]
    carries the diagnostic printed to standard error just before
    [sys.exit(1)]. *)
Inductive exn : Type :=
| SystemExit (code : Z) (diagnostic : string)
| IndexError
| KeyError (key : string)
| ValueError
| AssertionError
| OpenAIError
| DatabaseError
| RuntimeError
| JSONDecodeError
| OSError.

Inductive result (A : Type) : Type :=
| Ok (a : A)
| Raise (e : exn).
Arguments Ok {A} a.
Arguments Raise {A} e.

Definition len {A} (l : list A) : Z := Z.of_nat (length l).

(** A list of Python floats, such as one embedding in the backend's
    answer.  The values come from JSON numbers and are finite; a float
    is the rational it denotes. *)
Definition floats : Type := list Q.

(** [l[i]] for a Python list: a negative index counts from the end,
    anything outside [-len, len) raises [IndexError]. *)
Definition getitem {A} (l : list A) (i : Z) : result A :=
  let j := if i <? 0 then i + len l else i in
  if (j <? 0) || (len l <=? j) then Raise IndexError
  else match l !! Z.to_nat j with
       | Some x => Ok x
       | None => Raise IndexError
       end.

(** Normalisation of one bound of a slice [l[lo:hi]] (step 1). *)
Definition slice_bound (n i : Z) : Z :=
  if i <? 0 then Z.max 0 (i + n) else Z.min i n.

Definition slice {A} (l : list A) (lo hi : Z) : list A :=
  let a := slice_bound (len l) lo in
  let b := slice_bound (len l) hi in
  take (Z.to_nat (b - a)) (drop (Z.to_nat a) l).

(** [range(start, stop, step)] unrolled as the loop it drives: the
    counter starts at [start] and advances by [step] while it is on
    the near side of [stop]. *)
Fixpoint range_up (fuel : nat) (i stop step : Z) : list Z :=
  match fuel with
  | O => []
  | S fuel' => if i <? stop then i :: range_up fuel' (i + step) stop step else []
  end.

Fixpoint range_down (fuel : nat) (i stop step : Z) : list Z :=
  match fuel with
  | O => []
  | S fuel' => if stop <? i then i :: range_down fuel' (i + step) stop step else []
  end.

Definition range (start stop step : Z) : result (list Z) :=
  if step =? 0 then Raise ValueError
  else if 0 <? step then Ok (range_up (Z.to_nat (stop - start)) start stop step)
  else Ok (range_down (Z.to_nat (start - stop)) start stop step).

(** [d.get(k, default)] and [d[k]] on a dictionary with string keys. *)
Definition dict_get {V} (d : gmap string V) (k : string) (default : V) : V :=
  match d !! k with
  | Some v => v
  | None => default
  end.

Definition dict_getitem {V} (d : gmap string V) (k : string) : result V :=
  match d !! k with
  | Some v => Ok v
  | None => Raise (KeyError k)
  end.

(** [posixpath.join(a, b)]. *)
Definition ends_with_slash (a : string) : bool :=
  match last (list_ascii_of_string a) with
  | Some c => bool_decide (c = "/"%char)
  | None => false
  end.

Definition path_join (a b : string) : string :=
  match b with
  | String "/" _ => b
  | _ => if bool_decide (a = "") || ends_with_slash a
         then a +:+ b
         else a +:+ "/" +:+ b
  end.

(** Truthiness of [x or y] on optional strings ([None] and [''] are
    falsy). *)
Definition truthy (s : option string) : bool :=
  match s with
  | Some (String _ _) => true
  | _ => false
  end.

Definition or_else (a b : option string) : option string :=
  if truthy a then a else b.

End Py.

Import Py.

(** ** The chunker of [ingest_docset.py] *)

Module Chunker.

Section WithTokenizer.

(** The tokenizer ([tiktoken.get_encoding('gpt2')]) is an external
    collaborator: [encode] and [decode] are taken as given. *)
Variable token : Type.
Variable encode : string -> list token.
Variable decode : list token -> string.

(** The body of the [for] loop of [chunk_text], one iteration. *)
Definition chunk_step (tokens : list token) (max_tokens : Z)
    (chunks : list string) (i : Z) : list string :=
  let chunk := slice tokens i (i + max_tokens) in
  chunks ++ [decode chunk].

(** [chunk_text(text, max_tokens=500, overlap=50)]. *)
Definition chunk_text (text : string) (max_tokens overlap : Z)
    : result (list string) :=
  let tokens := encode text in
  match range 0 (len tokens) (max_tokens - overlap) with
  | Raise e => Raise e
  | Ok indices => Ok (fold_left (chunk_step tokens max_tokens) indices [])
  end.

(** The token windows behind the chunks (the [chunk] variable of the
    loop before it is decoded). *)
Definition token_windows (tokens : list token) (max_tokens overlap : Z)
    : result (list (list token)) :=
  match range 0 (len tokens) (max_tokens - overlap) with
  | Raise e => Raise e
  | Ok indices => Ok (map (fun i => slice tokens i (i + max_tokens)) indices)
  end.

(** Removing the overlap: every window after the first loses its
    first [overlap] tokens. *)
Definition strip_overlap (overlap : Z) (windows : list (list token))
    : list (list token) :=
  match windows with
  | [] => []
  | w :: ws => w :: map (drop (Z.to_nat overlap)) ws
  end.

Definition concat_strings (l : list string) : string :=
  fold_right String.append "" l.

(** Re-tokenise each chunk, remove the overlap, decode, concatenate
    the texts and tokenise the result. *)
Definition retokenize_without_overlap (overlap : Z) (chunks : list string)
    : list token :=
  encode (concat_strings (map decode (strip_overlap overlap (map encode chunks)))).

(** The number of loop iterations for [n] tokens and a positive step,
    and the window taken at iteration [j]; the chunker is stated in
    these terms. *)
Definition window_count (n step : Z) : nat := Z.to_nat ((n + step - 1) / step).

Definition window (tokens : list token) (max_tokens step : Z) (j : nat) : list token :=
  take (Z.to_nat max_tokens) (drop (j * Z.to_nat step) tokens).

End WithTokenizer.

Definition default_max_tokens : Z := 500.
Definition default_overlap : Z := 50.

(** A byte-level tokenizer: one token per character.  It is the
    simplest instance of the tokenizer interface and is used to run
    the chunker on concrete texts. *)
Definition byte_encode (s : string) : list ascii := list_ascii_of_string s.
Definition byte_decode (ts : list ascii) : string := string_of_list_ascii ts.

(** The same tokens with a decoder that, like [enc.decode] and its
    [errors='replace'], never returns bytes that form no character: a
    byte above 127 is kept only in a two-byte character (a byte in
    192..223 followed by one in 128..191) and is replaced by [?]
    otherwise. *)
Definition code (b : ascii) : Z := Z.of_N (N_of_ascii b).

Definition is_pair (b c : ascii) : bool :=
  (192 <=? code b) && (code b <? 224) && (128 <=? code c) && (code c <? 192).

Fixpoint replace_invalid (bs : list ascii) : list ascii :=
  match bs with
  | [] => []
  | b :: rest =>
      if code b <? 128 then b :: replace_invalid rest
      else
        match rest with
        | c :: rest' =>
            if is_pair b c then b :: c :: replace_invalid rest'
            else "?"%char :: replace_invalid rest
        | [] => ["?"%char]
        end
  end.

Definition replacing_decode (ts : list ascii) : string :=
  string_of_list_ascii (replace_invalid ts).

(** The two bytes of one character (U+00E9). *)
Definition e_acute : string := String "195" (String "169" "").

End Chunker.


(** ** Single precision

    [np.array(..., dtype='float32')] converts every Python float to the
    nearest binary32 value, ties to even; a value beyond the binary32
    range becomes an infinity.  The library computes in binary32, so its
    distances can also be infinite or NaN. *)

Module Float32.

Inductive t : Type :=
| finite (q : Q)
| inf (negative : bool)
| nan.

(** [floor (log2 (n / d))] for positive [n] and [d]. *)
Definition floor_log2 (n d : Z) : Z :=
  let e := Z.log2 n - Z.log2 d in
  if n * 2 ^ Z.max 0 (- e) <? d * 2 ^ Z.max 0 e then e - 1 else e.

(** The integer nearest to [n / d], ties to even ([0 <= n], [0 < d]). *)
Definition round_half_even (n d : Z) : Z :=
  let q := n / d in
  match 2 * (n mod d) ?= d with
  | Lt => q
  | Gt => q + 1
  | Eq => if Z.even q then q else q + 1
  end.

(** [m * 2 ^ s] in lowest terms. *)
Definition scaled (m s : Z) : Q :=
  if 0 <=? s then (m * 2 ^ s) # 1 else Qred (m # Z.to_pos (2 ^ (- s))).

(** The binary32 value of a Python float: 24 significant bits,
    exponents from -126 (below that the spacing stays [2 ^ -149]) to 127,
    anything that rounds to [2 ^ 128] or more is an infinity. *)
Definition of_float (x : Q) : t :=
  let n := Z.abs (Qnum x) in
  let d := Zpos (Qden x) in
  if n =? 0 then finite 0
  else
    let e := Z.max (floor_log2 n d) (-126) in
    let s := e - 23 in
    let m := round_half_even (n * 2 ^ Z.max 0 (- s)) (d * 2 ^ Z.max 0 s) in
    if (128 <=? e) || ((e =? 127) && (m =? 2 ^ 24)) then inf (Qnum x <? 0)
    else finite (scaled (if Qnum x <? 0 then - m else m) s).

End Float32.

(** ** The vector index library

    [faiss.IndexFlatL2] as the scripts use it, after the library's
    documented behaviour (the library itself is not part of the
    repository): an exhaustive squared-Euclidean search over the stored
    binary32 rows.  The distance kernel is a parameter: its result is a
    binary32 value whose last bits depend on the order in which the
    build of the library sums the squares. *)

Module Faiss.

Definition Vec : Type := list Float32.t.

Record IndexFlatL2 : Type := mkIndex { dim : Z; xb : list Vec }.

Definition ntotal (ix : IndexFlatL2) : Z := len (xb ix).

(** [faiss.IndexFlatL2(dim)]. *)
Definition new_index (d : Z) : IndexFlatL2 := {| dim := d; xb := [] |}.

(** [index.add(x)]: the wrapper asserts that the matrix width is the
    index dimension and appends the rows in order. *)
Definition add (ix : IndexFlatL2) (x : list Vec) : result IndexFlatL2 :=
  if forallb (fun v => len v =? dim ix) x
  then Ok {| dim := dim ix; xb := xb ix ++ x |}
  else Raise AssertionError.

(** [np.array(v, dtype='float32')] on one list of floats. *)
Definition as_float32 (v : floats) : Vec := map Float32.of_float v.

(** [np.array(rows, dtype='float32')] on a list of lists: a ragged list
    is rejected, every component is converted. *)
Definition np_array (rows : list floats) : result (list Vec) :=
  match rows with
  | [] => Ok []
  | r :: _ =>
      if forallb (fun v => len v =? len r) rows
      then Ok (map as_float32 rows)
      else Raise ValueError
  end.

(** The distance reported in a padded slot ([FLT_MAX]), which is also
    the initial bound of the result heap. *)
Definition FLT_MAX : Q := 340282346638528859811704183484516925440 # 1.

(** The order in which hits are returned. *)
Definition by_distance (h h' : Q * Z) : Prop := (fst h <= fst h')%Q.

(** Hits are kept ordered by ascending distance. *)
Fixpoint insert_hit (h : Q * Z) (l : list (Q * Z)) : list (Q * Z) :=
  match l with
  | [] => [h]
  | h' :: l' =>
      if Qle_bool (fst h) (fst h') then h :: l else h' :: insert_hit h l'
  end.

Section WithKernel.

(** [fvec_L2sqr(x, y, d)], the squared distance as the library computes
    it. *)
Variable fvec_L2sqr : Vec -> Vec -> Float32.t.

(** The stored rows with their distance to [x] and their row index. *)
Definition labelled (x : Vec) (rows : list Vec) : list (Float32.t * Z) :=
  imap (fun i v => (fvec_L2sqr x v, Z.of_nat i)) rows.

(** A row is a candidate when its distance is below the initial bound
    of the result heap; an infinite or NaN distance never is. *)
Definition rankable (h : Float32.t * Z) : option (Q * Z) :=
  match fst h with
  | Float32.finite d => if Qle_bool FLT_MAX d then None else Some (d, snd h)
  | _ => None
  end.

Definition candidates (x : Vec) (rows : list Vec) : list (Q * Z) :=
  omap rankable (labelled x rows).

Definition ranked_hits (ix : IndexFlatL2) (x : Vec) : list (Q * Z) :=
  fold_right insert_hit [] (candidates x (xb ix)).

(** [D, I = index.search(x, k)] for a one-row query matrix, returned as
    the list [zip(D[0], I[0])].  The wrapper asserts the query width and
    [k > 0]; when fewer than [k] candidates exist the tail is padded with
    label [-1]. *)
Definition search (ix : IndexFlatL2) (x : Vec) (k : Z) : result (list (Q * Z)) :=
  if negb (len x =? dim ix) || (k <=? 0) then Raise AssertionError
  else
    let hits := take (Z.to_nat k) (ranked_hits ix x) in
    Ok (hits ++ replicate (Z.to_nat k - length hits)%nat (FLT_MAX, -1)).

End WithKernel.

End Faiss.

(** ** Files, environment and observable calls *)

Module World.

(** A metadata record: a JSON object with string values. *)
Abbreviation record := (gmap string string).

(** What a file holds, seen through the reader that the scripts apply
    to it. *)
Inductive content : Type :=
| Text (s : string)
| Sqlite (searchIndex : option (list (string * option string)))
| FaissIndex (ix : Faiss.IndexFlatL2)
| Json (records : list record).

Inductive node : Type :=
| Dir
| File (c : content).

(** Calls that leave the process, and reads of the metadata sequence,
    in the order they happen.  [Stderr] is a diagnostic that a script
    prints itself before it exits, [PrintSnippet] the block printed for
    one result.  The informational lines on standard output
    ([Loading documents ...], [Embedding query: ...], [Top k results:]
    and the like) and the progress bar that [tqdm] draws on standard
    error are not recorded. *)
Inductive event : Type :=
| Stderr (diagnostic : string)
| EmbeddingCreate (input : list string) (model : string)
| IndexSearch (x : Faiss.Vec) (k : Z)
| MetaRead (idx : Z)
| PrintSnippet (name : string) (distance : Q) (chunk : string)
| Makedirs (path : string)
| WriteIndex (path : string)
| WriteMeta (path : string).

Record world : Type := mkWorld {
  files : gmap string node;
  environ : gmap string string;
  trace : list event
}.

(** State and exceptions. *)
Definition M (A : Type) : Type := world -> result A * world.

Definition ret {A} (a : A) : M A := fun w => (Ok a, w).

Definition bind {A B} (m : M A) (k : A -> M B) : M B :=
  fun w =>
    match m w with
    | (Ok a, w') => k a w'
    | (Raise e, w') => (Raise e, w')
    end.

Definition raise {A} (e : exn) : M A := fun w => (Raise e, w).

Definition lift {A} (r : result A) : M A := fun w => (r, w).

(** The world after the events [evs] have been observed. *)
Definition log (w : world) (evs : list event) : world :=
  {| files := files w; environ := environ w; trace := trace w ++ evs |}.

Definition emit (e : event) : M unit := fun w => (Ok tt, log w [e]).

Definition set_file (p : string) (n : node) : M unit :=
  fun w => (Ok tt, {| files := <[p := n]> (files w); environ := environ w; trace := trace w |}).

Definition stat (p : string) : M (option node) := fun w => (Ok (files w !! p), w).

Definition getenv (name : string) : M (option string) :=
  fun w => (Ok (environ w !! name), w).

Declare Scope py_scope.
Delimit Scope py_scope with py.
Notation "x <- c1 ;; c2" := (bind c1 (fun x => c2))
  (at level 100, c1 at next level, right associativity) : py_scope.
Notation "c1 ;; c2" := (bind c1 (fun _ => c2))
  (at level 100, right associativity) : py_scope.
Local Open Scope py_scope.

(** [os.path.isfile], [os.path.isdir]. *)
Definition is_file (n : option node) : bool :=
  match n with Some (File _) => true | _ => false end.

Definition is_dir (n : option node) : bool :=
  match n with Some Dir => true | _ => false end.

Definition isfile (p : string) : M bool := n <- stat p ;; ret (is_file n).

Definition isdir (p : string) : M bool := n <- stat p ;; ret (is_dir n).

(** [print(msg, file=sys.stderr); sys.exit(1)]. *)
Definition die {A} (msg : string) : M A :=
  emit (Stderr msg) ;; raise (SystemExit 1 msg).

(** A [for] loop over a list with the loop-carried state [s]. *)
Fixpoint for_each {A S} (l : list A) (body : S -> A -> M S) (s : S) : M S :=
  match l with
  | [] => ret s
  | x :: l' => s' <- body s x ;; for_each l' body s'
  end.

(** [args.openai_api_key or os.getenv('OPENAI_API_KEY')]. *)
Definition configured_key (flag : option string) : M (option string) :=
  env <- getenv "OPENAI_API_KEY" ;;
  ret (or_else flag env).

(** [os.path.dirname]. *)
Fixpoint drop_to_slash (rev_path : list ascii) : list ascii :=
  match rev_path with
  | [] => []
  | c :: r => if bool_decide (c = "/"%char) then rev_path else drop_to_slash r
  end.

Fixpoint lstrip_slashes (l : list ascii) : list ascii :=
  match l with
  | [] => []
  | c :: r => if bool_decide (c = "/"%char) then lstrip_slashes r else l
  end.

Definition dirname (p : string) : string :=
  let head := drop_to_slash (rev (list_ascii_of_string p)) in
  match lstrip_slashes head with
  | [] => string_of_list_ascii (rev head)
  | stripped => string_of_list_ascii (rev stripped)
  end.

(** The components of a path, and paths in canonical form: no empty
    component (so no doubled or trailing slash), no [.] and no [..].
    Files are kept under their canonical path; the statements about
    what is written are made for canonical paths, where one string names
    one file. *)
Fixpoint split_slash (cur rest : list ascii) : list string :=
  match rest with
  | [] => [string_of_list_ascii (rev cur)]
  | c :: rest' =>
      if bool_decide (c = "/"%char)
      then string_of_list_ascii (rev cur) :: split_slash [] rest'
      else split_slash (c :: cur) rest'
  end.

Definition proper (c : string) : bool :=
  negb (bool_decide (c = "")) && negb (bool_decide (c = "."))
  && negb (bool_decide (c = "..")).

Definition canonical (p : string) : bool :=
  match split_slash [] (list_ascii_of_string p) with
  | "" :: ((_ :: _) as rest) => forallb proper rest
  | components => forallb proper components
  end.

(** The directories that [os.makedirs(name)] looks at, outermost
    first: the prefixes of [name] that end with a component. *)
Fixpoint dir_prefixes (seen rest : list ascii) : list string :=
  match rest with
  | [] => [string_of_list_ascii (rev seen)]
  | c :: rest' =>
      if bool_decide (c = "/"%char)
      then string_of_list_ascii (rev seen) :: dir_prefixes (c :: seen) rest'
      else dir_prefixes (c :: seen) rest'
  end.

Definition names_directory (p : string) : bool :=
  negb (bool_decide (p = "")) && negb (ends_with_slash p).

Definition ancestors (name : string) : list string :=
  List.filter names_directory (dir_prefixes [] (list_ascii_of_string name)).

(** [os.mkdir(p)] inside [os.makedirs(..., exist_ok=True)]: an existing
    directory is accepted, a file in the way is an error. *)
Definition mkdir_exist_ok (_ : unit) (p : string) : M unit :=
  n <- stat p ;;
  match n with
  | Some (File _) => raise OSError
  | Some Dir => ret tt
  | None => set_file p Dir
  end.

(** [os.makedirs(name, exist_ok=True)]: every missing directory on the
    way to [name] is created; the empty name is an error. *)
Definition makedirs (name : string) : M unit :=
  emit (Makedirs name) ;;
  if bool_decide (name = "") then raise OSError
  else for_each (ancestors name) mkdir_exist_ok tt.

End World.

Import World.
Local Open Scope py_scope.

(** ** [scripts/ingest_docset.py] *)

Module IngestDocset.

Section WithCollaborators.

(** The tokenizer, the HTML text extraction applied to a file's content
    ([open(..., errors='ignore').read()] followed by
    [BeautifulSoup(html, 'html.parser').get_text(separator=' ', strip=True)])
    and the embedding backend ([openai.Embedding.create], returning the
    list of the [embedding] fields of [resp['data']]). *)
Variable token : Type.
Variable encode : string -> list token.
Variable decode : list token -> string.
Variable soup_text : content -> string.
Variable embedding_create : list string -> string -> result (list floats).

(** [sqlite3.connect(idx_path)] and the query
    [SELECT name, path FROM searchIndex WHERE path NOT NULL]. *)
Definition select_name_path (idx_path : string) : M (list (string * string)) :=
  n <- stat idx_path ;;
  match n with
  | Some (File (Sqlite (Some rows))) =>
      ret (omap (fun r => match snd r with
                          | Some p => Some (fst r, p)
                          | None => None
                          end) rows)
  | _ => raise DatabaseError
  end.

(** One iteration of the loop over the index entries. *)
Definition read_entry (docs_dir : string) (docs : list (string * string))
    (entry : string * string) : M (list (string * string)) :=
  let (name, relpath) := entry in
  let file_path := path_join docs_dir relpath in
  n <- stat file_path ;;
  match n with
  | Some (File c) => ret (docs ++ [(name, soup_text c)])
  | _ => ret docs
  end.

Definition invalid_docset (docset_path : string) : string :=
  "Invalid docset path: " +:+ docset_path.

Definition get_documents (docset_path : string) : M (list (string * string)) :=
  let idx_path := path_join docset_path "Contents/Resources/docSet.dsidx" in
  let docs_dir := path_join docset_path "Contents/Resources/Documents" in
  has_idx <- isfile idx_path ;;
  has_docs <- isdir docs_dir ;;
  if negb has_idx || negb has_docs then die (invalid_docset docset_path)
  else
    entries <- select_name_path idx_path ;;
    for_each entries (read_entry docs_dir) [].

Definition chunk_text := Chunker.chunk_text token encode decode.

Definition embed_texts (texts : list string) (model : string) : M (list floats) :=
  emit (EmbeddingCreate texts model) ;;
  lift (embedding_create texts model).

(** The metadata record [{'name': name, 'text': chunk}]. *)
Definition meta_record (name chunk : string) : record :=
  <["name" := name]> {["text" := chunk]}.

(** The nested loop that fills [texts] and [meta]. *)
Definition collect_chunk (name : string) (acc : list string * list record)
    (chunk : string) : M (list string * list record) :=
  ret (fst acc ++ [chunk], snd acc ++ [meta_record name chunk]).

Definition collect_doc (acc : list string * list record)
    (doc : string * string) : M (list string * list record) :=
  let (name, text) := doc in
  chunks <- lift (chunk_text text Chunker.default_max_tokens Chunker.default_overlap) ;;
  for_each chunks (collect_chunk name) acc.

Definition batch_size : Z := 50.

(** One iteration of the batching loop. *)
Definition embed_batch (texts : list string) (model : string)
    (embeddings : list floats) (i : Z) : M (list floats) :=
  let batch := slice texts i (i + batch_size) in
  embs <- embed_texts batch model ;;
  ret (embeddings ++ embs).

Record args : Type := mkArgs {
  docset : string;
  output : string;
  model : string;
  openai_api_key : option string
}.

Definition missing_key : string :=
  "Missing OpenAI API key (set --openai_api_key or env OPENAI_API_KEY)".

Definition write_index (ix : Faiss.IndexFlatL2) (path : string) : M unit :=
  emit (WriteIndex path) ;;
  n <- stat path ;;
  match n with
  | Some Dir => raise RuntimeError
  | _ => set_file path (File (FaissIndex ix))
  end.

Definition json_dump (meta : list record) (path : string) : M unit :=
  emit (WriteMeta path) ;;
  n <- stat path ;;
  match n with
  | Some Dir => raise OSError
  | _ => set_file path (File (Json meta))
  end.

Definition main (a : args) : M unit :=
  key <- configured_key (openai_api_key a) ;;
  if negb (truthy key) then die missing_key
  else
    docs <- get_documents (docset a) ;;
    match docs with
    | [] => die "No documents found in docset."
    | _ =>
        acc <- for_each docs collect_doc ([], []) ;;
        let (texts, meta) := acc : list string * list record in
        starts <- lift (range 0 (len texts) batch_size) ;;
        embeddings <- for_each starts (embed_batch texts (model a)) [] ;;
        first <- lift (getitem embeddings 0) ;;
        let index := Faiss.new_index (len first) in
        rows <- lift (Faiss.np_array embeddings) ;;
        index <- lift (Faiss.add index rows) ;;
        makedirs (dirname (output a)) ;;
        write_index index (output a) ;;
        let meta_file := output a +:+ ".meta.json" in
        json_dump meta meta_file
    end.

End WithCollaborators.

End IngestDocset.

(** ** [scripts/query_docset.py] *)

Module QueryDocset.

Section WithBackend.

(** The distance kernel of the vector index library and the embedding
    backend. *)
Variable fvec_L2sqr : Faiss.Vec -> Faiss.Vec -> Float32.t.
Variable embedding_create : list string -> string -> result (list floats).

Definition embed_query (query model : string) : M floats :=
  emit (EmbeddingCreate [query] model) ;;
  data <- lift (embedding_create [query] model) ;;
  lift (getitem data 0).

Definition load_index (index_path : string) : M Faiss.IndexFlatL2 :=
  n <- stat index_path ;;
  match n with
  | Some (File c) =>
      match c with
      | FaissIndex ix => ret ix
      | _ => raise RuntimeError
      end
  | _ => die ("Index file not found: " +:+ index_path)
  end.

Definition load_metadata (meta_path : string) : M (list record) :=
  n <- stat meta_path ;;
  match n with
  | Some (File c) =>
      match c with
      | Json records => ret records
      | _ => raise JSONDecodeError
      end
  | _ => die ("Metadata file not found: " +:+ meta_path)
  end.

Definition index_search (index : Faiss.IndexFlatL2) (vec : Faiss.Vec) (k : Z)
    : M (list (Q * Z)) :=
  emit (IndexSearch vec k) ;;
  lift (Faiss.search fvec_L2sqr index vec k).

Definition meta_getitem (meta : list record) (idx : Z) : M record :=
  emit (MetaRead idx) ;;
  lift (getitem meta idx).

(** The body of the result loop. *)
Definition show_result (meta : list record) (_ : unit) (hit : Q * Z) : M unit :=
  let (dist, idx) := hit in
  entry <- meta_getitem meta idx ;;
  chunk <- lift (dict_getitem entry "text") ;;
  entry' <- meta_getitem meta idx ;;
  let name := dict_get entry' "name" "<unknown>" in
  emit (PrintSnippet name dist chunk).

Record args : Type := mkArgs {
  index : string;
  meta : string;
  query : string;
  model : string;
  openai_api_key : option string;
  topk : Z
}.

Definition missing_key : string :=
  "Missing OpenAI API key (set --openai_api_key or env OPENAI_API_KEY)".

Definition main (a : args) : M unit :=
  key <- configured_key (openai_api_key a) ;;
  if negb (truthy key) then die missing_key
  else
    ix <- load_index (index a) ;;
    records <- load_metadata (meta a) ;;
    embedding <- embed_query (query a) (model a) ;;
    let vec := Faiss.as_float32 embedding in
    hits <- index_search ix vec (topk a) ;;
    for_each hits (show_result records) tt.

End WithBackend.

End QueryDocset.

(** ** [scripts/assist.py] *)

Module Assist.

Section WithBackend.

Variable fvec_L2sqr : Faiss.Vec -> Faiss.Vec -> Float32.t.
Variable embedding_create : list string -> string -> result (list floats).

Definition load_index (path : string) : M Faiss.IndexFlatL2 :=
  n <- stat path ;;
  match n with
  | Some (File c) =>
      match c with
      | FaissIndex ix => ret ix
      | _ => raise RuntimeError
      end
  | _ => die ("Index file not found: " +:+ path)
  end.

Definition load_metadata (path : string) : M (list record) :=
  n <- stat path ;;
  match n with
  | Some (File c) =>
      match c with
      | Json records => ret records
      | _ => raise JSONDecodeError
      end
  | _ => die ("Metadata file not found: " +:+ path)
  end.

Definition embed_text (text model : string) : M floats :=
  emit (EmbeddingCreate [text] model) ;;
  data <- lift (embedding_create [text] model) ;;
  lift (getitem data 0).

(** A result dictionary [{'name': _, 'chunk': _, 'distance': _}]. *)
Record snippet : Type := mkSnippet {
  name : string;
  chunk : string;
  distance : Q
}.

(** The body of the loop of [retrieve_docs]. *)
Definition join_hit (meta : list record) (results : list snippet) (hit : Q * Z)
    : M (list snippet) :=
  let (dist, idx) := hit in
  emit (MetaRead idx) ;;
  entry <- lift (getitem meta idx) ;;
  let text := dict_get entry "text" "" in
  let name := dict_get entry "name" "<unknown>" in
  ret (results ++ [{| name := name; chunk := text; distance := dist |}]).

Definition retrieve_docs (index : Faiss.IndexFlatL2) (meta : list record)
    (query embed_model : string) (topk : Z) : M (list snippet) :=
  emb <- embed_text query embed_model ;;
  let vec := Faiss.as_float32 emb in
  emit (IndexSearch vec topk) ;;
  hits <- lift (Faiss.search fvec_L2sqr index vec topk) ;;
  for_each hits (join_hit meta) [].

Record args : Type := mkArgs {
  index : string;
  meta : string;
  question : string;
  openai_api_key : option string;
  embed_model : string;
  topk : Z
}.

Definition print_snippet (_ : unit) (doc : snippet) : M unit :=
  emit (PrintSnippet (name doc) (distance doc) (chunk doc)).

Definition main (a : args) : M unit :=
  key <- configured_key (openai_api_key a) ;;
  if negb (truthy key) then die "Missing OpenAI API key"
  else
    ix <- load_index (index a) ;;
    records <- load_metadata (meta a) ;;
    docs <- retrieve_docs ix records (question a) (embed_model a) (topk a) ;;
    for_each docs print_snippet tt.

End WithBackend.

End Assist.

(** ** Vocabulary for the statements about retrieval *)

Module Retrieval.

(** The metadata record that [meta[idx]] evaluates to. *)
Definition meta_at (meta : list record) (idx : Z) : record :=
  match getitem meta idx with
  | Ok entry => entry
  | Raise _ => ∅
  end.

(** The result assembled by [retrieve_docs] from one hit. *)
Definition snippet_of (meta : list record) (hit : Q * Z) : Assist.snippet :=
  let entry := meta_at meta (snd hit) in
  {| Assist.name := dict_get entry "name" "<unknown>";
     Assist.chunk := dict_get entry "text" "";
     Assist.distance := fst hit |}.

(** What [query_docset.py] does for one hit whose record has a text. *)
Definition shown (meta : list record) (hit : Q * Z) : list event :=
  let entry := meta_at meta (snd hit) in
  [MetaRead (snd hit); MetaRead (snd hit);
   PrintSnippet (dict_get entry "name" "<unknown>") (fst hit) (dict_get entry "text" "")].

Definition readable (meta : list record) (hit : Q * Z) : Prop :=
  exists entry, getitem meta (snd hit) = Ok entry.

Definition has_text (entry : record) : Prop := is_Some (entry !! "text").

(** The key is configured and both artifacts load. *)
Definition loaded (w : world) (flag : option string) (index_path meta_path : string)
    (ix : Faiss.IndexFlatL2) (records : list record) : Prop :=
  truthy (or_else flag (environ w !! "OPENAI_API_KEY")) = true /\
  files w !! index_path = Some (File (FaissIndex ix)) /\
  files w !! meta_path = Some (File (Json records)).

End Retrieval.

(** ** Vocabulary for the statements about ingestion *)

Module Ingestion.

(** An event that persists something. *)
Definition is_persist (ev : event) : bool :=
  match ev with
  | Makedirs _ | WriteIndex _ | WriteMeta _ => true
  | _ => false
  end.

Definition is_embedding_call (ev : event) : bool :=
  match ev with
  | EmbeddingCreate _ _ => true
  | _ => false
  end.

(** The rows the SQL query returns. *)
Definition selected (rows : list (string * option string)) : list (string * string) :=
  omap (fun r => match snd r with
                 | Some p => Some (fst r, p)
                 | None => None
                 end) rows.

Definition idx_path (docset_path : string) : string :=
  path_join docset_path "Contents/Resources/docSet.dsidx".

Definition docs_dir (docset_path : string) : string :=
  path_join docset_path "Contents/Resources/Documents".

(** The backend call made for the batch that starts at [i]. *)
Definition batch_call (texts : list string) (model : string) (i : Z) : event :=
  EmbeddingCreate (slice texts i (i + IngestDocset.batch_size)) model.

(** The index built from the embeddings: [len(embeddings[0])],
    [np.array] and [index.add]. *)
Definition build (embeddings : list floats) : result Faiss.IndexFlatL2 :=
  match getitem embeddings 0 with
  | Raise e => Raise e
  | Ok first =>
      match Faiss.np_array embeddings with
      | Raise e => Raise e
      | Ok rows => Faiss.add (Faiss.new_index (len first)) rows
      end
  end.

(** The last three statements of [main]. *)
Definition persist (ix : Faiss.IndexFlatL2) (meta : list record)
    (a : IngestDocset.args) : M unit :=
  makedirs (dirname (IngestDocset.output a)) ;;
  IngestDocset.write_index ix (IngestDocset.output a) ;;
  IngestDocset.json_dump meta (IngestDocset.output a +:+ ".meta.json").

Definition no_documents : string := "No documents found in docset.".

Section WithCollaborators.

Variable token : Type.
Variable encode : string -> list token.
Variable decode : list token -> string.
Variable soup_text : content -> string.
Variable embedding_create : list string -> string -> result (list floats).

(** The document of one index entry, when its page exists. *)
Definition page (fs : gmap string node) (dir : string) (entry : string * string)
    : option (string * string) :=
  match fs !! path_join dir (snd entry) with
  | Some (File c) => Some (fst entry, soup_text c)
  | _ => None
  end.

(** The chunks of one document and the two sequences that the nested
    loop of [main] builds from the documents. *)
Definition chunks_of (text : string) : list string :=
  match IngestDocset.chunk_text token encode decode text
          Chunker.default_max_tokens Chunker.default_overlap with
  | Ok chunks => chunks
  | Raise _ => []
  end.

Definition texts_of (docs : list (string * string)) : list string :=
  concat (map (fun doc => chunks_of (snd doc)) docs).

Definition meta_of (docs : list (string * string)) : list record :=
  concat (map (fun doc => map (IngestDocset.meta_record (fst doc)) (chunks_of (snd doc)))
              docs).

Definition batch_ok (texts : list string) (model : string) (i : Z) : Prop :=
  exists vs, embedding_create (slice texts i (i + IngestDocset.batch_size)) model = Ok vs.

End WithCollaborators.

End Ingestion.

(** ** Concrete collaborators and stores

    A deterministic stand-in for the embedding backend and small stores
    on which the scripts are run. *)

Module Sample.

(** One two-component vector per input text, in order. *)
Definition embed_one (t : string) : floats :=
  [Z.of_nat (String.length t) # 1; 1 # 1]%Q.

Definition embedding_create (texts : list string) (model : string)
    : result (list floats) :=
  Ok (map embed_one texts).

(** A backend that is down. *)
Definition embedding_down (texts : list string) (model : string)
    : result (list floats) :=
  Raise OpenAIError.

(** A backend that answers every call with one embedding only, however
    many texts it was sent. *)
Definition embedding_short (texts : list string) (model : string)
    : result (list floats) :=
  Ok (map embed_one (take 1 texts)).

(** A distance kernel without accumulated error: the exact squared
    distance, rounded once.  Every binary32 kernel agrees with it when
    the coordinates are small integers, as they are in the stores
    below. *)
Definition square_diff (a b : Float32.t) : Float32.t :=
  match a, b with
  | Float32.finite p, Float32.finite q => Float32.finite ((p - q) * (p - q))
  | Float32.nan, _ | _, Float32.nan => Float32.nan
  | Float32.inf s, Float32.inf s' => if Bool.eqb s s' then Float32.nan else Float32.inf false
  | _, _ => Float32.inf false
  end.

Definition plus (a b : Float32.t) : Float32.t :=
  match a, b with
  | Float32.finite p, Float32.finite q => Float32.finite (p + q)
  | Float32.nan, _ | _, Float32.nan => Float32.nan
  | _, _ => Float32.inf false
  end.

Definition fvec_L2sqr (x y : Faiss.Vec) : Float32.t :=
  match fold_right plus (Float32.finite 0) (zip_with square_diff x y) with
  | Float32.finite q => Float32.of_float q
  | other => other
  end.

Definition uiview : record := IngestDocset.meta_record "UIView Overview" "A view.".
Definition uibutton : record := IngestDocset.meta_record "UIButton Overview" "A button.".

Definition one_row : Faiss.IndexFlatL2 :=
  {| Faiss.dim := 2; Faiss.xb := [Faiss.as_float32 (embed_one "A view.")] |}.

Definition two_rows : Faiss.IndexFlatL2 :=
  {| Faiss.dim := 2;
     Faiss.xb := [Faiss.as_float32 (embed_one "A view.");
                  Faiss.as_float32 (embed_one "A button.")] |}.

Definition no_rows : Faiss.IndexFlatL2 := Faiss.new_index 2.

Definition store (ix : Faiss.IndexFlatL2) (meta : list record) : world :=
  {| files := <["data/docset_index.faiss" := File (FaissIndex ix)]>
                (<["data/docset_index.faiss.meta.json" := File (Json meta)]> ∅);
     environ := {["OPENAI_API_KEY" := "sk-test"]};
     trace := [] |}.

Definition query_args (k : Z) : QueryDocset.args :=
  {| QueryDocset.index := "data/docset_index.faiss";
     QueryDocset.meta := "data/docset_index.faiss.meta.json";
     QueryDocset.query := "A view?";
     QueryDocset.model := "text-embedding-ada-002";
     QueryDocset.openai_api_key := None;
     QueryDocset.topk := k |}.

Definition assist_args (k : Z) : Assist.args :=
  {| Assist.index := "data/docset_index.faiss";
     Assist.meta := "data/docset_index.faiss.meta.json";
     Assist.question := "A view?";
     Assist.openai_api_key := None;
     Assist.embed_model := "text-embedding-ada-002";
     Assist.topk := k |}.

(** A docset with two indexed pages, one entry whose page was pruned
    and one entry without a path. *)
Definition docset_files : gmap string node :=
  <["Apple.docset/Contents/Resources/docSet.dsidx" :=
      File (Sqlite (Some [("UIView Overview", Some "uiview.html");
                          ("Pruned", Some "gone.html");
                          ("No path", None);
                          ("UIButton Overview", Some "uibutton.html")]))]>
  (<["Apple.docset/Contents/Resources/Documents" := Dir]>
  (<["Apple.docset/Contents/Resources/Documents/uiview.html" := File (Text "A view.")]>
  (<["Apple.docset/Contents/Resources/Documents/uibutton.html" := File (Text "A button.")]>
   ∅))).

Definition docset_world : world :=
  {| files := docset_files;
     environ := {["OPENAI_API_KEY" := "sk-test"]};
     trace := [] |}.

(** The text of a page, for pages that are already plain text. *)
Definition plain_text (c : content) : string :=
  match c with
  | Text s => s
  | _ => ""
  end.

Definition ada : string := "text-embedding-ada-002".

(** The query vector of the question asked in the sample runs. *)
Definition asked : Faiss.Vec := Faiss.as_float32 (embed_one "A view?").

Definition ingest_args : IngestDocset.args :=
  {| IngestDocset.docset := "Apple.docset";
     IngestDocset.output := "data/docset_index.faiss";
     IngestDocset.model := "text-embedding-ada-002";
     IngestDocset.openai_api_key := None |}.

End Sample.

(** ** Vocabulary for the statements about whole runs *)

Module Scripts.

(** A computation that leaves files and environment alone and only
    adds events satisfying [P] to the trace. *)
Definition emits {A} (P : event -> Prop) (m : M A) : Prop :=
  forall w, exists evs, snd (m w) = log w evs /\ Forall P evs.

(** What a query run may do: call the backend, search, read metadata,
    print. *)
Definition is_query_event (ev : event) : bool :=
  match ev with
  | Makedirs _ | WriteIndex _ | WriteMeta _ => false
  | _ => true
  end.

(** A computation that leaves the environment alone and changes no
    file outside [paths]. *)
Definition confined {A} (paths : list string) (m : M A) : Prop :=
  forall w,
    environ (snd (m w)) = environ w /\
    forall p, p ∉ paths -> files (snd (m w)) !! p = files w !! p.

(** The path has no directory part. *)
Definition bare (p : string) : Prop := "/"%char ∉ list_ascii_of_string p.

(** The key that the scripts configure. *)
Definition key_of (w : world) (flag : option string) : option string :=
  or_else flag (environ w !! "OPENAI_API_KEY").

(** The paths that [ingest_docset.py] may create or overwrite: the
    directories on the way to the output file, the output file and its
    metadata companion. *)
Definition outputs (a : IngestDocset.args) : list string :=
  ancestors (dirname (IngestDocset.output a)) ++
  [IngestDocset.output a; IngestDocset.output a +:+ ".meta.json"].

Definition is_print (ev : event) : bool :=
  match ev with
  | PrintSnippet _ _ _ => true
  | _ => false
  end.

(** The index of a metadata read is a row index, not a sentinel. *)
Definition reads_row (n : Z) (ev : event) : Prop :=
  match ev with
  | MetaRead idx => 0 <= idx < n
  | _ => True
  end.

End Scripts.

(** ** Further stores: missing key, missing artifacts, pruned and blank
    docsets, an output path without directory *)

Module Cases.

(** A world with the key in the environment and the given files. *)
Definition keyed (fs : gmap string node) : world :=
  {| files := fs;
     environ := {["OPENAI_API_KEY" := "sk-test"]};
     trace := [] |}.

(** The sample docset and store, but no key anywhere. *)
Definition unkeyed : world :=
  {| files := Sample.docset_files; environ := ∅; trace := [] |}.

(** Only the index file is there; its metadata companion is not. *)
Definition index_only : world :=
  keyed {["data/docset_index.faiss" := File (FaissIndex Sample.one_row)]}.

(** The docset index lists pages, the pages are gone. *)
Definition pruned_rows : list (string * option string) :=
  [("UIView Overview", Some "uiview.html"); ("No path", None);
   ("UIButton Overview", Some "uibutton.html")].

Definition pruned : world :=
  keyed (<["Apple.docset/Contents/Resources/docSet.dsidx" :=
             File (Sqlite (Some pruned_rows))]>
         {["Apple.docset/Contents/Resources/Documents" := Dir]}).

(** One page, without any text. *)
Definition blank : world :=
  keyed (<["Apple.docset/Contents/Resources/docSet.dsidx" :=
             File (Sqlite (Some [("Blank", Some "blank.html")]))]>
        (<["Apple.docset/Contents/Resources/Documents" := Dir]>
         {["Apple.docset/Contents/Resources/Documents/blank.html" := File (Text "")]})).

(** [--output index.faiss]: no directory part. *)
Definition bare_args : IngestDocset.args :=
  {| IngestDocset.docset := "Apple.docset";
     IngestDocset.output := "index.faiss";
     IngestDocset.model := "text-embedding-ada-002";
     IngestDocset.openai_api_key := None |}.

(** A metadata record that has a name but no text. *)
Definition untexted : record := {["name" := "UIView Overview"]}.

(** The ingestion script with the byte tokenizer and plain-text pages. *)
Definition ingest (backend : list string -> string -> result (list floats))
    (a : IngestDocset.args) (w : world) : result unit * world :=
  IngestDocset.main ascii Chunker.byte_encode Chunker.byte_decode Sample.plain_text
    backend a w.

(** What the sample ingestion leaves behind. *)
Definition ingested : world :=
  {| files :=
       <["data/docset_index.faiss.meta.json" :=
           File (Json [Sample.uiview; Sample.uibutton])]>
       (<["data/docset_index.faiss" := File (FaissIndex Sample.two_rows)]>
       (<["data" := Dir]> Sample.docset_files));
     environ := {["OPENAI_API_KEY" := "sk-test"]};
     trace := [EmbeddingCreate ["A view."; "A button."] Sample.ada;
               Makedirs "data";
               WriteIndex "data/docset_index.faiss";
               WriteMeta "data/docset_index.faiss.meta.json"] |}.

End Cases.


(** * Proofs *)

Module PyFacts.

Lemma ceil_div_step (a s : Z) :
  0 < s -> 0 < a -> (a + s - 1) / s = 1 + (a - s + s - 1) / s.
Proof.
  intros Hs Ha.
  replace (a + s - 1) with ((a - s + s - 1) + 1 * s) by lia.
  rewrite Z.div_add by lia. lia.
Qed.

Lemma ceil_div_nonpos (a s : Z) : 0 < s -> a <= 0 -> (a + s - 1) / s <= 0.
Proof.
  intros Hs Ha.
  assert ((a + s - 1) / s < 1); [|lia].
  apply Z.div_lt_upper_bound; lia.
Qed.

Lemma ceil_div_bounds (a s : Z) :
  0 < s -> ((a + s - 1) / s - 1) * s < a <= (a + s - 1) / s * s.
Proof.
  intros Hs.
  pose proof (Z.div_mod (a + s - 1) s ltac:(lia)) as E.
  pose proof (Z.mod_pos_bound (a + s - 1) s Hs) as B.
  nia.
Qed.

Lemma range_up_closed (fuel : nat) (i stop step : Z) :
  0 < step -> stop - i <= Z.of_nat fuel ->
  range_up fuel i stop step =
  map (fun j : nat => i + Z.of_nat j * step)
      (seq 0 (Z.to_nat ((stop - i + step - 1) / step))).
Proof.
  intros Hstep. revert i.
  induction fuel as [|fuel IH]; intros i Hfuel.
  - pose proof (ceil_div_nonpos (stop - i) step Hstep ltac:(lia)) as Hc.
    replace (Z.to_nat _) with 0%nat by lia. reflexivity.
  - cbn [range_up]. destruct (Z.ltb_spec i stop) as [Hlt|Hge].
    + rewrite IH by lia.
      rewrite (ceil_div_step (stop - i) step) by lia.
      replace (stop - i - step + step - 1) with (stop - (i + step) + step - 1) by lia.
      set (c := (stop - (i + step) + step - 1) / step).
      assert (0 <= c) by (apply Z.div_pos; lia).
      replace (Z.to_nat (1 + c)) with (S (Z.to_nat c)) by lia.
      cbn [seq map]. f_equal; [lia|].
      rewrite <- seq_shift, map_map.
      apply map_ext. intros j. lia.
    + pose proof (ceil_div_nonpos (stop - i) step Hstep ltac:(lia)) as Hc.
      replace (Z.to_nat _) with 0%nat by lia. reflexivity.
Qed.

Lemma range_from_zero (stop step : Z) :
  0 < step ->
  range 0 stop step =
  Ok (map (fun j : nat => Z.of_nat j * step)
          (seq 0 (Z.to_nat ((stop + step - 1) / step)))).
Proof.
  intros Hstep. unfold range.
  destruct (Z.eqb_spec step 0); [lia|].
  destruct (Z.ltb_spec 0 step); [|lia].
  rewrite range_up_closed by lia.
  replace (stop - 0 + step - 1) with (stop + step - 1) by lia.
  f_equal.
Qed.

Lemma slice_nonneg {A} (l : list A) (lo hi : Z) :
  0 <= lo <= hi ->
  slice l lo hi = take (Z.to_nat (hi - lo)) (drop (Z.to_nat lo) l).
Proof.
  intros [Hlo Hhi]. unfold slice, slice_bound, len.
  destruct (Z.ltb_spec lo 0); [lia|].
  destruct (Z.ltb_spec hi 0); [lia|].
  destruct (Z.le_gt_cases (Z.of_nat (length l)) lo) as [Hout|Hin].
  - rewrite !Z.min_r by lia.
    rewrite !drop_ge by lia. by rewrite !take_nil.
  - rewrite (Z.min_l lo) by lia.
    destruct (Z.le_gt_cases hi (Z.of_nat (length l))).
    + by rewrite Z.min_l by lia.
    + rewrite Z.min_r by lia.
      rewrite !take_ge; [done| |]; rewrite length_drop; lia.
Qed.

Lemma getitem_nonneg {A} (l : list A) (i : Z) (x : A) :
  0 <= i -> l !! Z.to_nat i = Some x -> getitem l i = Ok x.
Proof.
  intros Hi Hx. unfold getitem, len.
  apply lookup_lt_Some in Hx as Hlt.
  destruct (Z.ltb_spec i 0); [lia|].
  destruct (Z.ltb_spec i 0); [lia|].
  destruct (Z.leb_spec (Z.of_nat (length l)) i); [lia|].
  cbn. by rewrite Hx.
Qed.

Lemma getitem_in_range {A} (l : list A) (i : Z) :
  0 <= i < len l -> exists x, l !! Z.to_nat i = Some x /\ getitem l i = Ok x.
Proof.
  intros Hi. unfold len in Hi.
  destruct (lookup_lt_is_Some_2 l (Z.to_nat i) ltac:(lia)) as [x Hx].
  exists x. split; [done|]. apply getitem_nonneg; [lia|done].
Qed.

Lemma getitem_minus_one {A} (l : list A) (x : A) :
  last l = Some x -> getitem l (-1) = Ok x.
Proof.
  intros Hx. rewrite last_lookup in Hx.
  apply lookup_lt_Some in Hx as Hlt.
  unfold getitem, len. cbn [Z.ltb Z.compare].
  destruct (Z.ltb_spec (-1 + Z.of_nat (length l)) 0); [lia|].
  destruct (Z.leb_spec (Z.of_nat (length l)) (-1 + Z.of_nat (length l))); [lia|].
  cbn [orb].
  replace (Z.to_nat (-1 + Z.of_nat (length l))) with (pred (length l)) by lia.
  by rewrite Hx.
Qed.

Lemma getitem_nil {A} (i : Z) : getitem (@nil A) i = Raise IndexError.
Proof.
  unfold getitem. destruct (_ || _); [done|]. by rewrite lookup_nil.
Qed.

End PyFacts.

(** ** Facts about the chunker *)

Module ChunkerFacts.

Import PyFacts.

Section WithTokenizer.

Variable token : Type.
Variable encode : string -> list token.
Variable decode : list token -> string.

Local Abbreviation chunk_text := (Chunker.chunk_text token encode decode).
Local Abbreviation token_windows := (Chunker.token_windows token).
Local Abbreviation strip_overlap := (Chunker.strip_overlap token).
Local Abbreviation window := (Chunker.window token).
Local Abbreviation window_count := Chunker.window_count.

Lemma fold_chunk_step (tokens : list token) (max_tokens : Z) (indices : list Z)
    (acc : list string) :
  fold_left (Chunker.chunk_step token decode tokens max_tokens) indices acc =
  acc ++ map (fun i => decode (slice tokens i (i + max_tokens))) indices.
Proof.
  revert acc. induction indices as [|i indices IH]; intros acc; cbn.
  - by rewrite app_nil_r.
  - rewrite IH. unfold Chunker.chunk_step. by rewrite <- app_assoc.
Qed.

Lemma chunk_text_decodes_windows (text : string) (max_tokens overlap : Z) :
  chunk_text text max_tokens overlap =
  match token_windows (encode text) max_tokens overlap with
  | Ok ws => Ok (map decode ws)
  | Raise e => Raise e
  end.
Proof.
  unfold Chunker.chunk_text, Chunker.token_windows.
  destruct (range _ _ _) as [indices|e]; [|done].
  by rewrite fold_chunk_step, map_map.
Qed.

Lemma token_windows_closed (tokens : list token) (max_tokens overlap : Z) :
  0 <= max_tokens -> overlap < max_tokens ->
  token_windows tokens max_tokens overlap =
  Ok (map (window tokens max_tokens (max_tokens - overlap))
          (seq 0 (window_count (len tokens) (max_tokens - overlap)))).
Proof.
  intros Hmax Hov. unfold Chunker.token_windows.
  rewrite range_from_zero by lia.
  rewrite map_map. f_equal. apply map_ext. intros j.
  rewrite slice_nonneg by nia. unfold Chunker.window.
  f_equal; [f_equal; lia|]. f_equal. nia.
Qed.

Lemma slice_window (tokens : list token) (max_tokens step i : Z) :
  0 <= i -> 0 < step -> 0 <= max_tokens ->
  slice tokens (i * step) (i * step + max_tokens) =
  window tokens max_tokens step (Z.to_nat i).
Proof.
  intros Hi Hs Hm. rewrite slice_nonneg by nia. unfold Chunker.window.
  replace (i * step + max_tokens - i * step) with max_tokens by lia.
  by rewrite Z2Nat.inj_mul by lia.
Qed.

Lemma window_count_bounds (n step : Z) :
  0 < step -> 0 <= n ->
  (Z.of_nat (window_count n step) - 1) * step < n <= Z.of_nat (window_count n step) * step.
Proof.
  intros Hs Hn. unfold Chunker.window_count.
  pose proof (ceil_div_bounds n step Hs).
  assert (0 <= (n + step - 1) / step) by (apply Z.div_pos; lia).
  rewrite Z2Nat.id by lia. lia.
Qed.

Lemma window_length (tokens : list token) (max_tokens step : Z) (j : nat) :
  0 < step -> 0 <= max_tokens ->
  len (window tokens max_tokens step j) =
  Z.min max_tokens (Z.max 0 (len tokens - Z.of_nat j * step)).
Proof.
  intros Hs Hm. unfold Chunker.window, len.
  rewrite length_take, length_drop. nia.
Qed.

(** Consecutive windows of width [s], advancing by [s], tile a prefix. *)
Lemma concat_tiles (l : list token) (s c : nat) :
  concat (map (fun j => take s (drop (j * s) l)) (seq 0 c)) = take (c * s) l.
Proof.
  induction c as [|c IH].
  - by rewrite take_0.
  - rewrite seq_S, map_app, concat_app, IH. cbn [map concat Nat.add].
    rewrite app_nil_r, take_take_drop. f_equal. lia.
Qed.

Lemma strip_windows (tokens : list token) (max_tokens overlap : Z) (c : nat) :
  0 <= overlap < max_tokens ->
  concat (strip_overlap overlap
            (map (window tokens max_tokens (max_tokens - overlap)) (seq 0 (S c)))) =
  take (Z.to_nat max_tokens + c * Z.to_nat (max_tokens - overlap)) tokens.
Proof.
  intros Hov. cbn [seq map]. unfold Chunker.strip_overlap.
  cbn [concat]. rewrite <- seq_shift, !map_map.
  rewrite <- take_take_drop. f_equal.
  rewrite <- concat_tiles. f_equal. apply map_ext. intros j.
  unfold Chunker.window. rewrite skipn_firstn_comm, !drop_drop.
  f_equal; [lia|]. f_equal. lia.
Qed.

Lemma strip_windows_covers (tokens : list token) (max_tokens overlap : Z) :
  0 <= overlap < max_tokens ->
  concat (strip_overlap overlap
            (map (window tokens max_tokens (max_tokens - overlap))
                 (seq 0 (window_count (len tokens) (max_tokens - overlap))))) = tokens.
Proof.
  intros Hov.
  pose proof (window_count_bounds (len tokens) (max_tokens - overlap)
                ltac:(lia) ltac:(unfold len; lia)) as [_ Hup].
  destruct (window_count _ _) as [|c] eqn:Hc.
  - cbn. unfold len in Hup. destruct tokens; [done|cbn in Hup; lia].
  - rewrite strip_windows by done. apply take_ge. unfold len in Hup. nia.
Qed.

Lemma string_length_append (a b : string) :
  String.length (a +:+ b) = (String.length a + String.length b)%nat.
Proof.
  induction a as [|c a IH]; [done|].
  change (String c a +:+ b) with (String c (a +:+ b)). cbn. by rewrite IH.
Qed.

(** C10: for 0 <= overlap < max_tokens and a text of n tokens,
    [chunk_text] returns ceiling(n / (max_tokens - overlap)) chunks (none
    for an empty token sequence); chunk i is the decoding of the slice
    that starts at i * (max_tokens - overlap) and has between one and
    max_tokens tokens, so no chunk comes from an empty window. *)
Theorem chunk_text_window_count (text : string) (max_tokens overlap : Z) :
  0 <= overlap < max_tokens ->
  let tokens := encode text in
  let step := max_tokens - overlap in
  exists chunks,
    Chunker.chunk_text token encode decode text max_tokens overlap = Ok chunks /\
    len chunks = (len tokens + step - 1) / step /\
    (len chunks - 1) * step < len tokens <= len chunks * step /\
    (tokens = [] -> chunks = []) /\
    (forall i, 0 <= i < len chunks ->
       let w := slice tokens (i * step) (i * step + max_tokens) in
       getitem chunks i = Ok (decode w) /\
       w = take (Z.to_nat max_tokens) (drop (Z.to_nat (i * step)) tokens) /\
       0 < len w <= max_tokens) /\
    ((forall ts, ts <> [] -> decode ts <> "") -> Forall (fun c => c <> "") chunks).
Proof.
  intros Hov tokens step.
  assert (Hn : 0 <= len tokens) by (unfold len; lia).
  assert (Hs : 0 < step) by (unfold step; lia).
  pose proof (chunk_text_decodes_windows text max_tokens overlap) as Hct.
  rewrite (token_windows_closed (encode text)) in Hct by lia.
  fold tokens step in Hct.
  set (c := window_count (len tokens) step) in *.
  pose proof (window_count_bounds (len tokens) step ltac:(lia)
                ltac:(unfold len; lia)) as Hb.
  fold c in Hb.
  assert (Hwin : forall j : nat, (j < c)%nat ->
            0 < len (window tokens max_tokens step j) <= max_tokens).
  { intros j Hj. rewrite window_length by lia. nia. }
  eexists. split; [exact Hct|].
  assert (Hlen : len (map decode (map (window tokens max_tokens step) (seq 0 c)))
                 = Z.of_nat c).
  { unfold len. by rewrite !length_map, length_seq. }
  rewrite Hlen. repeat split.
  - unfold c, Chunker.window_count. rewrite Z2Nat.id; [done|]. apply Z.div_pos; lia.
  - lia.
  - lia.
  - intros Hnil. rewrite Hnil in Hb. unfold len in Hb. cbn in Hb.
    assert (c = 0%nat) as -> by nia. done.
  - apply getitem_nonneg; [lia|].
    rewrite !list_lookup_fmap, lookup_seq_lt by lia. cbn.
    by rewrite slice_window by lia.
  - rewrite slice_window by lia. unfold Chunker.window.
    by rewrite Z2Nat.inj_mul by lia.
  - rewrite slice_window by lia. apply Hwin. lia.
  - rewrite slice_window by lia. apply Hwin. lia.
  - intros Hdec. rewrite Forall_fmap, Forall_fmap, Forall_forall.
    intros j Hj. cbn. apply Hdec. intros Hw.
    apply elem_of_seq in Hj. specialize (Hwin j ltac:(lia)).
    rewrite Hw in Hwin. unfold len in Hwin. cbn in Hwin. lia.
Qed.



End WithTokenizer.

(** The byte-level tokenizer satisfies the tokenizer laws used above. *)
Lemma byte_encode_decode (ts : list ascii) :
  Chunker.byte_encode (Chunker.byte_decode ts) = ts.
Proof. apply list_ascii_of_string_of_list_ascii. Qed.

Lemma byte_decode_app (a b : list ascii) :
  Chunker.byte_decode (a ++ b) = Chunker.byte_decode a +:+ Chunker.byte_decode b.
Proof.
  unfold Chunker.byte_decode. induction a as [|c a IH]; [done|].
  cbn [app string_of_list_ascii]. rewrite IH. done.
Qed.

Lemma byte_decode_nonempty (ts : list ascii) :
  ts <> [] -> Chunker.byte_decode ts <> "".
Proof. by destruct ts. Qed.

Lemma chunk_text_window_count_witness :
  0 <= 1 < 4 /\
  exists chunks,
    Chunker.chunk_text ascii Chunker.byte_encode Chunker.byte_decode
      "abcdefghij" 4 1 = Ok chunks /\
    len chunks = 4 /\
    Forall (fun c => c <> "") chunks.
Proof.
  split; [lia|].
  destruct (chunk_text_window_count ascii Chunker.byte_encode Chunker.byte_decode
              "abcdefghij" 4 1 ltac:(lia)) as (chunks & H1 & H2 & _ & _ & _ & H6).
  exists chunks. split; [exact H1|]. split; [exact H2|].
  exact (H6 byte_decode_nonempty).
Defined.





End ChunkerFacts.

(** ** Facts about the world monad and the vector index *)

Module WorldFacts.

Lemma log_nil (w : world) : log w [] = w.
Proof. destruct w. unfold log. cbn. by rewrite app_nil_r. Qed.

Lemma log_log (w : world) (a b : list event) : log (log w a) b = log w (a ++ b).
Proof. unfold log. cbn. by rewrite app_assoc. Qed.

(** A loop whose body only appends to the trace only appends to it. *)
Lemma for_each_appends {A S} (body : S -> A -> M S) :
  (forall s x w, exists evs, snd (body s x w) = log w evs) ->
  forall l s w, exists evs, snd (for_each l body s w) = log w evs.
Proof.
  intros Hbody l. induction l as [|x l IH]; intros s w.
  - exists []. cbn. by rewrite log_nil.
  - cbn [for_each]. unfold bind.
    destruct (Hbody s x w) as [evs Hevs].
    destruct (body s x w) as [[s'|e] w']; cbn in Hevs; subst w'.
    + destruct (IH s' (log w evs)) as [later ->].
      exists (evs ++ later). by rewrite log_log.
    + by exists evs.
Qed.

End WorldFacts.

Module FaissFacts.

Import Faiss.

Lemma insert_hit_perm (h : Q * Z) (l : list (Q * Z)) : insert_hit h l ≡ₚ h :: l.
Proof.
  induction l as [|h' l IH]; cbn; [done|].
  destruct (Qle_bool _ _); [done|].
  rewrite IH. apply Permutation_swap.
Qed.

Lemma insert_hit_head (h0 h : Q * Z) (l : list (Q * Z)) :
  by_distance h0 h -> HdRel by_distance h0 l -> HdRel by_distance h0 (insert_hit h l).
Proof.
  intros Hh Hl. destruct l as [|h' l]; cbn; [by constructor|].
  destruct (Qle_bool _ _); constructor; [done|]. by inversion Hl.
Qed.

Lemma insert_hit_sorted (h : Q * Z) (l : list (Q * Z)) :
  Sorted by_distance l -> Sorted by_distance (insert_hit h l).
Proof.
  induction l as [|h' l IH]; intros Hl; cbn; [by repeat constructor|].
  destruct (Qle_bool (fst h) (fst h')) eqn:E.
  - constructor; [done|]. constructor. by apply Qle_bool_iff.
  - inversion Hl; subst. constructor; [by apply IH|].
    apply insert_hit_head; [|done].
    unfold by_distance. apply Qlt_le_weak, Qnot_le_lt.
    intros Hle. apply Qle_bool_iff in Hle. congruence.
Qed.

Section WithKernel.

Variable fvec_L2sqr : Vec -> Vec -> Float32.t.

Local Abbreviation labelled := (Faiss.labelled fvec_L2sqr).
Local Abbreviation candidates := (Faiss.candidates fvec_L2sqr).
Local Abbreviation ranked_hits := (Faiss.ranked_hits fvec_L2sqr).
Local Abbreviation search := (Faiss.search fvec_L2sqr).

Lemma ranked_hits_perm (ix : IndexFlatL2) (x : Vec) :
  ranked_hits ix x ≡ₚ candidates x (xb ix).
Proof.
  unfold Faiss.ranked_hits.
  induction (candidates x (xb ix)) as [|h l IH]; cbn; [done|].
  by rewrite insert_hit_perm, IH.
Qed.

(** Hits come back in non-decreasing distance. *)
Lemma ranked_hits_sorted (ix : IndexFlatL2) (x : Vec) :
  Sorted by_distance (ranked_hits ix x).
Proof.
  unfold Faiss.ranked_hits.
  induction (candidates x (xb ix)) as [|h l IH]; cbn; [constructor|].
  by apply insert_hit_sorted.
Qed.

(** A candidate is a stored row whose distance is finite and below
    [FLT_MAX], with its row index. *)
Lemma candidate_row (x : Vec) (rows : list Vec) (h : Q * Z) :
  h ∈ candidates x rows <->
  exists (i : nat) row,
    rows !! i = Some row /\ fvec_L2sqr x row = Float32.finite (fst h) /\
    Qle_bool FLT_MAX (fst h) = false /\ snd h = Z.of_nat i.
Proof.
  unfold Faiss.candidates, Faiss.labelled. rewrite list_elem_of_omap. split.
  - intros ([d i] & Hin & Hr). apply elem_of_lookup_imap in Hin as (j & row & Heq & Hrow).
    inversion Heq; subst. unfold rankable in Hr. cbn [fst snd] in Hr.
    destruct (fvec_L2sqr x row) as [q| |] eqn:E; try done.
    destruct (Qle_bool FLT_MAX q) eqn:Hq; [done|]. inversion Hr; subst.
    exists j, row. by rewrite E.
  - intros (i & row & Hrow & Hd & Hq & Hi).
    exists (fvec_L2sqr x row, Z.of_nat i). split.
    + apply elem_of_lookup_imap. by exists i, row.
    + unfold rankable. cbn [fst snd]. rewrite Hd, Hq. destruct h; cbn in *. by subst.
Qed.

Lemma candidates_sublabels (x : Vec) (rows : list Vec) :
  map snd (candidates x rows) `sublist_of` map Z.of_nat (seq 0 (length rows)).
Proof.
  unfold Faiss.candidates, Faiss.labelled.
  assert (H : forall (n : nat),
             map snd (omap rankable
                        (imap (fun i v => (fvec_L2sqr x v, Z.of_nat (n + i))) rows))
             `sublist_of` map Z.of_nat (seq n (length rows))).
  { induction rows as [|row rows IH]; intros n; [done|].
    cbn [imap omap list_omap length seq map]. rewrite Nat.add_0_r.
    assert (Htail : map snd (omap rankable
                      (imap ((fun i v => (fvec_L2sqr x v, Z.of_nat (n + i))) ∘ S) rows))
                    `sublist_of` map Z.of_nat (seq (S n) (length rows))).
    { erewrite imap_ext; [apply (IH (S n))|].
      intros i v _. cbn. do 2 f_equal. lia. }
    unfold rankable at 1. cbn [fst snd].
    destruct (fvec_L2sqr x row) as [q| |]; try (by apply sublist_cons).
    destruct (Qle_bool FLT_MAX q); [by apply sublist_cons|].
    cbn [map]. by apply sublist_skip. }
  exact (H 0%nat).
Qed.

Lemma candidates_length (x : Vec) (rows : list Vec) :
  (length (candidates x rows) <= length rows)%nat.
Proof.
  pose proof (sublist_length _ _ (candidates_sublabels x rows)) as H.
  by rewrite !length_map, length_seq in H.
Qed.

Lemma ranked_hits_length (ix : IndexFlatL2) (x : Vec) :
  (length (ranked_hits ix x) <= length (xb ix))%nat.
Proof.
  rewrite (Permutation_length (ranked_hits_perm ix x)). apply candidates_length.
Qed.

Lemma ranked_hits_labels (ix : IndexFlatL2) (x : Vec) :
  Forall (fun h => 0 <= snd h < ntotal ix) (ranked_hits ix x).
Proof.
  rewrite (ranked_hits_perm ix x). apply Forall_forall. intros h Hh.
  apply candidate_row in Hh as (i & row & Hrow & _ & _ & ->).
  apply lookup_lt_Some in Hrow. unfold ntotal, len. lia.
Qed.

(** The hits name pairwise distinct rows. *)
Lemma ranked_hits_distinct (ix : IndexFlatL2) (x : Vec) (n : nat) :
  NoDup (map snd (take n (ranked_hits ix x))).
Proof.
  apply (sublist_NoDup _ (map snd (ranked_hits ix x))).
  - rewrite (ranked_hits_perm ix x).
    apply (sublist_NoDup _ (map Z.of_nat (seq 0 (length (xb ix))))).
    + apply (NoDup_fmap_2 Z.of_nat), NoDup_seq.
    + apply candidates_sublabels.
  - change (map snd (take n (ranked_hits ix x))) with
      (snd <$> take n (ranked_hits ix x)).
    rewrite fmap_take. apply sublist_take.
Qed.

(** When every stored row has a distance below [FLT_MAX], every row is
    a candidate. *)
Lemma candidates_all (x : Vec) (rows : list Vec) :
  Forall (fun row => exists d, fvec_L2sqr x row = Float32.finite d /\
                               Qle_bool FLT_MAX d = false) rows ->
  length (candidates x rows) = length rows.
Proof.
  unfold Faiss.candidates, Faiss.labelled. intros Hall.
  assert (H : forall f : nat -> nat,
             length (omap rankable (imap (fun i v => (fvec_L2sqr x v, Z.of_nat (f i))) rows))
             = length rows).
  { induction Hall as [|row rows (d & Hd & Hq) _ IH]; intros f; [done|].
    cbn [imap omap list_omap]. unfold rankable at 1. cbn [fst snd].
    rewrite Hd, Hq. cbn [length]. f_equal. apply (IH (f ∘ S)). }
  apply (H id).
Qed.

(** With [k] at least the number of candidates every candidate is
    returned and the tail is padded with the label [-1]. *)
Lemma search_padded (ix : IndexFlatL2) (x : Vec) (k : Z) :
  len x = dim ix -> 0 < k -> ntotal ix <= k ->
  search ix x k =
  Ok (ranked_hits ix x ++
      replicate (Z.to_nat k - length (ranked_hits ix x)) (FLT_MAX, -1)).
Proof.
  intros Hd Hk Hn. unfold Faiss.search.
  destruct (Z.eqb_spec (len x) (dim ix)); [|done].
  destruct (Z.leb_spec k 0); [lia|]. cbn [negb orb].
  pose proof (ranked_hits_length ix x) as Hl. unfold ntotal, len in *.
  by rewrite take_ge by lia.
Qed.

Lemma search_rejects (ix : IndexFlatL2) (x : Vec) (k : Z) :
  len x <> dim ix \/ k <= 0 -> search ix x k = Raise AssertionError.
Proof.
  intros H. unfold Faiss.search.
  destruct (Z.eqb_spec (len x) (dim ix)); [|done].
  destruct (Z.leb_spec k 0); [done|lia].
Qed.

Lemma as_float32_len (v : floats) : len (as_float32 v) = len v.
Proof. unfold as_float32, len. by rewrite length_map. Qed.

End WithKernel.

End FaissFacts.

(** ** Facts about retrieval ([assist.py], [query_docset.py]) *)

Module RetrievalFacts.

Import PyFacts WorldFacts FaissFacts Retrieval.

Lemma meta_at_in_range (meta : list record) (idx : Z) :
  0 <= idx < len meta ->
  meta !! Z.to_nat idx = Some (meta_at meta idx) /\ getitem meta idx = Ok (meta_at meta idx).
Proof.
  intros Hi. destruct (getitem_in_range meta idx Hi) as (e & He & Hg).
  unfold meta_at. by rewrite Hg.
Qed.

Lemma join_hits_run (meta : list record) (hits : list (Q * Z))
    (acc : list Assist.snippet) (w : world) :
  Forall (readable meta) hits ->
  for_each hits (Assist.join_hit meta) acc w =
  (Ok (acc ++ map (snippet_of meta) hits),
   log w (map (fun h => MetaRead (snd h)) hits)).
Proof.
  intros Hall. revert acc w.
  induction Hall as [|[dist idx] hits [e He] _ IH]; intros acc w; cbn.
  - by rewrite app_nil_r, log_nil.
  - cbn in He. unfold bind at 1. unfold Assist.join_hit, bind, emit, lift, ret.
    rewrite He. rewrite IH, log_log, <- app_assoc. cbn.
    unfold snippet_of, meta_at. cbn. by rewrite He.
Qed.

Lemma join_hits_fail (meta : list record) (hit : Q * Z) (hits : list (Q * Z))
    (acc : list Assist.snippet) (w : world) (e : exn) :
  getitem meta (snd hit) = Raise e ->
  for_each (hit :: hits) (Assist.join_hit meta) acc w =
  (Raise e, log w [MetaRead (snd hit)]).
Proof.
  intros He. destruct hit as [dist idx]. cbn in *.
  unfold bind, Assist.join_hit, bind, emit, lift. by rewrite He.
Qed.

Lemma show_result_run (meta : list record) (hit : Q * Z) (w : world) :
  readable meta hit -> has_text (meta_at meta (snd hit)) ->
  QueryDocset.show_result meta tt hit w = (Ok tt, log w (shown meta hit)).
Proof.
  destruct hit as [dist idx]. intros [e He] [t Ht]. cbn in He, Ht.
  unfold shown, meta_at in *. cbn [fst snd]. rewrite He in *.
  unfold QueryDocset.show_result, QueryDocset.meta_getitem, bind, emit, lift.
  rewrite He. unfold dict_getitem. rewrite Ht. cbn.
  rewrite !log_log. cbn. unfold dict_get at 3. by rewrite Ht.
Qed.

Lemma show_results_run (meta : list record) (hits : list (Q * Z)) (w : world) :
  Forall (readable meta) hits ->
  Forall (fun h => has_text (meta_at meta (snd h))) hits ->
  for_each hits (QueryDocset.show_result meta) tt w =
  (Ok tt, log w (concat (map (shown meta) hits))).
Proof.
  intros Hall. revert w.
  induction Hall as [|hit hits Hr _ IH]; intros w Htext.
  - cbn. by rewrite log_nil.
  - apply Forall_cons in Htext as [Ht Htext].
    cbn [for_each]. unfold bind. rewrite show_result_run by done.
    rewrite IH by done. by rewrite log_log.
Qed.

Lemma show_results_fail (meta : list record) (hit : Q * Z) (hits : list (Q * Z))
    (w : world) (e : exn) :
  getitem meta (snd hit) = Raise e ->
  for_each (hit :: hits) (QueryDocset.show_result meta) tt w =
  (Raise e, log w [MetaRead (snd hit)]).
Proof.
  intros He. destruct hit as [dist idx]. cbn in *.
  unfold bind, QueryDocset.show_result, QueryDocset.meta_getitem, bind, emit, lift.
  by rewrite He.
Qed.

Lemma show_result_appends (meta : list record) (u : unit) (hit : Q * Z) (w : world) :
  exists evs, snd (QueryDocset.show_result meta u hit w) = log w evs.
Proof.
  destruct hit as [dist idx].
  unfold QueryDocset.show_result, QueryDocset.meta_getitem, bind, emit, lift.
  destruct (getitem meta idx) as [e|err]; [|by eexists].
  destruct (dict_getitem e "text") as [t|err]; [|by eexists].
  rewrite !log_log. by eexists.
Qed.

Lemma join_hit_appends (meta : list record) (acc : list Assist.snippet)
    (hit : Q * Z) (w : world) :
  exists evs, snd (Assist.join_hit meta acc hit w) = log w evs.
Proof.
  destruct hit as [dist idx].
  unfold Assist.join_hit, bind, emit, lift, ret.
  destruct (getitem meta idx) as [e|err]; by eexists.
Qed.

Lemma print_snippets_run (docs : list Assist.snippet) (w : world) :
  exists evs, for_each docs Assist.print_snippet tt w = (Ok tt, log w evs).
Proof.
  revert w. induction docs as [|doc docs IH]; intros w.
  - exists []. cbn. by rewrite log_nil.
  - cbn [for_each]. unfold bind.
    change (Assist.print_snippet tt doc w) with
      (Ok tt, log w [PrintSnippet (Assist.name doc) (Assist.distance doc)
                       (Assist.chunk doc)]).
    cbv beta iota.
    destruct (IH (log w [PrintSnippet (Assist.name doc) (Assist.distance doc)
                           (Assist.chunk doc)])) as [evs ->].
    eexists. by rewrite log_log.
Qed.

Section WithBackend.

Variable fvec_L2sqr : Faiss.Vec -> Faiss.Vec -> Float32.t.
Variable embedding_create : list string -> string -> result (list floats).

Local Abbreviation ranked_hits := (Faiss.ranked_hits fvec_L2sqr).
Local Abbreviation search := (Faiss.search fvec_L2sqr).

Lemma retrieve_docs_run (ix : Faiss.IndexFlatL2) (meta : list record)
    (query model : string) (k : Z) (w : world) (emb : floats) (rest : list floats) :
  embedding_create [query] model = Ok (emb :: rest) ->
  Assist.retrieve_docs fvec_L2sqr embedding_create ix meta query model k w =
  let vec := Faiss.as_float32 emb in
  let w1 := log w [EmbeddingCreate [query] model; IndexSearch vec k] in
  match search ix vec k with
  | Ok hits => for_each hits (Assist.join_hit meta) [] w1
  | Raise e => (Raise e, w1)
  end.
Proof.
  intros Hemb.
  assert (Hg : getitem (emb :: rest) 0 = Ok emb) by reflexivity.
  unfold Assist.retrieve_docs, Assist.embed_text, bind, emit, lift.
  rewrite Hemb. cbv beta iota. rewrite Hg. cbv beta iota zeta.
  rewrite log_log. by destruct (Faiss.search fvec_L2sqr ix (Faiss.as_float32 emb) k).
Qed.

Lemma query_main_run (a : QueryDocset.args) (w : world)
    (ix : Faiss.IndexFlatL2) (records : list record)
    (emb : floats) (rest : list floats) :
  loaded w (QueryDocset.openai_api_key a) (QueryDocset.index a) (QueryDocset.meta a)
    ix records ->
  embedding_create [QueryDocset.query a] (QueryDocset.model a) = Ok (emb :: rest) ->
  QueryDocset.main fvec_L2sqr embedding_create a w =
  let vec := Faiss.as_float32 emb in
  let w1 := log w [EmbeddingCreate [QueryDocset.query a] (QueryDocset.model a);
                   IndexSearch vec (QueryDocset.topk a)] in
  match search ix vec (QueryDocset.topk a) with
  | Ok hits => for_each hits (QueryDocset.show_result records) tt w1
  | Raise e => (Raise e, w1)
  end.
Proof.
  intros (Hkey & Hix & Hmeta) Hemb.
  unfold QueryDocset.main, configured_key, getenv, bind at 1 2, ret.
  rewrite Hkey. cbn [negb].
  unfold QueryDocset.load_index, QueryDocset.load_metadata, stat, bind, ret.
  rewrite Hix, Hmeta.
  assert (Hg : getitem (emb :: rest) 0 = Ok emb) by reflexivity.
  unfold QueryDocset.embed_query, QueryDocset.index_search, bind, emit, lift.
  rewrite Hemb. cbv beta iota. rewrite Hg. cbv beta iota zeta.
  rewrite log_log. by destruct (Faiss.search fvec_L2sqr ix (Faiss.as_float32 emb) _).
Qed.

Lemma assist_main_run (a : Assist.args) (w : world)
    (ix : Faiss.IndexFlatL2) (records : list record) :
  loaded w (Assist.openai_api_key a) (Assist.index a) (Assist.meta a) ix records ->
  Assist.main fvec_L2sqr embedding_create a w =
  match Assist.retrieve_docs fvec_L2sqr embedding_create ix records (Assist.question a)
          (Assist.embed_model a) (Assist.topk a) w with
  | (Ok docs, w') => for_each docs Assist.print_snippet tt w'
  | (Raise e, w') => (Raise e, w')
  end.
Proof.
  intros (Hkey & Hix & Hmeta).
  unfold Assist.main, configured_key, getenv, bind at 1 2, ret.
  rewrite Hkey. cbn [negb].
  unfold Assist.load_index, Assist.load_metadata, stat, bind, ret.
  by rewrite Hix, Hmeta.
Qed.

(** C1, as the code has it: with k beyond the row count of a non-empty
    store whose metadata is aligned, the retrieval step emits one result
    per pair returned by the search, k in all.  The first come from the
    stored rows that the search ranks (those whose distance to the query
    vector is finite and below [FLT_MAX]; all rows when every distance
    is), in non-decreasing distance, each row at most once and each read
    at its own index.  The rest, at least k - row_count of them, are the
    padding: the -1 sentinels are not skipped, each is used as the index
    [meta[-1]], the last record, and gives one more result with the
    padding distance. *)
Theorem retrieval_beyond_row_count (a : QueryDocset.args) (w : world)
    (ix : Faiss.IndexFlatL2) (meta : list record)
    (emb : floats) (rest : list floats) :
  let query := QueryDocset.query a in
  let model := QueryDocset.model a in
  let k := QueryDocset.topk a in
  embedding_create [query] model = Ok (emb :: rest) ->
  len emb = Faiss.dim ix ->
  len meta = Faiss.ntotal ix ->
  1 <= Faiss.ntotal ix < k ->
  let vec := Faiss.as_float32 emb in
  let hits := Faiss.ranked_hits fvec_L2sqr ix vec in
  let pad := (Z.to_nat k - length hits)%nat in
  let sentinel := (Faiss.FLT_MAX, -1) in
  let w1 := log w [EmbeddingCreate [query] model; IndexSearch vec k] in
  let results := map (snippet_of meta) hits ++ replicate pad (snippet_of meta sentinel) in
  len hits <= Faiss.ntotal ix /\
  k - Faiss.ntotal ix <= Z.of_nat pad /\
  (Forall (fun row => exists d, fvec_L2sqr vec row = Float32.finite d /\
                                Qle_bool Faiss.FLT_MAX d = false) (Faiss.xb ix) ->
   len hits = Faiss.ntotal ix) /\
  Sorted Faiss.by_distance hits /\
  NoDup (map snd hits) /\
  Forall (fun h => 0 <= snd h < Faiss.ntotal ix /\
                   meta !! Z.to_nat (snd h) = Some (meta_at meta (snd h)) /\
                   exists row, Faiss.xb ix !! Z.to_nat (snd h) = Some row /\
                               fvec_L2sqr vec row = Float32.finite (fst h)) hits /\
  last meta = Some (meta_at meta (-1)) /\
  len results = k /\
  Assist.retrieve_docs fvec_L2sqr embedding_create ix meta query model k w =
    (Ok results,
     log w1 (map (fun h => MetaRead (snd h)) hits ++ replicate pad (MetaRead (-1)))) /\
  (loaded w (QueryDocset.openai_api_key a) (QueryDocset.index a) (QueryDocset.meta a)
     ix meta ->
   Forall has_text meta ->
   QueryDocset.main fvec_L2sqr embedding_create a w =
     (Ok tt,
      log w1 (concat (map (shown meta) hits) ++
              concat (replicate pad (shown meta sentinel))))).
Proof.
  intros query model k Hemb Hdim Hmeta Hk vec hits pad sentinel w1 results.
  pose proof (ranked_hits_length fvec_L2sqr ix vec) as Hlen. fold hits in Hlen.
  assert (Hlabels : Forall (fun h => 0 <= snd h < Faiss.ntotal ix /\
            meta !! Z.to_nat (snd h) = Some (meta_at meta (snd h)) /\
            exists row, Faiss.xb ix !! Z.to_nat (snd h) = Some row /\
                        fvec_L2sqr vec row = Float32.finite (fst h)) hits).
  { apply Forall_forall. intros h Hh.
    assert (Hc : h ∈ Faiss.candidates fvec_L2sqr vec (Faiss.xb ix))
      by (by rewrite <- (ranked_hits_perm fvec_L2sqr ix vec)).
    apply candidate_row in Hc as (i & row & Hrow & Hd & _ & Hi).
    apply lookup_lt_Some in Hrow as Hlt.
    assert (Hr : 0 <= snd h < Faiss.ntotal ix) by (unfold Faiss.ntotal, len; lia).
    split; [done|]. split; [apply meta_at_in_range; lia|].
    exists row. rewrite Hi, Nat2Z.id. done. }
  assert (exists e, last meta = Some e) as [e He].
  { destruct (last meta) eqn:E; [eauto|]. apply last_None in E. subst meta.
    unfold len in Hmeta. cbn in Hmeta. lia. }
  assert (Hsent : getitem meta (-1) = Ok e) by (by apply getitem_minus_one).
  assert (Hread : Forall (readable meta) (hits ++ replicate pad sentinel)).
  { apply Forall_app. split.
    - eapply Forall_impl; [exact Hlabels|]. intros h (Hh & _ & _).
      exists (meta_at meta (snd h)). apply meta_at_in_range. lia.
    - apply Forall_replicate. by exists e. }
  assert (Hsearch : Faiss.search fvec_L2sqr ix vec k
                    = Ok (hits ++ replicate pad sentinel)).
  { apply search_padded; [unfold vec; by rewrite as_float32_len|lia|lia]. }
  split; [unfold Faiss.ntotal, len in *; lia|].
  split; [unfold pad, Faiss.ntotal, len in *; lia|].
  split.
  { intros Hall. unfold hits, len, Faiss.ntotal.
    rewrite (Permutation_length (ranked_hits_perm fvec_L2sqr ix vec)).
    by rewrite (candidates_all fvec_L2sqr vec (Faiss.xb ix) Hall). }
  split; [apply ranked_hits_sorted|].
  split.
  { pose proof (ranked_hits_distinct fvec_L2sqr ix vec (length hits)) as Hnd.
    by rewrite take_ge in Hnd by done. }
  split; [exact Hlabels|].
  split; [unfold meta_at; by rewrite Hsent|].
  split.
  { unfold results, len. rewrite length_app, length_map, length_replicate.
    unfold pad, Faiss.ntotal, len in *. lia. }
  split.
  - rewrite (retrieve_docs_run _ _ _ _ _ _ _ _ Hemb). cbv zeta.
    fold k vec w1. rewrite Hsearch, join_hits_run by done.
    by rewrite !map_app, !fmap_replicate.
  - intros Hload Htext.
    rewrite (query_main_run _ _ _ _ _ _ Hload Hemb). cbv zeta.
    fold query model k vec w1. rewrite Hsearch.
    rewrite show_results_run; [by rewrite map_app, concat_app, fmap_replicate|done|].
    apply Forall_forall. intros h Hh.
    assert (readable meta h) as [eh Heh].
    { revert Hread. rewrite Forall_forall. intros Hread. by apply Hread. }
    unfold meta_at. rewrite Heh.
    revert Htext. rewrite Forall_forall. intros Htext. apply Htext.
    unfold getitem in Heh. destruct (_ || _); [done|].
    destruct (meta !! _) eqn:E; [|done]. inversion Heh; subst.
    by eapply list_elem_of_lookup_2.
Qed.

(** C3, as the code has it: on a store with no rows and no metadata
    neither script checks for emptiness.  The query is embedded and
    [index.search] is called with the query vector; the request then
    fails with the [IndexError] of the first metadata read at the
    sentinel index -1, or, when k <= 0 or the vector width is not the
    index dimension, with the assertion raised inside the search call. *)
Theorem retrieval_on_empty_store (a : QueryDocset.args) (w : world)
    (ix : Faiss.IndexFlatL2) (emb : floats) (rest : list floats) :
  let query := QueryDocset.query a in
  let model := QueryDocset.model a in
  let k := QueryDocset.topk a in
  embedding_create [query] model = Ok (emb :: rest) ->
  Faiss.ntotal ix = 0 ->
  let w1 := log w [EmbeddingCreate [query] model;
                   IndexSearch (Faiss.as_float32 emb) k] in
  let can_search := bool_decide (len emb = Faiss.dim ix /\ 0 < k) in
  let failure := if can_search then IndexError else AssertionError in
  let w2 := if can_search then log w1 [MetaRead (-1)] else w1 in
  Assist.retrieve_docs fvec_L2sqr embedding_create ix [] query model k w
    = (Raise failure, w2) /\
  (loaded w (QueryDocset.openai_api_key a) (QueryDocset.index a) (QueryDocset.meta a)
     ix [] ->
   QueryDocset.main fvec_L2sqr embedding_create a w = (Raise failure, w2)).
Proof.
  intros query model k Hemb Hn w1 can_search failure w2.
  assert (Hhits : ranked_hits ix (Faiss.as_float32 emb) = []).
  { apply length_zero_iff_nil.
    pose proof (ranked_hits_length fvec_L2sqr ix (Faiss.as_float32 emb)).
    unfold Faiss.ntotal, len in Hn. lia. }
  rewrite (retrieve_docs_run _ _ _ _ _ _ _ _ Hemb). cbv zeta. fold k w1.
  unfold failure, w2, can_search. case_bool_decide as Hcan.
  - destruct Hcan as [Hd Hk].
    rewrite search_padded by (rewrite ?as_float32_len; lia).
    rewrite Hhits. cbn [app length].
    destruct (Z.to_nat k - 0)%nat as [|n] eqn:E; [lia|]. cbn [replicate].
    rewrite (join_hits_fail _ _ _ _ _ _ (getitem_nil _)). cbn [fst snd].
    split; [done|].
    intros Hload. rewrite (query_main_run _ _ _ _ _ _ Hload Hemb). cbv zeta.
    fold query model k w1. rewrite search_padded by (rewrite ?as_float32_len; lia).
    rewrite Hhits. cbn [app length]. rewrite E. cbn [replicate].
    by rewrite (show_results_fail _ _ _ _ _ (getitem_nil _)).
  - rewrite search_rejects by (rewrite as_float32_len; lia). split; [done|].
    intros Hload. rewrite (query_main_run _ _ _ _ _ _ Hload Hemb). cbv zeta.
    fold query model k. by rewrite search_rejects by (rewrite as_float32_len; lia).
Qed.

(** C5, as the code has it: the result count is any integer and is not
    checked.  Once the artifacts and the query embedding are available,
    [index.search] is called with [topk] unchanged, whatever its sign;
    with [topk <= 0] the request ends in the assertion raised inside
    that call. *)
Theorem topk_reaches_search (qa : QueryDocset.args) (aa : Assist.args) (w : world)
    (ix : Faiss.IndexFlatL2) (meta : list record)
    (emb emb' : floats) (rest rest' : list floats) :
  loaded w (QueryDocset.openai_api_key qa) (QueryDocset.index qa) (QueryDocset.meta qa)
    ix meta ->
  loaded w (Assist.openai_api_key aa) (Assist.index aa) (Assist.meta aa) ix meta ->
  embedding_create [QueryDocset.query qa] (QueryDocset.model qa) = Ok (emb :: rest) ->
  embedding_create [Assist.question aa] (Assist.embed_model aa) = Ok (emb' :: rest') ->
  let called :=
    [EmbeddingCreate [QueryDocset.query qa] (QueryDocset.model qa);
     IndexSearch (Faiss.as_float32 emb) (QueryDocset.topk qa)] in
  let called' :=
    [EmbeddingCreate [Assist.question aa] (Assist.embed_model aa);
     IndexSearch (Faiss.as_float32 emb') (Assist.topk aa)] in
  (exists later,
     snd (QueryDocset.main fvec_L2sqr embedding_create qa w) = log w (called ++ later)) /\
  (exists later,
     snd (Assist.main fvec_L2sqr embedding_create aa w) = log w (called' ++ later)) /\
  (QueryDocset.topk qa <= 0 ->
   QueryDocset.main fvec_L2sqr embedding_create qa w
     = (Raise AssertionError, log w called)) /\
  (Assist.topk aa <= 0 ->
   Assist.main fvec_L2sqr embedding_create aa w
     = (Raise AssertionError, log w called')).
Proof.
  intros Hq Ha Hemb Hemb' called called'.
  rewrite (query_main_run _ _ _ _ _ _ Hq Hemb).
  rewrite (assist_main_run _ _ _ _ Ha).
  rewrite (retrieve_docs_run _ _ _ _ _ _ _ _ Hemb'). cbv zeta.
  fold called called'.
  split; [|split; [|split]].
  - destruct (Faiss.search fvec_L2sqr ix (Faiss.as_float32 emb) _) as [hits|e].
    + destruct (for_each_appends _ (show_result_appends meta) hits tt (log w called))
        as [later ->].
      exists later. by rewrite log_log.
    + exists []. by rewrite app_nil_r.
  - destruct (Faiss.search fvec_L2sqr ix (Faiss.as_float32 emb') _) as [hits|e].
    + destruct (for_each_appends _ (join_hit_appends meta) hits [] (log w called'))
        as [later Hl].
      destruct (for_each hits _ _ _) as [[docs|e] w'] eqn:E; cbn in Hl; subst w'.
      * destruct (print_snippets_run docs (log (log w called') later)) as [evs ->].
        exists (later ++ evs). by rewrite !log_log, app_assoc.
      * exists later. by rewrite log_log.
    + exists []. by rewrite app_nil_r.
  - intros Hk. by rewrite search_rejects by lia.
  - intros Hk. by rewrite search_rejects by lia.
Qed.


End WithBackend.

End RetrievalFacts.

(** ** Facts about ingestion ([ingest_docset.py]) *)

Module IngestFacts.

Import PyFacts WorldFacts ChunkerFacts Ingestion.
Local Open Scope py_scope.

Section WithCollaborators.

Variable token : Type.
Variable encode : string -> list token.
Variable decode : list token -> string.
Variable soup_text : content -> string.
Variable embedding_create : list string -> string -> result (list floats).

Local Abbreviation get_documents := (IngestDocset.get_documents soup_text).
Local Abbreviation collect_doc := (IngestDocset.collect_doc token encode decode).
Local Abbreviation embed_batch := (IngestDocset.embed_batch embedding_create).
Local Abbreviation main :=
  (IngestDocset.main token encode decode soup_text embedding_create).
Local Abbreviation page := (Ingestion.page soup_text).
Local Abbreviation chunks_of := (Ingestion.chunks_of token encode decode).
Local Abbreviation texts_of := (Ingestion.texts_of token encode decode).
Local Abbreviation meta_of := (Ingestion.meta_of token encode decode).
Local Abbreviation batch_ok := (Ingestion.batch_ok embedding_create).
Local Abbreviation window_count := Chunker.window_count.

Lemma read_entries_run (dir : string) (entries : list (string * string))
    (docs : list (string * string)) (w : world) :
  for_each entries (IngestDocset.read_entry soup_text dir) docs w =
  (Ok (docs ++ omap (page (files w) dir) entries), w).
Proof.
  revert docs. induction entries as [|[name relpath] entries IH]; intros docs.
  - cbn. by rewrite app_nil_r.
  - cbn [for_each]. unfold bind at 1.
    unfold IngestDocset.read_entry, bind, stat, ret. cbn [omap list_omap].
    unfold page at 1. cbn [fst snd].
    destruct (files w !! path_join dir relpath) as [[|c]|]; rewrite IH; try done.
    by rewrite <- app_assoc.
Qed.

Lemma get_documents_run (docset_path : string) (w : world) :
  get_documents docset_path w =
  if negb (is_file (files w !! idx_path docset_path))
     || negb (is_dir (files w !! docs_dir docset_path))
  then (Raise (SystemExit 1 (IngestDocset.invalid_docset docset_path)),
        log w [Stderr (IngestDocset.invalid_docset docset_path)])
  else match files w !! idx_path docset_path with
       | Some (File (Sqlite (Some rows))) =>
           (Ok (omap (page (files w) (docs_dir docset_path)) (selected rows)), w)
       | _ => (Raise DatabaseError, w)
       end.
Proof.
  unfold get_documents, IngestDocset.get_documents, isfile, isdir, bind, stat, ret.
  fold (idx_path docset_path) (docs_dir docset_path).
  destruct (negb _ || negb _); [done|].
  unfold IngestDocset.select_name_path, bind, stat, ret.
  destruct (files w !! idx_path docset_path) as [[|[s|[rows|]|ix|records]]|]; try done.
  fold (selected rows). by rewrite read_entries_run.
Qed.

Lemma default_chunks (text : string) :
  IngestDocset.chunk_text token encode decode text
    Chunker.default_max_tokens Chunker.default_overlap = Ok (chunks_of text).
Proof.
  unfold chunks_of, IngestDocset.chunk_text.
  rewrite chunk_text_decodes_windows.
  by rewrite token_windows_closed by done.
Qed.

Lemma collect_chunks_run (name : string) (chunks : list string)
    (acc : list string * list record) (w : world) :
  for_each chunks (IngestDocset.collect_chunk name) acc w =
  (Ok (fst acc ++ chunks, snd acc ++ map (IngestDocset.meta_record name) chunks), w).
Proof.
  revert acc. induction chunks as [|c chunks IH]; intros [texts meta].
  - cbn. by rewrite !app_nil_r.
  - cbn [for_each]. unfold bind.
    change (IngestDocset.collect_chunk name (texts, meta) c w) with
      (Ok (texts ++ [c], meta ++ [IngestDocset.meta_record name c]), w).
    cbv beta iota. rewrite IH. cbn [fst snd map]. by rewrite <- !app_assoc.
Qed.

Lemma collect_doc_run (acc : list string * list record) (doc : string * string)
    (w : world) :
  collect_doc acc doc w =
  (Ok (fst acc ++ chunks_of (snd doc),
       snd acc ++ map (IngestDocset.meta_record (fst doc)) (chunks_of (snd doc))), w).
Proof.
  destruct doc as [name text].
  unfold collect_doc, IngestDocset.collect_doc, bind, lift.
  rewrite default_chunks. apply collect_chunks_run.
Qed.

Lemma collect_docs_run (docs : list (string * string))
    (acc : list string * list record) (w : world) :
  for_each docs collect_doc acc w =
  (Ok (fst acc ++ texts_of docs, snd acc ++ meta_of docs), w).
Proof.
  revert acc. induction docs as [|doc docs IH]; intros acc.
  - cbn. rewrite !app_nil_r. by destruct acc.
  - cbn [for_each]. unfold bind. rewrite collect_doc_run, IH.
    unfold texts_of, meta_of. cbn [fst snd map concat]. by rewrite !app_assoc.
Qed.

(** The two sequences are built in lockstep. *)
Lemma meta_describes_texts (docs : list (string * string)) :
  Forall2 (fun rec chunk => exists name, rec = IngestDocset.meta_record name chunk)
    (meta_of docs) (texts_of docs).
Proof.
  unfold meta_of, texts_of. induction docs as [|[name text] docs IH]; cbn.
  - constructor.
  - apply Forall2_app; [|done].
    apply Forall2_fmap_l, Forall_Forall2_diag, Forall_forall. eauto.
Qed.

(** Record [i] is the record of chunk [i], made from a chunk of one of
    the documents and that document's name. *)
Lemma meta_names_documents (docs : list (string * string)) :
  Forall2 (fun rec chunk =>
             exists doc, doc ∈ docs /\ chunk ∈ chunks_of (snd doc) /\
                         rec = IngestDocset.meta_record (fst doc) chunk)
    (meta_of docs) (texts_of docs).
Proof.
  unfold Ingestion.meta_of, Ingestion.texts_of.
  induction docs as [|doc docs IH]; cbn [map concat]; [constructor|].
  apply Forall2_app.
  - apply Forall2_fmap_l, Forall_Forall2_diag, Forall_forall.
    intros chunk Hchunk. exists doc. split; [apply list_elem_of_here|done].
  - eapply Forall2_impl; [exact IH|].
    intros rec chunk (d & Hd & Hc & ->). exists d.
    split; [by apply list_elem_of_further|done].
Qed.

(** What a metadata record holds. *)
Lemma meta_record_fields (name chunk : string) :
  IngestDocset.meta_record name chunk !! "name" = Some name /\
  IngestDocset.meta_record name chunk !! "text" = Some chunk /\
  forall key, key <> "name" -> key <> "text" ->
              IngestDocset.meta_record name chunk !! key = None.
Proof.
  unfold IngestDocset.meta_record. split; [by rewrite lookup_insert_eq|].
  split; [by rewrite lookup_insert_ne, lookup_singleton_eq|].
  intros key Hn Ht. by rewrite lookup_insert_ne, lookup_singleton_ne.
Qed.

Lemma embed_batch_step (texts : list string) (model : string)
    (acc : list floats) (i : Z) (w : world) :
  embed_batch texts model acc i w =
  match embedding_create (slice texts i (i + IngestDocset.batch_size)) model with
  | Ok vs => (Ok (acc ++ vs), log w [batch_call texts model i])
  | Raise e => (Raise e, log w [batch_call texts model i])
  end.
Proof.
  unfold embed_batch, IngestDocset.embed_batch, IngestDocset.embed_texts,
    bind, emit, lift, ret, batch_call.
  by destruct (embedding_create _ _).
Qed.

(** The batching loop: which calls are made and how it ends. *)
Lemma embed_batches_run (texts : list string) (model : string) (starts : list Z)
    (acc : list floats) (w : world) :
  exists called,
    snd (for_each starts (embed_batch texts model) acc w) =
      log w (map (batch_call texts model) called) /\
    match fst (for_each starts (embed_batch texts model) acc w) with
    | Ok embeddings =>
        called = starts /\
        exists outs,
          Forall2 (fun i vs =>
                     embedding_create (slice texts i (i + IngestDocset.batch_size)) model
                     = Ok vs) starts outs /\
          embeddings = acc ++ concat outs
    | Raise e =>
        exists finished i,
          called = finished ++ [i] /\
          embedding_create (slice texts i (i + IngestDocset.batch_size)) model = Raise e /\
          Forall (batch_ok texts model) finished
    end.
Proof.
  revert acc w. induction starts as [|i starts IH]; intros acc w.
  - exists []. cbn. rewrite log_nil. split; [done|]. split; [done|].
    exists []. split; [constructor|]. by rewrite app_nil_r.
  - cbn [for_each]. unfold bind. rewrite embed_batch_step.
    destruct (embedding_create (slice texts i (i + IngestDocset.batch_size)) model)
      as [vs|e] eqn:Hcall.
    + destruct (IH (acc ++ vs) (log w [batch_call texts model i]))
        as (called & Hw & Hr).
      exists (i :: called). split.
      * rewrite Hw, log_log. done.
      * destruct (fst (for_each starts _ _ _)) as [embeddings|e].
        -- destruct Hr as (-> & outs & Houts & ->).
           split; [done|]. exists (vs :: outs). split; [by constructor|].
           cbn. by rewrite app_assoc.
        -- destruct Hr as (finished & j & -> & Hj & Hfin).
           exists (i :: finished), j. split; [done|]. split; [done|].
           constructor; [by exists vs|done].
    + exists [i]. split; [done|]. exists [], i. split; [done|]. split; [done|constructor].
Qed.

Lemma main_run (a : IngestDocset.args) (w : world) :
  main a w =
  if negb (truthy (or_else (IngestDocset.openai_api_key a)
                           (environ w !! "OPENAI_API_KEY")))
  then (Raise (SystemExit 1 IngestDocset.missing_key),
        log w [Stderr IngestDocset.missing_key])
  else
    match get_documents (IngestDocset.docset a) w with
    | (Raise e, w1) => (Raise e, w1)
    | (Ok [], w1) => (Raise (SystemExit 1 no_documents), log w1 [Stderr no_documents])
    | (Ok docs, w1) =>
        match range 0 (len (texts_of docs)) IngestDocset.batch_size with
        | Raise e => (Raise e, w1)
        | Ok starts =>
            match for_each starts (embed_batch (texts_of docs) (IngestDocset.model a))
                    [] w1 with
            | (Raise e, w2) => (Raise e, w2)
            | (Ok embeddings, w2) =>
                match build embeddings with
                | Raise e => (Raise e, w2)
                | Ok ix => persist ix (meta_of docs) a w2
                end
            end
        end
    end.
Proof.
  unfold main, IngestDocset.main, configured_key, getenv, bind at 1 2, ret.
  destruct (negb _); [done|].
  unfold bind at 1. fold get_documents.
  destruct (get_documents _ w) as [[docs|e] w1]; [|done].
  destruct docs as [|doc docs]; [done|].
  unfold bind at 1. fold collect_doc. rewrite collect_docs_run. cbn [fst snd app].
  unfold bind at 1, lift at 1.
  destruct (range _ _ _) as [starts|e]; [|done].
  unfold bind at 1. fold embed_batch.
  destruct (for_each starts _ _ _) as [[embeddings|e] w2]; [|done].
  unfold build, persist, bind, lift.
  destruct (getitem embeddings 0) as [first|e]; [|done].
  destruct (Faiss.np_array embeddings) as [rows|e]; [|done].
  by destruct (Faiss.add _ rows) as [ix|e].
Qed.

Lemma append_differs (s t : string) : t <> "" -> s <> s +:+ t.
Proof.
  intros Ht Heq. apply (f_equal String.length) in Heq.
  rewrite string_length_append in Heq.
  destruct t; [done|]. cbn in Heq. lia.
Qed.

Lemma mkdirs_run (dirs : list string) (w : world) :
  exists r fs,
    for_each dirs mkdir_exist_ok tt w =
    (r, {| files := fs; environ := environ w; trace := trace w |}).
Proof.
  revert w. induction dirs as [|d dirs IH]; intros w.
  - exists (Ok tt), (files w). by destruct w.
  - cbn [for_each]. unfold bind at 1.
    unfold mkdir_exist_ok at 1, bind, stat, set_file, raise, ret.
    destruct (files w !! d) as [[|c]|].
    + apply IH.
    + exists (Raise OSError), (files w). by destruct w.
    + match goal with
      | |- context [for_each dirs mkdir_exist_ok tt ?w1] =>
          destruct (IH w1) as (r & fs & ->)
      end.
      by exists r, fs.
Qed.

Lemma makedirs_run (d : string) (w : world) :
  exists r fs,
    makedirs d w =
    (r, {| files := fs; environ := environ w; trace := trace w ++ [Makedirs d] |}).
Proof.
  unfold makedirs, bind at 1, emit. cbv beta iota.
  case_bool_decide; [by eexists _, _|].
  destruct (mkdirs_run (ancestors d) (log w [Makedirs d])) as (r & fs & ->).
  by exists r, fs.
Qed.

Lemma write_and_dump_run (ix : Faiss.IndexFlatL2) (meta : list record)
    (out mf : string) (w : world) :
  out <> mf ->
  let run := (IngestDocset.write_index ix out ;; IngestDocset.json_dump meta mf)%py w in
  exists after,
    trace (snd run) = trace w ++ WriteIndex out :: after /\
    Forall (fun ev => is_persist ev = true) after /\
    (fst run = Ok tt ->
     files (snd run) !! out = Some (File (FaissIndex ix)) /\
     files (snd run) !! mf = Some (File (Json meta))).
Proof.
  intros Hne run. subst run.
  unfold IngestDocset.write_index, IngestDocset.json_dump,
    bind, emit, stat, set_file, raise, ret, log.
  cbn [files trace environ].
  destruct (files w !! out) as [[|c]|]; cbn [files trace environ fst snd];
    [exists []; split; [done|]; split; [constructor|done] | | ];
    rewrite lookup_insert_ne by done;
    (destruct (files w !! mf) as [[|c']|]; cbn [files trace environ fst snd];
     (eexists; split; [rewrite <- app_assoc; reflexivity|];
      split; [by repeat constructor|]); [done| |];
     intros _; (split; [by rewrite lookup_insert_ne, lookup_insert_eq by done
                       |by rewrite lookup_insert_eq])).
Qed.

Lemma persist_run (ix : Faiss.IndexFlatL2) (meta : list record)
    (a : IngestDocset.args) (w : world) :
  exists after,
    trace (snd (persist ix meta a w)) = trace w ++ after /\
    after <> [] /\
    Forall (fun ev => is_persist ev = true) after /\
    (fst (persist ix meta a w) = Ok tt ->
     files (snd (persist ix meta a w)) !! IngestDocset.output a
       = Some (File (FaissIndex ix)) /\
     files (snd (persist ix meta a w)) !! (IngestDocset.output a +:+ ".meta.json")
       = Some (File (Json meta))).
Proof.
  assert (Hne : IngestDocset.output a <> IngestDocset.output a +:+ ".meta.json")
    by (by apply append_differs).
  destruct (persist ix meta a w) as [r w'] eqn:E. cbn [fst snd].
  unfold persist in E. unfold bind at 1 in E.
  destruct (makedirs_run (dirname (IngestDocset.output a)) w) as (r0 & fs & Hmk).
  rewrite Hmk in E. destruct r0 as [[]|e]; cbv beta iota in E.
  - match type of E with
    | bind _ _ ?w1 = _ =>
        destruct (write_and_dump_run ix meta _ _ w1 Hne) as (after & Ht & Hp & Hf)
    end.
    cbv zeta in Ht, Hf. rewrite E in Ht, Hf. cbn [fst snd trace] in Ht, Hf.
    exists (Makedirs (dirname (IngestDocset.output a))
              :: WriteIndex (IngestDocset.output a) :: after).
    split; [by rewrite Ht, <- app_assoc|]. split; [done|].
    split; [|exact Hf].
    constructor; [done|]. constructor; [done|]. exact Hp.
  - inversion E; subst. cbn [trace]. eexists. split; [done|]. split; [done|].
    split; [by repeat constructor|done].
Qed.

(** After a successful [os.makedirs] every directory on the way
    exists. *)
Lemma mkdirs_dirs (dirs : list string) (w w1 : world) :
  for_each dirs mkdir_exist_ok tt w = (Ok tt, w1) ->
  (forall p, files w !! p = Some Dir -> files w1 !! p = Some Dir) /\
  Forall (fun d => files w1 !! d = Some Dir) dirs.
Proof.
  revert w. induction dirs as [|d dirs IH]; intros w.
  - cbn. intros H. inversion H; subst. by split.
  - cbn [for_each]. unfold bind at 1.
    unfold mkdir_exist_ok at 1, bind, stat, set_file, raise, ret.
    destruct (files w !! d) as [[|c]|] eqn:Hd; [|done|].
    + intros Hrun. destruct (IH _ Hrun) as [Hkeep Hall].
      split; [done|]. constructor; [by apply Hkeep|done].
    + intros Hrun. destruct (IH _ Hrun) as [Hkeep Hall]. cbn [files] in Hkeep.
      split.
      * intros p Hp. apply Hkeep.
        destruct (decide (p = d)) as [->|Hne];
          [by rewrite lookup_insert_eq|by rewrite lookup_insert_ne].
      * constructor; [|done]. apply Hkeep. by rewrite lookup_insert_eq.
Qed.

Lemma persist_dirs (ix : Faiss.IndexFlatL2) (meta : list record)
    (a : IngestDocset.args) (w w' : world) :
  persist ix meta a w = (Ok tt, w') ->
  Forall (fun d => files w' !! d = Some Dir)
    (ancestors (dirname (IngestDocset.output a))).
Proof.
  unfold persist, makedirs, bind at 1 2, emit. cbv beta iota.
  case_bool_decide; [done|].
  destruct (for_each _ mkdir_exist_ok tt _) as [[[]|e] w1] eqn:Hmk; [|done].
  apply mkdirs_dirs in Hmk as [_ Hdirs].
  unfold IngestDocset.write_index, IngestDocset.json_dump, bind, emit, stat, set_file,
    raise, ret, log. cbn [files trace environ].
  assert (Hend : forall fs0 : gmap string node,
            fs0 = <[IngestDocset.output a := File (FaissIndex ix)]> (files w1) ->
            files w1 !! IngestDocset.output a <> Some Dir ->
            fs0 !! (IngestDocset.output a +:+ ".meta.json") <> Some Dir ->
            Forall (fun d => <[IngestDocset.output a +:+ ".meta.json" := File (Json meta)]>
                               fs0 !! d = Some Dir)
              (ancestors (dirname (IngestDocset.output a)))).
  { intros fs0 -> Hout Hmf. eapply Forall_impl; [exact Hdirs|]. intros d Hd. cbn beta.
    assert (d <> IngestDocset.output a) by (intros ->; congruence).
    assert (d <> IngestDocset.output a +:+ ".meta.json").
    { intros ->. by rewrite lookup_insert_ne, Hd in Hmf. }
    by rewrite !lookup_insert_ne. }
  destruct (files w1 !! IngestDocset.output a) as [[|c]|] eqn:Hout; [done| |];
    cbn [files];
    match goal with
    | |- context [match ?x !! ?k with _ => _ end] =>
        destruct (x !! k) as [[|c']|] eqn:Hmf
    end; try done;
    intros Hrun; inversion Hrun; subst; cbn [files];
    apply Hend; congruence.
Qed.

Lemma get_documents_pure (docset_path : string) (w w1 : world)
    (docs : list (string * string)) :
  get_documents docset_path w = (Ok docs, w1) -> w1 = w.
Proof.
  rewrite get_documents_run. destruct (negb _ || negb _); [done|].
  destruct (files w !! idx_path docset_path) as [[|[s|[rows|]|ix|records]]|];
    intros H; by inversion H.
Qed.

Lemma get_documents_quiet (docset_path : string) (w : world) :
  exists evs,
    snd (get_documents docset_path w) = log w evs /\
    Forall (fun ev => is_persist ev = false) evs /\
    Forall (fun ev => is_embedding_call ev = false) evs.
Proof.
  rewrite get_documents_run. destruct (negb _ || negb _).
  - eexists. split; [done|]. split; by repeat constructor.
  - exists []. rewrite log_nil.
    destruct (files w !! idx_path docset_path) as [[|[s|[rows|]|ix|records]]|];
      (split; [done|]; split; constructor).
Qed.

Lemma batch_starts (texts : list string) :
  range 0 (len texts) IngestDocset.batch_size =
  Ok (map (fun j : nat => Z.of_nat j * IngestDocset.batch_size)
          (seq 0 (window_count (len texts) IngestDocset.batch_size))).
Proof. by apply range_from_zero. Qed.

(** The batches partition the texts. *)
Lemma batches_cover (texts : list string) (starts : list Z) :
  range 0 (len texts) IngestDocset.batch_size = Ok starts ->
  concat (map (fun i => slice texts i (i + IngestDocset.batch_size)) starts) = texts.
Proof.
  rewrite batch_starts. intros H. inversion H; subst. clear H.
  rewrite map_map.
  transitivity (concat (map (fun j : nat => take 50 (drop (j * 50) texts))
                  (seq 0 (window_count (len texts) IngestDocset.batch_size)))).
  - f_equal. apply map_ext. intros j.
    rewrite slice_window by (cbv [IngestDocset.batch_size]; lia).
    unfold Chunker.window. by rewrite Nat2Z.id.
  - rewrite concat_tiles. apply take_ge.
    pose proof (window_count_bounds (len texts) IngestDocset.batch_size
                  ltac:(done) ltac:(unfold len; lia)) as [_ Hup].
    unfold len, IngestDocset.batch_size in *. lia.
Qed.

Lemma build_rows (embeddings : list floats) (ix : Faiss.IndexFlatL2) :
  build embeddings = Ok ix -> Faiss.xb ix = map Faiss.as_float32 embeddings.
Proof.
  unfold build, Faiss.np_array, Faiss.add.
  destruct (getitem embeddings 0) as [first|e] eqn:Hg; [|done].
  destruct embeddings as [|r rows]; [by rewrite getitem_nil in Hg|].
  destruct (forallb (fun v => len v =? len r) (r :: rows)); [|done].
  cbn [Faiss.xb Faiss.new_index Faiss.dim].
  match goal with |- context [if ?b then _ else _] => destruct b end; [|done].
  intros H. by inversion H.
Qed.

Lemma embeddings_in_order (embeds : string -> floats -> Prop)
    (texts : list string) (model : string) (starts : list Z) (outs : list (list floats)) :
  (forall batch vs, embedding_create batch model = Ok vs -> Forall2 embeds batch vs) ->
  Forall2 (fun i vs =>
             embedding_create (slice texts i (i + IngestDocset.batch_size)) model = Ok vs)
    starts outs ->
  Forall2 embeds
    (concat (map (fun i => slice texts i (i + IngestDocset.batch_size)) starts))
    (concat outs).
Proof.
  intros Hc Hall. induction Hall as [|i vs starts outs Hi _ IH]; cbn.
  - constructor.
  - apply Forall2_app; [by apply Hc|done].
Qed.

Lemma batch_call_inv (texts : list string) (model : string) (called : list Z)
    (batch : list string) (m : string) :
  EmbeddingCreate batch m ∈ map (batch_call texts model) called ->
  exists i, i ∈ called /\
            batch = slice texts i (i + IngestDocset.batch_size) /\ m = model.
Proof.
  intros Hin. apply list_elem_of_fmap in Hin as (i & Heq & Hi).
  unfold batch_call in Heq. inversion Heq; subst. eauto.
Qed.

Lemma batch_calls_quiet (texts : list string) (model : string) (called : list Z) :
  Forall (fun ev => is_persist ev = false) (map (batch_call texts model) called).
Proof. apply Forall_fmap, Forall_forall. by intros. Qed.

(** After any number of documents the two sequences have the same
    length and are prefixes of the final ones. *)
Lemma collection_prefix (docs : list (string * string)) (n : nat) (w : world) :
  for_each (take n docs) collect_doc ([], []) w
    = (Ok (texts_of (take n docs), meta_of (take n docs)), w) /\
  texts_of (take n docs) `prefix_of` texts_of docs /\
  meta_of (take n docs) `prefix_of` meta_of docs /\
  length (texts_of (take n docs)) = length (meta_of (take n docs)).
Proof.
  split; [by rewrite collect_docs_run|].
  rewrite <- (take_drop n docs) at 2 4.
  unfold Ingestion.texts_of, Ingestion.meta_of.
  rewrite !map_app, !concat_app.
  split; [by eexists|]. split; [by eexists|].
  symmetry. apply (Forall2_length _ _ _ (meta_describes_texts (take n docs))).
Qed.

(** C9: every persisting step of [main] (creating the output directory,
    writing the index, writing the metadata) comes after all embedding
    calls.  If a batch call fails, the run ends with that error, no
    persisting step is taken and the files are unchanged; if anything
    was persisted, every batch of the chunk texts was sent to the
    backend and every call succeeded. *)
Theorem embedding_failure_persists_nothing (a : IngestDocset.args) (w : world) :
  let run := IngestDocset.main token encode decode soup_text embedding_create a w in
  exists before after,
    trace (snd run) = trace w ++ before ++ after /\
    Forall (fun ev => is_persist ev = false) before /\
    Forall (fun ev => is_persist ev = true) after /\
    (forall batch m e,
       EmbeddingCreate batch m ∈ before ->
       embedding_create batch m = Raise e ->
       fst run = Raise e /\ after = [] /\ files (snd run) = files w) /\
    (after <> [] \/ files (snd run) <> files w ->
     exists docs starts,
       IngestDocset.get_documents soup_text (IngestDocset.docset a) w = (Ok docs, w) /\
       range 0 (len (texts_of docs)) IngestDocset.batch_size = Ok starts /\
       before = map (batch_call (texts_of docs) (IngestDocset.model a)) starts /\
       Forall (batch_ok (texts_of docs) (IngestDocset.model a)) starts).
Proof.
  intros run. subst run. fold main. rewrite main_run.
  assert (Hstop : forall (r : result unit) evs,
    Forall (fun ev => is_persist ev = false) evs ->
    Forall (fun ev => is_embedding_call ev = false) evs ->
    exists before after,
      trace (snd (r, log w evs)) = trace w ++ before ++ after /\
      Forall (fun ev => is_persist ev = false) before /\
      Forall (fun ev => is_persist ev = true) after /\
      (forall batch m e,
         EmbeddingCreate batch m ∈ before ->
         embedding_create batch m = Raise e ->
         fst (r, log w evs) = Raise e /\ after = [] /\
         files (snd (r, log w evs)) = files w) /\
      (after <> [] \/ files (snd (r, log w evs)) <> files w ->
       exists docs starts,
         IngestDocset.get_documents soup_text (IngestDocset.docset a) w = (Ok docs, w) /\
         range 0 (len (texts_of docs)) IngestDocset.batch_size = Ok starts /\
         before = map (batch_call (texts_of docs) (IngestDocset.model a)) starts /\
         Forall (batch_ok (texts_of docs) (IngestDocset.model a)) starts)).
  { intros r evs Hp He. exists evs, []. cbn [fst snd trace files log].
    split; [by rewrite app_nil_r|]. split; [done|]. split; [constructor|].
    split.
    - intros batch m e Hin _. revert He. rewrite Forall_forall. intros He.
      by specialize (He _ Hin).
    - by intros [?|?]. }
  destruct (negb _).
  { apply Hstop; by repeat constructor. }
  destruct (get_documents_quiet (IngestDocset.docset a) w) as (evs & Hw1 & Hp1 & He1).
  destruct (get_documents _ w) as [[docs|e] w1] eqn:Hdocs; cbn [snd] in Hw1; subst w1;
    [|by apply Hstop].
  apply get_documents_pure in Hdocs as Hpure.
  destruct docs as [|doc docs].
  { rewrite log_log. apply Hstop.
    - apply Forall_app. split; [done|by repeat constructor].
    - apply Forall_app. split; [done|by repeat constructor]. }
  rewrite Hpure in *. clear Hpure Hp1 He1.
  set (texts := texts_of (doc :: docs)) in *.
  destruct (range 0 (len texts) IngestDocset.batch_size) as [starts|e] eqn:Hstarts.
  2:{ pose proof (Hstop (Raise e) [] ltac:(constructor) ltac:(constructor)) as H.
      by rewrite log_nil in H. }
  destruct (embed_batches_run texts (IngestDocset.model a) starts [] w)
    as (called & Hw2 & Hr).
  destruct (for_each starts _ _ _) as [[embeddings|e] w2]; cbn [fst snd] in Hw2, Hr;
    subst w2.
  - destruct Hr as (-> & outs & Houts & _).
    assert (Hall : Forall (batch_ok texts (IngestDocset.model a)) starts).
    { clear -Houts. induction Houts; constructor; [by eexists|done]. }
    assert (Hnofail : forall batch m e,
      EmbeddingCreate batch m ∈ map (batch_call texts (IngestDocset.model a)) starts ->
      embedding_create batch m = Raise e -> False).
    { intros batch m e Hin Hfail.
      apply batch_call_inv in Hin as (i & Hi & -> & ->).
      revert Hall. rewrite Forall_forall. intros Hall.
      destruct (Hall _ Hi) as [vs Hvs]. congruence. }
    destruct (build embeddings) as [ix|e].
    + destruct (persist_run ix (meta_of (doc :: docs)) a
                  (log w (map (batch_call texts (IngestDocset.model a)) starts)))
        as (after & Ht & Hne & Hp & _).
      exists (map (batch_call texts (IngestDocset.model a)) starts), after.
      split; [rewrite Ht; cbn [trace log]; by rewrite app_assoc|].
      split; [apply batch_calls_quiet|]. split; [done|].
      split; [intros batch m e Hin Hfail; by destruct (Hnofail _ _ _ Hin Hfail)|].
      intros _. by exists (doc :: docs), starts.
    + exists (map (batch_call texts (IngestDocset.model a)) starts), [].
      cbn [fst snd trace files log]. split; [by rewrite app_nil_r|].
      split; [apply batch_calls_quiet|]. split; [constructor|].
      split; [intros batch m e' Hin Hfail; by destruct (Hnofail _ _ _ Hin Hfail)|].
      by intros [?|?].
  - destruct Hr as (finished & i & -> & Hi & Hfin).
    exists (map (batch_call texts (IngestDocset.model a)) (finished ++ [i])), [].
    cbn [fst snd trace files log]. split; [by rewrite app_nil_r|].
    split; [apply batch_calls_quiet|]. split; [constructor|].
    split; [|by intros [?|?]].
    intros batch m e' Hin Hfail.
    apply batch_call_inv in Hin as (j & Hj & -> & ->).
    apply elem_of_app in Hj as [Hj|Hj].
    + revert Hfin. rewrite Forall_forall. intros Hfin.
      destruct (Hfin _ Hj) as [vs Hvs]. congruence.
    + apply list_elem_of_singleton in Hj as ->.
      split; [congruence|done].
Qed.


(** C8: [get_documents] exits with the invalid-docset diagnostic
    exactly when the index file or the document directory is absent.
    When both are present and the index holds the [searchIndex] table,
    it returns, without error and without touching the world, one
    [(name, text)] document for every indexed [(name, path)] pair whose
    page exists, in index order; pairs whose page is missing are left
    out. *)
Theorem get_documents_extracts (docset_path : string) (w : world) :
  let run := IngestDocset.get_documents soup_text docset_path w in
  let fs := files w in
  ((exists code msg, fst run = Raise (SystemExit code msg)) <->
   (is_file (fs !! idx_path docset_path) = false \/
    is_dir (fs !! docs_dir docset_path) = false)) /\
  (is_file (fs !! idx_path docset_path) = false \/
   is_dir (fs !! docs_dir docset_path) = false ->
   run = (Raise (SystemExit 1 (IngestDocset.invalid_docset docset_path)),
          log w [Stderr (IngestDocset.invalid_docset docset_path)])) /\
  (forall rows,
     fs !! idx_path docset_path = Some (File (Sqlite (Some rows))) ->
     is_dir (fs !! docs_dir docset_path) = true ->
     exists docs,
       run = (Ok docs, w) /\
       docs = omap (page fs (docs_dir docset_path)) (selected rows) /\
       (forall name relpath,
          (name, Some relpath) ∈ rows ->
          match fs !! path_join (docs_dir docset_path) relpath with
          | Some (File c) => (name, soup_text c) ∈ docs
          | _ => True
          end) /\
       (forall doc, doc ∈ docs ->
          exists relpath c,
            (fst doc, Some relpath) ∈ rows /\
            fs !! path_join (docs_dir docset_path) relpath = Some (File c) /\
            snd doc = soup_text c)).
Proof.
  intros run fs. subst run. fold get_documents.
  rewrite get_documents_run. fold fs.
  split; [|split].
  - split.
    + intros (code & msg & Hrun).
      destruct (is_file _), (is_dir _); cbn [negb orb] in *; auto.
      destruct (fs !! idx_path docset_path) as [[|[s|[rows|]|ix|records]]|];
        cbn [fst] in Hrun; discriminate.
    + intros [-> | ->]; rewrite ?orb_true_r; cbn [negb orb fst]; eauto.
  - intros [-> | ->]; by rewrite ?orb_true_r.
  - intros rows Hidx Hdir. rewrite Hidx, Hdir. cbn [is_file negb orb].
    eexists. split; [done|]. split; [done|]. split.
    + intros name relpath Hin.
      destruct (fs !! path_join _ relpath) as [[|c]|] eqn:E; try done.
      apply list_elem_of_omap. exists (name, relpath). split.
      * unfold selected. apply list_elem_of_omap. by exists (name, Some relpath).
      * unfold page. cbn [fst snd]. by rewrite E.
    + intros doc Hdoc.
      apply list_elem_of_omap in Hdoc as ([name relpath] & Hsel & Hpage).
      unfold selected in Hsel.
      apply list_elem_of_omap in Hsel as ([name' [p|]] & Hrow & Hp); [|done].
      cbn [fst snd] in Hp. inversion Hp; subst.
      unfold page in Hpage. cbn [fst snd] in Hpage.
      destruct (fs !! path_join _ relpath) as [[|c]|] eqn:E; try done.
      inversion Hpage; subst. cbn [fst snd]. eauto.
Qed.

End WithCollaborators.

End IngestFacts.

(** ** The scripts on concrete stores *)

Module Runs.

Import PyFacts WorldFacts FaissFacts RetrievalFacts IngestFacts Retrieval Ingestion Sample.

Lemma sample_store_loaded (ix : Faiss.IndexFlatL2) (meta : list record) (k : Z) :
  loaded (Sample.store ix meta) None "data/docset_index.faiss"
    "data/docset_index.faiss.meta.json" ix meta.
Proof. by repeat split. Qed.

Lemma sample_backend_in_order (batch : list string) (model : string)
    (vs : list floats) :
  Sample.embedding_create batch model = Ok vs ->
  Forall2 (fun t v => v = Sample.embed_one t) batch vs.
Proof.
  intros H. inversion H; subst.
  apply Forall2_fmap_r, Forall_Forall2_diag, Forall_forall. done.
Qed.

(** C1 fails as stated: one stored row and k = 2.  Two results come
    back, and the sentinel index -1 is used to read the metadata. *)
Lemma retrieval_sentinel_counterexample :
  let w := Sample.store Sample.one_row [Sample.uiview] in
  let hit := Assist.mkSnippet "UIView Overview" "A view." 0 in
  let padded := Assist.mkSnippet "UIView Overview" "A view." Faiss.FLT_MAX in
  Faiss.ntotal Sample.one_row = 1 /\
  len [hit; padded] <> Faiss.ntotal Sample.one_row /\
  MetaRead (-1) ∈ trace (snd (Assist.retrieve_docs Sample.fvec_L2sqr Sample.embedding_create
                                Sample.one_row [Sample.uiview] "A view?" ada 2 w)) /\
  Assist.retrieve_docs Sample.fvec_L2sqr Sample.embedding_create Sample.one_row [Sample.uiview]
    "A view?" ada 2 w =
  (Ok [hit; padded],
   log w [EmbeddingCreate ["A view?"] ada; IndexSearch asked 2;
          MetaRead 0; MetaRead (-1)]) /\
  QueryDocset.main Sample.fvec_L2sqr Sample.embedding_create (Sample.query_args 2) w =
  (Ok tt,
   log w [EmbeddingCreate ["A view?"] ada; IndexSearch asked 2;
          MetaRead 0; MetaRead 0; PrintSnippet "UIView Overview" 0 "A view.";
          MetaRead (-1); MetaRead (-1);
          PrintSnippet "UIView Overview" Faiss.FLT_MAX "A view."]).
Proof.
  cbv zeta. split; [reflexivity|]. split; [by vm_compute|].
  split; [vm_compute; repeat constructor|].
  split; vm_compute; reflexivity.
Qed.

Lemma retrieval_beyond_row_count_witness :
  1 <= Faiss.ntotal Sample.one_row < 2 /\
  exists results w',
    Assist.retrieve_docs Sample.fvec_L2sqr Sample.embedding_create Sample.one_row
      [Sample.uiview] "A view?" ada 2 (Sample.store Sample.one_row [Sample.uiview])
    = (Ok results, w') /\
    len results = 2.
Proof.
  assert (H : 1 <= Faiss.ntotal Sample.one_row < 2) by (vm_compute; split; congruence).
  split; [exact H|].
  pose proof (retrieval_beyond_row_count Sample.fvec_L2sqr Sample.embedding_create
                (Sample.query_args 2)
                (Sample.store Sample.one_row [Sample.uiview]) Sample.one_row
                [Sample.uiview] (Sample.embed_one "A view?") []) as T.
  cbv zeta in T.
  destruct (T eq_refl eq_refl eq_refl H) as (_ & _ & _ & _ & _ & _ & _ & Hlen & Hrun & _).
  eexists _, _. split; [exact Hrun|exact Hlen].
Defined.

(** C3 fails as stated: an empty store, k = 5.  The search call is
    reached and the error is the [IndexError] of the metadata read. *)
Lemma empty_store_counterexample :
  let w := Sample.store Sample.no_rows [] in
  let seen := [EmbeddingCreate ["A view?"] ada; IndexSearch asked 5; MetaRead (-1)] in
  Faiss.ntotal Sample.no_rows = 0 /\
  IndexSearch asked 5 ∈
    trace (snd (QueryDocset.main Sample.fvec_L2sqr Sample.embedding_create (Sample.query_args 5) w)) /\
  IndexSearch asked 5 ∈
    trace (snd (Assist.retrieve_docs Sample.fvec_L2sqr Sample.embedding_create Sample.no_rows []
                  "A view?" ada 5 w)) /\
  Assist.retrieve_docs Sample.fvec_L2sqr Sample.embedding_create Sample.no_rows [] "A view?" ada 5 w =
  (Raise IndexError, log w seen) /\
  QueryDocset.main Sample.fvec_L2sqr Sample.embedding_create (Sample.query_args 5) w =
  (Raise IndexError, log w seen).
Proof.
  cbv zeta. split; [reflexivity|].
  split; [vm_compute; repeat constructor|].
  split; [vm_compute; repeat constructor|].
  split; vm_compute; reflexivity.
Qed.

Lemma retrieval_on_empty_store_witness :
  Faiss.ntotal Sample.no_rows = 0 /\
  QueryDocset.main Sample.fvec_L2sqr Sample.embedding_create (Sample.query_args 5)
    (Sample.store Sample.no_rows []) =
  (Raise IndexError,
   log (Sample.store Sample.no_rows [])
     [EmbeddingCreate ["A view?"] ada; IndexSearch asked 5; MetaRead (-1)]).
Proof.
  split; [reflexivity|].
  pose proof (retrieval_on_empty_store Sample.fvec_L2sqr Sample.embedding_create
                (Sample.query_args 5) (Sample.store Sample.no_rows []) Sample.no_rows
                (Sample.embed_one "A view?") []) as T.
  cbv zeta in T.
  destruct (T eq_refl eq_refl) as (_ & Hmain).
  rewrite (Hmain (sample_store_loaded Sample.no_rows [] 5)). reflexivity.
Defined.



(** C5 fails as stated: k = 0 and k = -3 reach the search call. *)
Lemma nonpositive_topk_counterexample :
  let w := Sample.store Sample.one_row [Sample.uiview] in
  IndexSearch asked 0 ∈
    trace (snd (QueryDocset.main Sample.fvec_L2sqr Sample.embedding_create (Sample.query_args 0) w)) /\
  IndexSearch asked (-3) ∈
    trace (snd (Assist.main Sample.fvec_L2sqr Sample.embedding_create (Sample.assist_args (-3)) w)) /\
  QueryDocset.main Sample.fvec_L2sqr Sample.embedding_create (Sample.query_args 0) w =
  (Raise AssertionError,
   log w [EmbeddingCreate ["A view?"] ada; IndexSearch asked 0]) /\
  Assist.main Sample.fvec_L2sqr Sample.embedding_create (Sample.assist_args (-3)) w =
  (Raise AssertionError,
   log w [EmbeddingCreate ["A view?"] ada; IndexSearch asked (-3)]).
Proof.
  cbv zeta. split; [vm_compute; repeat constructor|].
  split; [vm_compute; repeat constructor|].
  split; vm_compute; reflexivity.
Qed.

Lemma topk_reaches_search_witness :
  let w := Sample.store Sample.one_row [Sample.uiview] in
  QueryDocset.main Sample.fvec_L2sqr Sample.embedding_create (Sample.query_args 0) w =
  (Raise AssertionError,
   log w [EmbeddingCreate ["A view?"] ada; IndexSearch asked 0]).
Proof.
  cbv zeta.
  pose proof (topk_reaches_search Sample.fvec_L2sqr Sample.embedding_create
                (Sample.query_args 0) (Sample.assist_args 0)
                (Sample.store Sample.one_row [Sample.uiview])
                Sample.one_row [Sample.uiview]
                (Sample.embed_one "A view?") (Sample.embed_one "A view?") [] []
                (sample_store_loaded _ _ 0) (sample_store_loaded _ _ 0)
                eq_refl eq_refl) as T.
  cbv zeta in T. destruct T as (_ & _ & Hq & _).
  apply Hq. by vm_compute.
Defined.



(** The chunker on a ten-token text: windows of four tokens advancing
    by three; a zero step is rejected by [range]. *)
Example chunk_text_sliding :
  Chunker.chunk_text ascii Chunker.byte_encode Chunker.byte_decode "abcdefghij" 4 1
  = Ok ["abcd"; "defg"; "ghij"; "j"].
Proof. reflexivity. Qed.

Example chunk_text_zero_step :
  Chunker.chunk_text ascii Chunker.byte_encode Chunker.byte_decode "abcd" 4 4
  = Raise ValueError.
Proof. reflexivity. Qed.

(** The sample docset: the pruned page and the entry without a path
    are left out. *)
Example get_documents_sample :
  IngestDocset.get_documents plain_text "Apple.docset" docset_world
  = (Ok [("UIView Overview", "A view."); ("UIButton Overview", "A button.")],
     docset_world).
Proof. vm_compute. reflexivity. Qed.

(** A full ingestion of the sample docset, and the same run with the
    backend down. *)
Example ingest_sample_trace :
  let run := IngestDocset.main ascii Chunker.byte_encode Chunker.byte_decode
               plain_text Sample.embedding_create ingest_args docset_world in
  fst run = Ok tt /\
  trace (snd run) =
    [EmbeddingCreate ["A view."; "A button."] ada; Makedirs "data";
     WriteIndex "data/docset_index.faiss";
     WriteMeta "data/docset_index.faiss.meta.json"] /\
  files (snd run) !! "data/docset_index.faiss" = Some (File (FaissIndex two_rows)) /\
  files (snd run) !! "data/docset_index.faiss.meta.json"
    = Some (File (Json [uiview; uibutton])).
Proof. cbv zeta. repeat split; vm_compute; reflexivity. Qed.

Example ingest_backend_down :
  IngestDocset.main ascii Chunker.byte_encode Chunker.byte_decode
    plain_text embedding_down ingest_args docset_world
  = (Raise OpenAIError,
     log docset_world [EmbeddingCreate ["A view."; "A button."] ada]).
Proof. vm_compute. reflexivity. Qed.

(** An aligned two-row store with k = 2: both rows, nearest first. *)
Example retrieve_two_rows :
  fst (Assist.retrieve_docs Sample.fvec_L2sqr Sample.embedding_create two_rows [uiview; uibutton]
         "A view?" ada 2 (store two_rows [uiview; uibutton]))
  = Ok [Assist.mkSnippet "UIView Overview" "A view." 0;
        Assist.mkSnippet "UIButton Overview" "A button." 4].
Proof. vm_compute. reflexivity. Qed.

End Runs.

(** ** Facts about whole runs of the query scripts *)

Module ScriptFacts.

Import PyFacts WorldFacts FaissFacts RetrievalFacts Retrieval Scripts.

Section Emits.

Variable P : event -> Prop.

Lemma emits_ret {A} (a : A) : emits P (ret a).
Proof. intros w. exists []. cbn. by rewrite log_nil. Qed.

Lemma emits_raise {A} (e : exn) : emits P (@raise A e).
Proof. intros w. exists []. cbn. by rewrite log_nil. Qed.

Lemma emits_lift {A} (r : result A) : emits P (lift r).
Proof. intros w. exists []. cbn. by rewrite log_nil. Qed.

Lemma emits_emit (ev : event) : P ev -> emits P (emit ev).
Proof. intros Hev w. exists [ev]. split; [done|by constructor]. Qed.

Lemma emits_stat (p : string) : emits P (stat p).
Proof. intros w. exists []. cbn. by rewrite log_nil. Qed.

Lemma emits_getenv (name : string) : emits P (getenv name).
Proof. intros w. exists []. cbn. by rewrite log_nil. Qed.

Lemma emits_bind {A B} (m : M A) (k : A -> M B) :
  emits P m -> (forall a, emits P (k a)) -> emits P (bind m k).
Proof.
  intros Hm Hk w. unfold bind. destruct (Hm w) as (evs & Hevs & HP).
  destruct (m w) as [[a|e] w1]; cbn in Hevs; subst w1.
  - destruct (Hk a (log w evs)) as (later & -> & HP'). exists (evs ++ later).
    split; [by rewrite log_log|by apply Forall_app].
  - by exists evs.
Qed.

Lemma emits_for_each {A S} (body : S -> A -> M S) (l : list A) (s : S) :
  (forall s x, emits P (body s x)) -> emits P (for_each l body s).
Proof.
  intros Hbody. revert s. induction l as [|x l IH]; intros s; cbn [for_each].
  - apply emits_ret.
  - apply emits_bind; [apply Hbody|intros; apply IH].
Qed.

End Emits.

(** One step of a proof that a script only emits events of a kind. *)
Ltac emits_step :=
  first
    [ apply emits_bind; [|intros ?]
    | apply emits_for_each; intros ? ?
    | apply emits_ret | apply emits_raise | apply emits_lift
    | apply emits_stat | apply emits_getenv
    | apply emits_emit; reflexivity
    | match goal with
      | |- emits _ (match ?x with _ => _ end) => destruct x
      | |- emits _ (if ?b then _ else _) => destruct b
      | |- emits _ (let (_, _) := ?p in _) => destruct p
      end ].

Section WithBackend.

Variable fvec_L2sqr : Faiss.Vec -> Faiss.Vec -> Float32.t.
Variable embedding_create : list string -> string -> result (list floats).

Lemma query_main_emits (a : QueryDocset.args) :
  emits (fun ev => is_query_event ev = true) (QueryDocset.main fvec_L2sqr embedding_create a).
Proof.
  unfold QueryDocset.main, configured_key, QueryDocset.load_index,
    QueryDocset.load_metadata, QueryDocset.embed_query, QueryDocset.index_search,
    QueryDocset.show_result, QueryDocset.meta_getitem, die.
  repeat emits_step.
Qed.

Lemma assist_main_emits (a : Assist.args) :
  emits (fun ev => is_query_event ev = true) (Assist.main fvec_L2sqr embedding_create a).
Proof.
  unfold Assist.main, configured_key, Assist.load_index, Assist.load_metadata,
    Assist.retrieve_docs, Assist.embed_text, Assist.join_hit, Assist.print_snippet, die.
  repeat emits_step.
Qed.

Lemma retrieve_docs_emits (ix : Faiss.IndexFlatL2) (meta : list record)
    (query model : string) (k : Z) :
  emits (fun ev => is_print ev = false)
    (Assist.retrieve_docs fvec_L2sqr embedding_create ix meta query model k).
Proof.
  unfold Assist.retrieve_docs, Assist.embed_text, Assist.join_hit.
  repeat emits_step.
Qed.

Lemma assist_prints (docs : list Assist.snippet) (w : world) :
  for_each docs Assist.print_snippet tt w =
  (Ok tt, log w (map (fun d => PrintSnippet (Assist.name d) (Assist.distance d)
                                 (Assist.chunk d)) docs)).
Proof.
  revert w. induction docs as [|d docs IH]; intros w.
  - cbn. by rewrite log_nil.
  - cbn [for_each map]. unfold bind.
    change (Assist.print_snippet tt d w) with
      (Ok tt, log w [PrintSnippet (Assist.name d) (Assist.distance d) (Assist.chunk d)]).
    cbv beta iota. by rewrite IH, log_log.
Qed.

Lemma query_key_checked (a : QueryDocset.args) (w : world) :
  truthy (key_of w (QueryDocset.openai_api_key a)) = false ->
  QueryDocset.main fvec_L2sqr embedding_create a w =
  (Raise (SystemExit 1 QueryDocset.missing_key), log w [Stderr QueryDocset.missing_key]).
Proof.
  intros Hkey. unfold key_of in Hkey.
  unfold QueryDocset.main, configured_key, getenv, bind at 1 2, ret.
  by rewrite Hkey.
Qed.

Lemma assist_key_checked (a : Assist.args) (w : world) :
  truthy (key_of w (Assist.openai_api_key a)) = false ->
  Assist.main fvec_L2sqr embedding_create a w =
  (Raise (SystemExit 1 "Missing OpenAI API key"), log w [Stderr "Missing OpenAI API key"]).
Proof.
  intros Hkey. unfold key_of in Hkey.
  unfold Assist.main, configured_key, getenv, bind at 1 2, ret.
  by rewrite Hkey.
Qed.

Lemma query_main_loaded (a : QueryDocset.args) (w : world)
    (ix : Faiss.IndexFlatL2) (meta : list record) :
  loaded w (QueryDocset.openai_api_key a) (QueryDocset.index a) (QueryDocset.meta a)
    ix meta ->
  QueryDocset.main fvec_L2sqr embedding_create a w =
  (embedding <- QueryDocset.embed_query embedding_create (QueryDocset.query a)
                  (QueryDocset.model a) ;;
   hits <- QueryDocset.index_search fvec_L2sqr ix (Faiss.as_float32 embedding)
             (QueryDocset.topk a) ;;
   for_each hits (QueryDocset.show_result meta) tt) w.
Proof.
  intros (Hkey & Hix & Hmeta).
  unfold QueryDocset.main, configured_key, getenv, bind at 1 2, ret.
  rewrite Hkey. cbn [negb].
  unfold QueryDocset.load_index, QueryDocset.load_metadata, stat, bind at 1 2 3 4, ret.
  by rewrite Hix, Hmeta.
Qed.

(** A query run whose index file or metadata file is missing (no
    node, or a directory, at the path) prints the matching diagnostic
    and exits with status 1 before the embedding backend is called.  The
    index path is tested first. *)
Theorem missing_artifact_stops_query (qa : QueryDocset.args) (aa : Assist.args)
    (w : world) :
  truthy (key_of w (QueryDocset.openai_api_key qa)) = true ->
  truthy (key_of w (Assist.openai_api_key aa)) = true ->
  let no_index p := "Index file not found: " +:+ p in
  let no_meta p := "Metadata file not found: " +:+ p in
  (is_file (files w !! QueryDocset.index qa) = false ->
   QueryDocset.main fvec_L2sqr embedding_create qa w =
   (Raise (SystemExit 1 (no_index (QueryDocset.index qa))),
    log w [Stderr (no_index (QueryDocset.index qa))])) /\
  (forall ix,
     files w !! QueryDocset.index qa = Some (File (FaissIndex ix)) ->
     is_file (files w !! QueryDocset.meta qa) = false ->
     QueryDocset.main fvec_L2sqr embedding_create qa w =
     (Raise (SystemExit 1 (no_meta (QueryDocset.meta qa))),
      log w [Stderr (no_meta (QueryDocset.meta qa))])) /\
  (is_file (files w !! Assist.index aa) = false ->
   Assist.main fvec_L2sqr embedding_create aa w =
   (Raise (SystemExit 1 (no_index (Assist.index aa))),
    log w [Stderr (no_index (Assist.index aa))])) /\
  (forall ix,
     files w !! Assist.index aa = Some (File (FaissIndex ix)) ->
     is_file (files w !! Assist.meta aa) = false ->
     Assist.main fvec_L2sqr embedding_create aa w =
     (Raise (SystemExit 1 (no_meta (Assist.meta aa))),
      log w [Stderr (no_meta (Assist.meta aa))])).
Proof.
  intros Hq Ha no_index no_meta. unfold key_of in Hq, Ha.
  split; [|split; [|split]].
  - intros Hix.
    unfold QueryDocset.main, configured_key, getenv, bind at 1 2, ret.
    rewrite Hq. cbn [negb].
    unfold QueryDocset.load_index, bind, stat.
    by destruct (files w !! QueryDocset.index qa) as [[|c]|].
  - intros ix Hix Hmeta.
    unfold QueryDocset.main, configured_key, getenv, bind at 1 2, ret.
    rewrite Hq. cbn [negb].
    unfold QueryDocset.load_index, QueryDocset.load_metadata, bind, stat, ret.
    rewrite Hix.
    by destruct (files w !! QueryDocset.meta qa) as [[|c]|].
  - intros Hix.
    unfold Assist.main, configured_key, getenv, bind at 1 2, ret.
    rewrite Ha. cbn [negb].
    unfold Assist.load_index, bind, stat.
    by destruct (files w !! Assist.index aa) as [[|c]|].
  - intros ix Hix Hmeta.
    unfold Assist.main, configured_key, getenv, bind at 1 2, ret.
    rewrite Ha. cbn [negb].
    unfold Assist.load_index, Assist.load_metadata, bind, stat, ret.
    rewrite Hix.
    by destruct (files w !! Assist.meta aa) as [[|c]|].
Qed.

(** When the embedding of the query fails, or the backend answers with
    no embedding at all, a query run ends with that error (an
    [IndexError] for the empty answer) right after the backend call: the
    index is not searched, no metadata record is read and no result is
    printed. *)
Theorem embedding_failure_stops_query (qa : QueryDocset.args) (aa : Assist.args)
    (w : world) (ix : Faiss.IndexFlatL2) (meta : list record) :
  loaded w (QueryDocset.openai_api_key qa) (QueryDocset.index qa) (QueryDocset.meta qa)
    ix meta ->
  loaded w (Assist.openai_api_key aa) (Assist.index aa) (Assist.meta aa) ix meta ->
  let asked := EmbeddingCreate [QueryDocset.query qa] (QueryDocset.model qa) in
  let asked' := EmbeddingCreate [Assist.question aa] (Assist.embed_model aa) in
  let answer := embedding_create [QueryDocset.query qa] (QueryDocset.model qa) in
  let answer' := embedding_create [Assist.question aa] (Assist.embed_model aa) in
  (forall e, answer = Raise e ->
     QueryDocset.main fvec_L2sqr embedding_create qa w = (Raise e, log w [asked])) /\
  (answer = Ok [] ->
     QueryDocset.main fvec_L2sqr embedding_create qa w = (Raise IndexError, log w [asked])) /\
  (forall e, answer' = Raise e ->
     Assist.main fvec_L2sqr embedding_create aa w = (Raise e, log w [asked'])) /\
  (answer' = Ok [] ->
     Assist.main fvec_L2sqr embedding_create aa w = (Raise IndexError, log w [asked'])).
Proof.
  intros Hq Ha asked asked' answer answer'.
  rewrite (assist_main_run fvec_L2sqr embedding_create _ _ _ _ Ha),
    (query_main_loaded _ _ _ _ Hq).
  unfold QueryDocset.embed_query, Assist.retrieve_docs, Assist.embed_text,
    bind, emit, lift.
  subst answer answer'. cbv zeta.
  split; [|split; [|split]].
  - intros e He. by rewrite He.
  - intros He. by rewrite He.
  - intros e He. by rewrite He.
  - intros He. by rewrite He.
Qed.

(** Whatever the arguments, the store and the backend do, a query run
    changes no file and no environment variable and takes no persisting
    step: index and metadata are only read, and the trace only grows, by
    backend calls, searches, metadata reads, prints and diagnostics. *)
Theorem query_scripts_change_nothing (qa : QueryDocset.args) (aa : Assist.args)
    (w : world) :
  let q := snd (QueryDocset.main fvec_L2sqr embedding_create qa w) in
  let s := snd (Assist.main fvec_L2sqr embedding_create aa w) in
  (files q = files w /\ environ q = environ w /\
   exists evs, trace q = trace w ++ evs /\
               Forall (fun ev => is_query_event ev = true) evs) /\
  (files s = files w /\ environ s = environ w /\
   exists evs, trace s = trace w ++ evs /\
               Forall (fun ev => is_query_event ev = true) evs).
Proof.
  cbv zeta. split.
  - destruct (query_main_emits qa w) as (evs & -> & HP). cbn. eauto.
  - destruct (assist_main_emits aa w) as (evs & -> & HP). cbn. eauto.
Qed.

End WithBackend.

End ScriptFacts.

(** ** Facts about retrieval within the row count *)

Module RankingFacts.

Import PyFacts WorldFacts FaissFacts RetrievalFacts Retrieval Scripts ScriptFacts.

Lemma Sorted_take {A} (R : A -> A -> Prop) (l : list A) (n : nat) :
  Sorted R l -> Sorted R (take n l).
Proof.
  intros Hl. revert n. induction Hl as [|x l Hl IH Hd]; intros [|n]; cbn;
    try constructor.
  - apply IH.
  - destruct Hd; destruct n; cbn; by constructor.
Qed.

Section WithBackend.

Variable fvec_L2sqr : Faiss.Vec -> Faiss.Vec -> Float32.t.
Variable embedding_create : list string -> string -> result (list floats).

(** With 0 < k <= row_count, aligned metadata and a query vector to
    which every stored row has a distance below [FLT_MAX], the retrieval
    step returns exactly k results, for k pairwise distinct stored rows,
    in non-decreasing distance, each joined with the metadata record at
    its own row index and carrying the distance that the kernel computed
    for its row; no sentinel index is read. *)
Theorem retrieval_within_row_count (a : QueryDocset.args) (w : world)
    (ix : Faiss.IndexFlatL2) (meta : list record)
    (emb : floats) (rest : list floats) :
  let query := QueryDocset.query a in
  let model := QueryDocset.model a in
  let k := QueryDocset.topk a in
  let vec := Faiss.as_float32 emb in
  embedding_create [query] model = Ok (emb :: rest) ->
  len emb = Faiss.dim ix ->
  len meta = Faiss.ntotal ix ->
  0 < k <= Faiss.ntotal ix ->
  Forall (fun row => exists d, fvec_L2sqr vec row = Float32.finite d /\
                               Qle_bool Faiss.FLT_MAX d = false) (Faiss.xb ix) ->
  let hits := take (Z.to_nat k) (Faiss.ranked_hits fvec_L2sqr ix vec) in
  let w1 := log w [EmbeddingCreate [query] model; IndexSearch vec k] in
  let results := map (snippet_of meta) hits in
  len results = k /\
  Sorted Faiss.by_distance hits /\
  NoDup (map snd hits) /\
  Forall (fun h => 0 <= snd h < Faiss.ntotal ix /\
                   meta !! Z.to_nat (snd h) = Some (meta_at meta (snd h)) /\
                   exists row, Faiss.xb ix !! Z.to_nat (snd h) = Some row /\
                               fvec_L2sqr vec row = Float32.finite (fst h)) hits /\
  Assist.retrieve_docs fvec_L2sqr embedding_create ix meta query model k w =
    (Ok results, log w1 (map (fun h => MetaRead (snd h)) hits)) /\
  Forall (reads_row (Faiss.ntotal ix)) (map (fun h => MetaRead (snd h)) hits) /\
  (loaded w (QueryDocset.openai_api_key a) (QueryDocset.index a) (QueryDocset.meta a)
     ix meta ->
   Forall has_text meta ->
   QueryDocset.main fvec_L2sqr embedding_create a w =
     (Ok tt, log w1 (concat (map (shown meta) hits)))).
Proof.
  intros query model k vec Hemb Hdim Hmeta Hk Hall hits w1 results.
  assert (Hlen : length (Faiss.ranked_hits fvec_L2sqr ix vec) = length (Faiss.xb ix)).
  { rewrite (Permutation_length (ranked_hits_perm fvec_L2sqr ix vec)).
    by apply candidates_all. }
  assert (Hrows : Forall (fun h => 0 <= snd h < Faiss.ntotal ix /\
            exists row, Faiss.xb ix !! Z.to_nat (snd h) = Some row /\
                        fvec_L2sqr vec row = Float32.finite (fst h)) hits).
  { apply Forall_take, Forall_forall. intros h Hh.
    assert (Hc : h ∈ Faiss.candidates fvec_L2sqr vec (Faiss.xb ix))
      by (by rewrite <- (ranked_hits_perm fvec_L2sqr ix vec)).
    apply candidate_row in Hc as (i & row & Hrow & Hd & _ & Hi).
    apply lookup_lt_Some in Hrow as Hlt.
    split; [unfold Faiss.ntotal, len; lia|].
    exists row. by rewrite Hi, Nat2Z.id. }
  assert (Hvalid : Forall (fun h => 0 <= snd h < Faiss.ntotal ix) hits).
  { eapply Forall_impl; [exact Hrows|]. by intros h [Hh _]. }
  assert (Hlabels : Forall (fun h => 0 <= snd h < Faiss.ntotal ix /\
            meta !! Z.to_nat (snd h) = Some (meta_at meta (snd h)) /\
            exists row, Faiss.xb ix !! Z.to_nat (snd h) = Some row /\
                        fvec_L2sqr vec row = Float32.finite (fst h)) hits).
  { eapply Forall_impl; [exact Hrows|]. intros h [Hh Hrow]. cbn beta in *.
    split; [done|]. split; [|done]. apply meta_at_in_range. lia. }
  assert (Hread : Forall (readable meta) hits).
  { eapply Forall_impl; [exact Hvalid|]. intros h Hh.
    exists (meta_at meta (snd h)). apply meta_at_in_range. cbn beta in Hh. lia. }
  assert (Hsearch : Faiss.search fvec_L2sqr ix vec k = Ok hits).
  { unfold Faiss.search. unfold vec at 1. rewrite as_float32_len.
    destruct (Z.eqb_spec (len emb) (Faiss.dim ix)); [|done].
    destruct (Z.leb_spec k 0); [lia|]. cbn [negb orb]. fold vec hits.
    replace (Z.to_nat k - length hits)%nat with 0%nat.
    - cbn. by rewrite app_nil_r.
    - unfold hits. rewrite length_take. unfold Faiss.ntotal, len in *. lia. }
  split.
  { unfold results, hits, len. rewrite length_map, length_take.
    unfold Faiss.ntotal, len in *. lia. }
  split; [apply Sorted_take, ranked_hits_sorted|].
  split; [apply ranked_hits_distinct|].
  split; [exact Hlabels|].
  split.
  { rewrite (retrieve_docs_run _ _ _ _ _ _ _ _ _ _ Hemb). cbv zeta.
    fold k vec w1. by rewrite Hsearch, join_hits_run. }
  split.
  { apply Forall_fmap. eapply Forall_impl; [exact Hvalid|]. by intros h Hh. }
  intros Hload Htext.
  rewrite (query_main_run _ _ _ _ _ _ _ _ Hload Hemb). cbv zeta.
  fold query model k vec w1. rewrite Hsearch.
  apply show_results_run; [done|].
  eapply Forall_impl; [exact Hlabels|]. intros h (_ & Hh & _). cbn beta.
  revert Htext. rewrite Forall_forall. intros Htext. apply Htext.
  by eapply list_elem_of_lookup_2.
Qed.

(** [assist.py] tolerates a metadata record without a [text] (or
    [name]) key and substitutes the defaults, whereas [query_docset.py]
    stops with [KeyError('text')] at the first hit whose record has no
    [text], after the results before it have been printed. *)
Theorem missing_text_key (meta : list record) (before later : list (Q * Z))
    (hit : Q * Z) (entry : record) (w : world) :
  Forall (readable meta) before ->
  Forall (fun h => has_text (meta_at meta (snd h))) before ->
  getitem meta (snd hit) = Ok entry ->
  entry !! "text" = None ->
  for_each (before ++ hit :: later) (QueryDocset.show_result meta) tt w =
    (Raise (KeyError "text"),
     log w (concat (map (shown meta) before) ++ [MetaRead (snd hit)])) /\
  (Forall (readable meta) later ->
   for_each (before ++ hit :: later) (Assist.join_hit meta) [] w =
     (Ok (map (snippet_of meta) before ++
          Assist.mkSnippet (dict_get entry "name" "<unknown>") "" (fst hit)
          :: map (snippet_of meta) later),
      log w (map (fun h => MetaRead (snd h)) (before ++ hit :: later)))).
Proof.
  intros Hbefore Htext Hentry Hnone. split.
  - revert w. induction Hbefore as [|h before Hh _ IH]; intros w.
    + destruct hit as [dist idx]. cbn in Hentry. cbn [app for_each].
      unfold bind at 1.
      unfold QueryDocset.show_result, QueryDocset.meta_getitem, bind, emit, lift.
      rewrite Hentry. unfold dict_getitem. by rewrite Hnone.
    + apply Forall_cons in Htext as [Ht Htext].
      cbn [app for_each]. unfold bind at 1.
      rewrite show_result_run by done. rewrite (IH Htext), log_log.
      cbn [map concat]. by rewrite <- app_assoc.
  - intros Hlater.
    rewrite join_hits_run.
    + cbn [app]. rewrite map_app. cbn [map]. do 3 f_equal.
      unfold snippet_of, meta_at. rewrite Hentry.
      unfold dict_get at 2. by rewrite Hnone.
    + apply Forall_app. split; [done|]. constructor; [by exists entry|done].
Qed.

(** [assist.py] prints one block per retrieved snippet, in retrieval
    order, and nothing when retrieval fails: its run is the retrieval
    followed by the prints. *)
Theorem assist_prints_every_result (a : Assist.args) (w : world)
    (ix : Faiss.IndexFlatL2) (meta : list record) :
  loaded w (Assist.openai_api_key a) (Assist.index a) (Assist.meta a) ix meta ->
  let found := Assist.retrieve_docs fvec_L2sqr embedding_create ix meta (Assist.question a)
                 (Assist.embed_model a) (Assist.topk a) w in
  let block d := PrintSnippet (Assist.name d) (Assist.distance d) (Assist.chunk d) in
  Assist.main fvec_L2sqr embedding_create a w =
  match fst found with
  | Ok docs => (Ok tt, log (snd found) (map block docs))
  | Raise e => (Raise e, snd found)
  end /\
  Forall (fun ev => is_print ev = false)
    (drop (length (trace w)) (trace (snd found))).
Proof.
  intros Hload found block. split.
  - rewrite (assist_main_run _ _ _ _ _ _ Hload). fold found.
    destruct found as [[docs|e] w1]; [|done]. cbn [fst snd].
    apply assist_prints.
  - subst found.
    destruct (retrieve_docs_emits fvec_L2sqr embedding_create ix meta (Assist.question a) (Assist.embed_model a)
                (Assist.topk a) w) as (evs & -> & HP).
    cbn [trace log]. by rewrite drop_app_length.
Qed.

End WithBackend.

End RankingFacts.

(** ** More facts about the chunker *)

Module WindowFacts.

Import PyFacts ChunkerFacts.

Section WithTokenizer.

Variable token : Type.
Variable encode : string -> list token.
Variable decode : list token -> string.

(** With [overlap = max_tokens] the step is zero and [chunk_text]
    raises [ValueError] for every text, the empty one included; with
    [overlap > max_tokens] the step is negative, the loop body never
    runs and every text yields no chunk at all. *)
Theorem chunk_text_degenerate_step (text : string) (max_tokens overlap : Z) :
  max_tokens <= overlap ->
  Chunker.chunk_text token encode decode text max_tokens overlap =
  if overlap =? max_tokens then Raise ValueError else Ok [].
Proof.
  intros Hge. unfold Chunker.chunk_text, range.
  destruct (Z.eqb_spec overlap max_tokens) as [->|Hne].
  - by rewrite Z.sub_diag.
  - destruct (Z.eqb_spec (max_tokens - overlap) 0); [lia|].
    destruct (Z.ltb_spec 0 (max_tokens - overlap)); [lia|].
    replace (Z.to_nat (0 - len (encode text))) with 0%nat by (unfold len; lia).
    reflexivity.
Qed.

(** Consecutive windows share exactly the overlap: what is left of a
    window after the step is the first [overlap] tokens of the next
    window. *)
Theorem consecutive_windows_overlap (tokens : list token) (max_tokens overlap : Z)
    (i : nat) (w w' : list token) :
  0 <= overlap < max_tokens ->
  (exists windows,
     Chunker.token_windows token tokens max_tokens overlap = Ok windows /\
     windows !! i = Some w /\ windows !! S i = Some w') ->
  drop (Z.to_nat (max_tokens - overlap)) w = take (Z.to_nat overlap) w'.
Proof.
  intros Hov (windows & Hw & Hi & Hi').
  rewrite token_windows_closed in Hw by lia. inversion Hw; subst windows. clear Hw.
  apply list_lookup_fmap_Some in Hi as (j & -> & Hj).
  apply list_lookup_fmap_Some in Hi' as (j' & -> & Hj').
  apply lookup_seq in Hj as [-> _]. apply lookup_seq in Hj' as [-> _].
  unfold Chunker.window. cbn [Nat.add].
  rewrite skipn_firstn_comm, drop_drop, take_take.
  f_equal; [lia|]. f_equal. lia.
Qed.

(** Every window holds between 1 and [max_tokens] tokens: window [j]
    starts at token [j * (max_tokens - overlap)] and runs for
    [max_tokens] tokens or to the end of the text, whichever comes
    first. *)
Theorem window_sizes (tokens : list token) (max_tokens overlap : Z)
    (windows : list (list token)) :
  0 <= overlap < max_tokens ->
  Chunker.token_windows token tokens max_tokens overlap = Ok windows ->
  Forall (fun w => 0 < len w <= max_tokens) windows /\
  forall (j : nat) (w : list token),
    windows !! j = Some w ->
    w = take (Z.to_nat max_tokens) (drop (j * Z.to_nat (max_tokens - overlap)) tokens) /\
    len w = Z.min max_tokens (len tokens - Z.of_nat j * (max_tokens - overlap)).
Proof.
  intros Hov Hw.
  rewrite token_windows_closed in Hw by lia. inversion Hw; subst windows. clear Hw.
  pose proof (window_count_bounds (len tokens) (max_tokens - overlap)
                ltac:(lia) ltac:(unfold len; lia)) as Hb.
  assert (Hj : forall j : nat,
             (j < Chunker.window_count (len tokens) (max_tokens - overlap))%nat ->
             len (Chunker.window token tokens max_tokens (max_tokens - overlap) j)
             = Z.min max_tokens (len tokens - Z.of_nat j * (max_tokens - overlap)) /\
             0 < len tokens - Z.of_nat j * (max_tokens - overlap)).
  { intros j Hlt. rewrite window_length by lia. nia. }
  split.
  - apply Forall_fmap, Forall_forall. intros j Hin. apply elem_of_seq in Hin. cbn.
    destruct (Hj j ltac:(lia)) as [-> Hpos]. lia.
  - intros j w Hlook.
    apply list_lookup_fmap_Some in Hlook as (j' & -> & Hlook).
    apply lookup_seq in Hlook as [-> Hlt]. cbn [Nat.add].
    split; [reflexivity|]. by apply Hj.
Qed.

End WithTokenizer.

Lemma chunk_text_degenerate_step_witness :
  4 <= 4 /\
  Chunker.chunk_text ascii Chunker.byte_encode Chunker.byte_decode "" 4 4
  = Raise ValueError /\
  Chunker.chunk_text ascii Chunker.byte_encode Chunker.byte_decode "abcdef" 4 6
  = Ok [].
Proof.
  split; [lia|]. split.
  - exact (chunk_text_degenerate_step ascii Chunker.byte_encode Chunker.byte_decode
             "" 4 4 ltac:(lia)).
  - exact (chunk_text_degenerate_step ascii Chunker.byte_encode Chunker.byte_decode
             "abcdef" 4 6 ltac:(lia)).
Defined.

Lemma consecutive_windows_overlap_witness :
  drop 3 (Chunker.byte_encode "abcd") = take 1 (Chunker.byte_encode "defg").
Proof.
  apply (consecutive_windows_overlap ascii (Chunker.byte_encode "abcdefghij") 4 1 0
           (Chunker.byte_encode "abcd") (Chunker.byte_encode "defg")); [lia|].
  eexists. split; [reflexivity|]. split; reflexivity.
Defined.

Lemma window_sizes_witness :
  Forall (fun w => 0 < len w <= 4)
    (map Chunker.byte_encode ["abcd"; "defg"; "ghij"; "j"]).
Proof.
  exact (proj1 (window_sizes ascii (Chunker.byte_encode "abcdefghij") 4 1
                  (map Chunker.byte_encode ["abcd"; "defg"; "ghij"; "j"])
                  ltac:(lia) eq_refl)).
Defined.

End WindowFacts.

(** ** More facts about ingestion *)

Module IngestRunFacts.

Import PyFacts WorldFacts ChunkerFacts IngestFacts Ingestion Scripts ScriptFacts.

Section Confined.

Variable paths : list string.

Lemma confined_ret {A} (a : A) : confined paths (ret a).
Proof. by intros w. Qed.

Lemma confined_raise {A} (e : exn) : confined paths (@raise A e).
Proof. by intros w. Qed.

Lemma confined_lift {A} (r : result A) : confined paths (lift r).
Proof. by intros w. Qed.

Lemma confined_emit (ev : event) : confined paths (emit ev).
Proof. by intros w. Qed.

Lemma confined_stat (p : string) : confined paths (stat p).
Proof. by intros w. Qed.

Lemma confined_getenv (name : string) : confined paths (getenv name).
Proof. by intros w. Qed.

Lemma confined_set_file (p : string) (n : node) :
  p ∈ paths -> confined paths (set_file p n).
Proof.
  intros Hp w. split; [done|]. intros q Hq. cbn.
  apply lookup_insert_ne. by intros ->.
Qed.

Lemma confined_bind {A B} (m : M A) (k : A -> M B) :
  confined paths m -> (forall a, confined paths (k a)) -> confined paths (bind m k).
Proof.
  intros Hm Hk w. unfold bind. destruct (Hm w) as [He Hf].
  destruct (m w) as [[a|e] w1]; cbn [snd] in *; [|done].
  destruct (Hk a w1) as [He' Hf']. split; [congruence|].
  intros p Hp. by rewrite Hf', Hf.
Qed.

Lemma confined_for_each {A S} (body : S -> A -> M S) (l : list A) (s : S) :
  (forall s x, confined paths (body s x)) -> confined paths (for_each l body s).
Proof.
  intros Hbody. revert s. induction l as [|x l IH]; intros s; cbn [for_each].
  - apply confined_ret.
  - apply confined_bind; [apply Hbody|intros; apply IH].
Qed.

Lemma confined_for_each_in {A S} (body : S -> A -> M S) (l : list A) (s : S) :
  (forall s x, x ∈ l -> confined paths (body s x)) -> confined paths (for_each l body s).
Proof.
  revert s. induction l as [|x l IH]; intros s Hbody; cbn [for_each].
  - apply confined_ret.
  - apply confined_bind; [apply Hbody, list_elem_of_here|].
    intros s'. apply IH. intros s0 y Hy. by apply Hbody, list_elem_of_further.
Qed.

End Confined.

(** One step of a proof that a script writes only to given paths. *)
Ltac confined_step :=
  first
    [ apply confined_bind; [|intros ?]
    | apply confined_for_each; intros ? ?
    | apply confined_ret | apply confined_raise | apply confined_lift
    | apply confined_stat | apply confined_getenv | apply confined_emit
    | apply confined_set_file; unfold outputs;
      solve [ apply elem_of_app; right;
              repeat first [apply list_elem_of_here | apply list_elem_of_further] ]
    | match goal with
      | |- confined _ (match ?x with _ => _ end) => destruct x
      | |- confined _ (if ?b then _ else _) => destruct b
      | |- confined _ (let (_, _) := ?p in _) => destruct p
      end ].

Lemma dirname_bare (p : string) : bare p -> dirname p = "".
Proof.
  unfold bare, dirname. intros Hp.
  assert (H : drop_to_slash (rev (list_ascii_of_string p)) = []).
  { assert (Hr : "/"%char ∉ rev (list_ascii_of_string p)).
    { intros Hin. apply Hp. apply list_elem_of_In, in_rev. by apply list_elem_of_In. }
    induction (rev (list_ascii_of_string p)) as [|c r IH]; [done|].
    cbn. apply not_elem_of_cons in Hr as [Hc Hr]. case_bool_decide; [done|auto]. }
  by rewrite H.
Qed.

Section WithCollaborators.

Variable token : Type.
Variable encode : string -> list token.
Variable decode : list token -> string.
Variable soup_text : content -> string.
Variable fvec_L2sqr : Faiss.Vec -> Faiss.Vec -> Float32.t.
Variable embedding_create : list string -> string -> result (list floats).

Local Abbreviation get_documents := (IngestDocset.get_documents soup_text).
Local Abbreviation embed_batch := (IngestDocset.embed_batch embedding_create).
Local Abbreviation main :=
  (IngestDocset.main token encode decode soup_text embedding_create).
Local Abbreviation chunks_of := (Ingestion.chunks_of token encode decode).
Local Abbreviation texts_of := (Ingestion.texts_of token encode decode).
Local Abbreviation meta_of := (Ingestion.meta_of token encode decode).
Local Abbreviation main_run :=
  (IngestFacts.main_run token encode decode soup_text embedding_create).

Lemma mkdirs_confined (paths dirs : list string) :
  (forall d, d ∈ dirs -> d ∈ paths) ->
  confined paths (for_each dirs mkdir_exist_ok tt).
Proof.
  intros Hsub. apply confined_for_each_in. intros [] d Hd.
  unfold mkdir_exist_ok. apply confined_bind; [apply confined_stat|].
  intros [[|c]|]; [apply confined_ret|apply confined_raise|].
  apply confined_set_file. by apply Hsub.
Qed.

Lemma ingest_main_confined (a : IngestDocset.args) :
  confined (outputs a) (main a).
Proof.
  assert (Hmk : confined (outputs a) (makedirs (dirname (IngestDocset.output a)))).
  { unfold makedirs. apply confined_bind; [apply confined_emit|]. intros _.
    case_bool_decide; [apply confined_raise|].
    apply mkdirs_confined. intros d Hd. unfold outputs. apply elem_of_app. by left. }
  unfold IngestDocset.main, configured_key, IngestDocset.get_documents, isfile, isdir,
    IngestDocset.select_name_path, IngestDocset.read_entry, IngestDocset.collect_doc,
    IngestDocset.collect_chunk, IngestDocset.embed_batch, IngestDocset.embed_texts,
    IngestDocset.write_index, IngestDocset.json_dump, die.
  repeat first [exact Hmk | confined_step].
Qed.


Lemma falsy_key (w : world) (flag : option string) :
  truthy flag = false -> truthy (environ w !! "OPENAI_API_KEY") = false ->
  truthy (key_of w flag) = false.
Proof. intros Hf He. unfold key_of, or_else. by rewrite Hf. Qed.

(** Without a key (no flag or an empty one, and no or an empty
    environment variable) each of the three scripts prints its
    diagnostic and exits with status 1 before it reads any file or calls
    the backend. *)
Theorem missing_key_stops_every_script (ia : IngestDocset.args)
    (qa : QueryDocset.args) (aa : Assist.args) (w : world) :
  truthy (environ w !! "OPENAI_API_KEY") = false ->
  truthy (IngestDocset.openai_api_key ia) = false ->
  truthy (QueryDocset.openai_api_key qa) = false ->
  truthy (Assist.openai_api_key aa) = false ->
  let stop msg : result unit * world := (Raise (SystemExit 1 msg), log w [Stderr msg]) in
  IngestDocset.main token encode decode soup_text embedding_create ia w
    = stop IngestDocset.missing_key /\
  QueryDocset.main fvec_L2sqr embedding_create qa w = stop QueryDocset.missing_key /\
  Assist.main fvec_L2sqr embedding_create aa w = stop "Missing OpenAI API key".
Proof.
  intros He Hi Hq Ha stop. subst stop. cbv beta.
  split; [|split].
  - rewrite main_run. fold (key_of w (IngestDocset.openai_api_key ia)).
    by rewrite falsy_key.
  - apply query_key_checked. by apply falsy_key.
  - apply assist_key_checked. by apply falsy_key.
Qed.

Lemma main_reaches_persist (a : IngestDocset.args) (w w2 : world)
    (doc : string * string) (docs : list (string * string)) (starts : list Z)
    (embeddings : list floats) (ix : Faiss.IndexFlatL2) :
  truthy (key_of w (IngestDocset.openai_api_key a)) = true ->
  get_documents (IngestDocset.docset a) w = (Ok (doc :: docs), w) ->
  range 0 (len (texts_of (doc :: docs))) IngestDocset.batch_size = Ok starts ->
  for_each starts (embed_batch (texts_of (doc :: docs)) (IngestDocset.model a)) [] w
    = (Ok embeddings, w2) ->
  build embeddings = Ok ix ->
  main a w = persist ix (meta_of (doc :: docs)) a w2.
Proof.
  intros Hkey Hdocs Hstarts Hloop Hbuild. unfold key_of in Hkey.
  rewrite main_run, Hkey. cbn [negb]. by rewrite Hdocs, Hstarts, Hloop, Hbuild.
Qed.

Lemma main_success (a : IngestDocset.args) (w w' : world) :
  main a w = (Ok tt, w') ->
  exists docs starts outs ix w2,
    truthy (key_of w (IngestDocset.openai_api_key a)) = true /\
    get_documents (IngestDocset.docset a) w = (Ok docs, w) /\
    range 0 (len (texts_of docs)) IngestDocset.batch_size = Ok starts /\
    Forall2 (fun i vs =>
               embedding_create
                 (slice (texts_of docs) i (i + IngestDocset.batch_size))
                 (IngestDocset.model a) = Ok vs) starts outs /\
    Faiss.xb ix = map Faiss.as_float32 (concat outs) /\
    environ w2 = environ w /\
    persist ix (meta_of docs) a w2 = (Ok tt, w').
Proof.
  intros Hrun. rewrite main_run in Hrun. unfold key_of.
  destruct (truthy _); [|done]. cbn [negb] in Hrun.
  destruct (IngestDocset.get_documents _ _ w) as [[docs|e] w1] eqn:Hdocs; [|done].
  apply get_documents_pure in Hdocs as Hpure. subst w1.
  destruct docs as [|doc docs]; [done|].
  destruct (range _ _ _) as [starts|e] eqn:Hstarts; [|done].
  destruct (embed_batches_run embedding_create (texts_of (doc :: docs))
              (IngestDocset.model a) starts [] w) as (called & Hw2 & Hr).
  destruct (for_each starts _ _ _) as [[embeddings|e] w2]; [|done].
  cbn [fst snd] in Hw2, Hr. destruct Hr as (-> & outs & Houts & ->).
  cbn [app] in Hrun.
  destruct (build (concat outs)) as [ix|e] eqn:Hbuild; [|done].
  apply build_rows in Hbuild.
  exists (doc :: docs), starts, outs, ix, w2.
  repeat split; try done. by subst w2.
Qed.

(** A docset whose index is readable but whose indexed pages are all
    missing yields no document: ingestion prints its diagnostic and exits
    with status 1, without calling the backend or writing anything. *)
Theorem pruned_docset_stops_ingestion (a : IngestDocset.args) (w : world)
    (rows : list (string * option string)) :
  truthy (key_of w (IngestDocset.openai_api_key a)) = true ->
  files w !! idx_path (IngestDocset.docset a) = Some (File (Sqlite (Some rows))) ->
  is_dir (files w !! docs_dir (IngestDocset.docset a)) = true ->
  (forall name relpath,
     (name, Some relpath) ∈ rows ->
     is_file (files w !! path_join (docs_dir (IngestDocset.docset a)) relpath) = false) ->
  IngestDocset.get_documents soup_text (IngestDocset.docset a) w = (Ok [], w) /\
  IngestDocset.main token encode decode soup_text embedding_create a w =
  (Raise (SystemExit 1 no_documents), log w [Stderr no_documents]).
Proof.
  intros Hkey Hidx Hdir Hpruned. unfold key_of in Hkey.
  assert (Hnone : omap (Ingestion.page soup_text (files w)
                          (docs_dir (IngestDocset.docset a))) (selected rows) = []).
  { clear Hidx. induction rows as [|[name [relpath|]] rows IH]; cbn; [done| |].
    - unfold Ingestion.page at 1. cbn [fst snd].
      specialize (Hpruned name relpath ltac:(apply list_elem_of_here)) as Hp.
      destruct (files w !! path_join _ relpath) as [[|c]|]; [|done|];
        apply IH; intros n r Hin; apply (Hpruned n r); by apply list_elem_of_further.
    - apply IH. intros n r Hin. apply (Hpruned n r). by apply list_elem_of_further. }
  assert (Hdocs : get_documents (IngestDocset.docset a) w = (Ok [], w)).
  { rewrite get_documents_run, Hidx, Hdir. cbn [is_file negb orb].
    by rewrite Hnone. }
  split; [done|].
  rewrite main_run, Hkey. cbn [negb]. by rewrite Hdocs.
Qed.

Lemma tokenless_chunks (text : string) : encode text = [] -> chunks_of text = [].
Proof.
  intros Henc.
  unfold Ingestion.chunks_of, IngestDocset.chunk_text, Chunker.chunk_text.
  cbv zeta. rewrite Henc. reflexivity.
Qed.

(** When documents are found but none of them has a token (empty
    pages), no chunk is produced: ingestion makes no backend call, takes
    no persisting step and prints no diagnostic of its own; it ends in
    the [IndexError] of [embeddings[0]] with every file as before. *)
Theorem tokenless_documents_fail (a : IngestDocset.args) (w : world)
    (docs : list (string * string)) :
  truthy (key_of w (IngestDocset.openai_api_key a)) = true ->
  IngestDocset.get_documents soup_text (IngestDocset.docset a) w = (Ok docs, w) ->
  docs <> [] ->
  Forall (fun doc => encode (snd doc) = []) docs ->
  IngestDocset.main token encode decode soup_text embedding_create a w
    = (Raise IndexError, w).
Proof.
  intros Hkey Hdocs Hne Hempty. unfold key_of in Hkey.
  assert (Htexts : texts_of docs = []).
  { clear Hdocs Hne. unfold Ingestion.texts_of.
    induction Hempty as [|doc docs Hd _ IH]; [done|].
    cbn [map concat]. rewrite tokenless_chunks by done. exact IH. }
  rewrite main_run, Hkey. cbn [negb]. rewrite Hdocs.
  destruct docs as [|doc docs]; [done|]. by rewrite Htexts.
Qed.

Lemma outputs_lengths (batches : list (list string)) (outs : list (list floats)) :
  Forall2 (fun b vs => length vs = length b) batches outs ->
  length (concat outs) = length (concat batches).
Proof.
  induction 1 as [|b vs batches outs Hb _ IH]; [done|].
  cbn. rewrite !length_app. lia.
Qed.

(** The batching loop sends every text to the backend exactly once and
    in order: there are ceiling(n / 50) batches, each of 1 to 50 texts,
    and they concatenate to the list of texts.  With a backend that
    answers each batch with as many embeddings as it has texts, a
    completed loop returns one embedding per text. *)
Theorem batching_covers_texts (texts : list string) (model : string) (w : world) :
  (forall batch vs, embedding_create batch model = Ok vs -> length vs = length batch) ->
  exists starts,
    range 0 (len texts) IngestDocset.batch_size = Ok starts /\
    len starts = (len texts + 49) / 50 /\
    concat (map (fun i => slice texts i (i + IngestDocset.batch_size)) starts) = texts /\
    Forall (fun i => 0 < len (slice texts i (i + IngestDocset.batch_size)) <= 50) starts /\
    (forall embeddings w',
       for_each starts (IngestDocset.embed_batch embedding_create texts model) [] w
         = (Ok embeddings, w') ->
       length embeddings = length texts /\
       w' = log w (map (batch_call texts model) starts)).
Proof.
  intros Hlen. pose proof (batch_starts texts) as Hstarts.
  eexists. split; [exact Hstarts|].
  pose proof (window_count_bounds (len texts) IngestDocset.batch_size
                ltac:(done) ltac:(unfold len; lia)) as Hb.
  split.
  { unfold len at 1. rewrite length_map, length_seq.
    unfold Chunker.window_count, IngestDocset.batch_size.
    rewrite Z2Nat.id; [f_equal; lia|]. apply Z.div_pos; unfold len; lia. }
  split; [by apply batches_cover|].
  split.
  { apply Forall_fmap, Forall_forall. intros j Hj. apply elem_of_seq in Hj. cbn.
    rewrite slice_window by (cbv [IngestDocset.batch_size]; lia).
    rewrite window_length by done. rewrite Nat2Z.id.
    unfold IngestDocset.batch_size in *. lia. }
  intros embeddings w' Hloop.
  match type of Hloop with
  | for_each ?starts _ _ _ = _ =>
      destruct (embed_batches_run embedding_create texts model starts [] w)
        as (called & Hw & Hr);
      pose proof (batches_cover texts starts Hstarts) as Hcover
  end.
  rewrite Hloop in Hw, Hr. cbn [fst snd] in Hw, Hr.
  destruct Hr as (-> & outs & Houts & ->). split; [|done].
  cbn [app]. etransitivity; [|exact (f_equal length Hcover)]. apply outputs_lengths.
  apply Forall2_fmap_l. eapply Forall2_impl; [exact Houts|].
  intros i vs Hi. by apply Hlen.
Qed.

Lemma persist_bare (ix : Faiss.IndexFlatL2) (meta : list record)
    (a : IngestDocset.args) (w : world) :
  bare (IngestDocset.output a) ->
  persist ix meta a w = (Raise OSError, log w [Makedirs ""]).
Proof.
  intros Hbare. unfold persist. rewrite (dirname_bare _ Hbare).
  reflexivity.
Qed.

(** An output path without a directory part (such as [index.faiss])
    makes ingestion fail whatever else happens, and no file is written:
    [os.path.dirname] is then empty and [os.makedirs('')] raises.  When
    every earlier step succeeds, this failure comes only after all
    embedding calls have been made. *)
Theorem bare_output_never_persists (a : IngestDocset.args) (w : world) :
  bare (IngestDocset.output a) ->
  let run := IngestDocset.main token encode decode soup_text embedding_create a w in
  fst run <> Ok tt /\
  files (snd run) = files w /\
  (forall doc docs starts embeddings w2 ix,
     truthy (key_of w (IngestDocset.openai_api_key a)) = true ->
     IngestDocset.get_documents soup_text (IngestDocset.docset a) w
       = (Ok (doc :: docs), w) ->
     range 0 (len (texts_of (doc :: docs))) IngestDocset.batch_size = Ok starts ->
     for_each starts (IngestDocset.embed_batch embedding_create (texts_of (doc :: docs))
                        (IngestDocset.model a)) [] w = (Ok embeddings, w2) ->
     build embeddings = Ok ix ->
     run = (Raise OSError,
            log w (map (batch_call (texts_of (doc :: docs)) (IngestDocset.model a)) starts
                   ++ [Makedirs ""]))).
Proof.
  intros Hbare run. subst run.
  assert (Hfirst : fst (main a w) <> Ok tt /\ files (snd (main a w)) = files w).
  { rewrite main_run. destruct (negb _); [done|].
    destruct (get_documents_quiet soup_text (IngestDocset.docset a) w)
      as (evs & Hw1 & _).
    destruct (IngestDocset.get_documents _ _ w) as [[docs|e] w1];
      cbn [snd] in Hw1; subst w1; [|done].
    destruct docs as [|doc docs]; [done|].
    destruct (range _ _ _) as [starts|e]; [|done].
    destruct (embed_batches_run embedding_create (texts_of (doc :: docs))
                (IngestDocset.model a) starts [] (log w evs)) as (called & Hw2 & _).
    destruct (for_each starts _ _ _) as [[embeddings|e] w2];
      cbn [snd] in Hw2; subst w2; [|done].
    destruct (build embeddings) as [ix|e]; [|done].
    by rewrite persist_bare. }
  destruct Hfirst as [Hfail Hfiles]. split; [done|]. split; [done|].
  intros doc docs starts embeddings w2 ix Hkey Hdocs Hstarts Hloop Hbuild.
  rewrite (main_reaches_persist _ _ _ _ _ _ _ _ Hkey Hdocs Hstarts Hloop Hbuild).
  rewrite persist_bare by done.
  destruct (embed_batches_run embedding_create (texts_of (doc :: docs))
              (IngestDocset.model a) starts [] w) as (called & Hw2 & Hr).
  rewrite Hloop in Hw2, Hr. cbn [fst snd] in Hw2, Hr.
  destruct Hr as (-> & _). subst w2. by rewrite log_log.
Qed.

(** What a completed ingestion wrote (output path in canonical form)
    is what the loaders of the query scripts read back: the index whose
    rows are the binary32 conversions of the embeddings that the backend
    returned, batch after batch, and the metadata sequence with one
    [{name, text}] record per chunk, in chunk order; the configured key
    is still in place and every directory on the way to the output file
    exists.  With a backend that answers each batch with one
    embedding per text the index has as many rows as the metadata has
    records. *)
Theorem ingest_then_load (a : IngestDocset.args) (w w' : world) :
  canonical (IngestDocset.output a) = true ->
  IngestDocset.main token encode decode soup_text embedding_create a w = (Ok tt, w') ->
  exists docs starts outs ix,
    let index_path := IngestDocset.output a in
    let meta_path := IngestDocset.output a +:+ ".meta.json" in
    let texts := texts_of docs in
    IngestDocset.get_documents soup_text (IngestDocset.docset a) w = (Ok docs, w) /\
    range 0 (len texts) IngestDocset.batch_size = Ok starts /\
    Forall2 (fun i vs =>
               embedding_create (slice texts i (i + IngestDocset.batch_size))
                 (IngestDocset.model a) = Ok vs) starts outs /\
    Faiss.xb ix = map Faiss.as_float32 (concat outs) /\
    Forall2 (fun rec chunk =>
               rec !! "text" = Some chunk /\
               exists name text, (name, text) ∈ docs /\ chunk ∈ chunks_of text /\
                                 rec !! "name" = Some name)
      (meta_of docs) texts /\
    QueryDocset.load_index index_path w' = (Ok ix, w') /\
    QueryDocset.load_metadata meta_path w' = (Ok (meta_of docs), w') /\
    Assist.load_index index_path w' = (Ok ix, w') /\
    Assist.load_metadata meta_path w' = (Ok (meta_of docs), w') /\
    Retrieval.loaded w' (IngestDocset.openai_api_key a) index_path meta_path
      ix (meta_of docs) /\
    Forall (fun d => files w' !! d = Some Dir) (ancestors (dirname index_path)) /\
    ((forall batch vs,
        embedding_create batch (IngestDocset.model a) = Ok vs ->
        length vs = length batch) ->
     Faiss.ntotal ix = len (meta_of docs)).
Proof.
  intros _ Hrun.
  destruct (main_success a w w' Hrun)
    as (docs & starts & outs & ix & w2 & Hkey & Hdocs & Hstarts & Houts & Hrows
        & Henv & Hpersist).
  destruct (persist_run ix (meta_of docs) a w2) as (after & _ & _ & _ & Hf).
  rewrite Hpersist in Hf. cbn [fst snd] in Hf. destruct (Hf eq_refl) as [Hout Hmf].
  assert (Henv' : environ w' = environ w).
  { destruct (ingest_main_confined a w) as [He _]. by rewrite Hrun in He. }
  exists docs, starts, outs, ix. cbv zeta.
  split; [done|]. split; [done|]. split; [done|]. split; [done|].
  split.
  { eapply Forall2_impl; [apply (meta_names_documents token encode decode docs)|].
    intros rec chunk ([name text] & Hdoc & Hc & ->). cbn [fst snd] in *.
    destruct (meta_record_fields name chunk) as (Hn & Ht & _).
    split; [done|]. by exists name, text. }
  unfold QueryDocset.load_index, QueryDocset.load_metadata,
    Assist.load_index, Assist.load_metadata, bind, stat, ret.
  rewrite Hout, Hmf. repeat (split; [done|]).
  split.
  { unfold Retrieval.loaded. rewrite Henv'. by unfold key_of in Hkey. }
  split; [exact (persist_dirs _ _ _ _ _ Hpersist)|].
  intros Hlen. unfold Faiss.ntotal, len. f_equal.
  rewrite Hrows, length_map.
  rewrite (Forall2_length _ _ _ (meta_describes_texts token encode decode docs)).
  etransitivity; [|exact (f_equal length (batches_cover _ _ Hstarts))].
  apply outputs_lengths, Forall2_fmap_l.
  eapply Forall2_impl; [exact Houts|]. intros i vs Hi. by apply Hlen.
Qed.

Lemma record_snippet (meta : list record) (i : nat) (name chunk : string) (d : Q) :
  meta !! i = Some (IngestDocset.meta_record name chunk) ->
  Retrieval.snippet_of meta (d, Z.of_nat i) = Assist.mkSnippet name chunk d.
Proof.
  intros Hi. unfold Retrieval.snippet_of, Retrieval.meta_at. cbn [fst snd].
  rewrite (getitem_nonneg meta (Z.of_nat i) _ ltac:(lia)) by (by rewrite Nat2Z.id).
  destruct (meta_record_fields name chunk) as (Hn & Ht & _).
  unfold dict_get. by rewrite Hn, Ht.
Qed.

(** End to end: after a completed ingestion (output path in canonical
    form) with a backend that embeds each text in order, a query for
    0 < k <= row_count against the written index and metadata, with a
    query vector to which every stored row has a distance below
    [FLT_MAX], returns k results; every result carries the name of an
    extracted document, one of that document's chunks, and the distance
    that the kernel computes between the query vector and the stored
    row, which is the binary32 conversion of the embedding of that very
    chunk. *)
Theorem results_name_ingested_chunks (embeds : string -> floats -> Prop)
    (a : IngestDocset.args) (w w' : world) :
  canonical (IngestDocset.output a) = true ->
  (forall batch vs,
     embedding_create batch (IngestDocset.model a) = Ok vs -> Forall2 embeds batch vs) ->
  IngestDocset.main token encode decode soup_text embedding_create a w = (Ok tt, w') ->
  exists docs ix,
    IngestDocset.get_documents soup_text (IngestDocset.docset a) w = (Ok docs, w) /\
    Assist.load_index (IngestDocset.output a) w' = (Ok ix, w') /\
    Assist.load_metadata (IngestDocset.output a +:+ ".meta.json") w'
      = (Ok (meta_of docs), w') /\
    forall query model k emb rest w0,
      embedding_create [query] model = Ok (emb :: rest) ->
      len emb = Faiss.dim ix ->
      0 < k <= Faiss.ntotal ix ->
      Forall (fun row => exists d,
                fvec_L2sqr (Faiss.as_float32 emb) row = Float32.finite d /\
                Qle_bool Faiss.FLT_MAX d = false) (Faiss.xb ix) ->
      exists results,
        fst (Assist.retrieve_docs fvec_L2sqr embedding_create ix (meta_of docs)
               query model k w0) = Ok results /\
        len results = k /\
        Forall (fun r =>
                  exists name text chunk embedding,
                    (name, text) ∈ docs /\ chunk ∈ chunks_of text /\
                    embeds chunk embedding /\
                    Faiss.as_float32 embedding ∈ Faiss.xb ix /\
                    Assist.name r = name /\ Assist.chunk r = chunk /\
                    fvec_L2sqr (Faiss.as_float32 emb) (Faiss.as_float32 embedding)
                      = Float32.finite (Assist.distance r))
          results.
Proof.
  intros _ Hcontract Hrun.
  destruct (main_success a w w' Hrun)
    as (docs & starts & outs & ix & w2 & Hkey & Hdocs & Hstarts & Houts & Hrows
        & Henv & Hpersist).
  destruct (persist_run ix (meta_of docs) a w2) as (after & _ & _ & _ & Hf).
  rewrite Hpersist in Hf. cbn [fst snd] in Hf. destruct (Hf eq_refl) as [Hout Hmf].
  assert (Hembeds : Forall2 embeds (texts_of docs) (concat outs)).
  { rewrite <- (batches_cover _ _ Hstarts).
    by apply (embeddings_in_order embedding_create embeds _ (IngestDocset.model a)). }
  pose proof (meta_names_documents token encode decode docs) as Hmeta.
  exists docs, ix. split; [done|].
  unfold Assist.load_index, Assist.load_metadata, bind, stat, ret.
  rewrite Hout, Hmf. split; [done|]. split; [done|].
  intros query model k emb rest w0 Hemb Hdim Hk Hall.
  set (vec := Faiss.as_float32 emb) in *.
  set (hits := take (Z.to_nat k) (Faiss.ranked_hits fvec_L2sqr ix vec)).
  assert (Hlen : length (Faiss.ranked_hits fvec_L2sqr ix vec) = length (Faiss.xb ix)).
  { rewrite (Permutation_length (FaissFacts.ranked_hits_perm fvec_L2sqr ix vec)).
    by apply FaissFacts.candidates_all. }
  assert (Hrow : Forall (fun h =>
            exists (i : nat) embedding rec chunk,
              snd h = Z.of_nat i /\
              concat outs !! i = Some embedding /\
              fvec_L2sqr vec (Faiss.as_float32 embedding) = Float32.finite (fst h) /\
              meta_of docs !! i = Some rec /\ texts_of docs !! i = Some chunk) hits).
  { apply Forall_forall. intros h Hh.
    apply (fun H => elem_of_sublist _ _ _ H (sublist_take _ _)) in Hh.
    assert (Hc : h ∈ Faiss.candidates fvec_L2sqr vec (Faiss.xb ix))
      by (by rewrite <- (FaissFacts.ranked_hits_perm fvec_L2sqr ix vec)).
    apply FaissFacts.candidate_row in Hc as (i & row & Hi & Hd & _ & Hlabel).
    rewrite Hrows, list_lookup_fmap in Hi.
    destruct (concat outs !! i) as [embedding|] eqn:Hemb'; [|done].
    cbn in Hi. inversion Hi; subst row.
    destruct (Forall2_lookup_r _ _ _ _ _ Hembeds Hemb') as (chunk & Hchunk & _).
    destruct (Forall2_lookup_r _ _ _ _ _ Hmeta Hchunk) as (rec & Hrec & _).
    by exists i, embedding, rec, chunk. }
  assert (Hread : Forall (Retrieval.readable (meta_of docs)) hits).
  { eapply Forall_impl; [exact Hrow|].
    intros h (i & embedding & rec & chunk & Hi & _ & _ & Hrec & _). exists rec.
    rewrite Hi. apply getitem_nonneg; [lia|]. by rewrite Nat2Z.id. }
  assert (Hsearch : Faiss.search fvec_L2sqr ix vec k = Ok hits).
  { unfold Faiss.search. unfold vec at 1. rewrite FaissFacts.as_float32_len.
    destruct (Z.eqb_spec (len emb) (Faiss.dim ix)); [|done].
    destruct (Z.leb_spec k 0); [lia|]. cbn [negb orb]. fold vec hits.
    replace (Z.to_nat k - length hits)%nat with 0%nat.
    - cbn. by rewrite app_nil_r.
    - unfold hits. rewrite length_take, Hlen.
      unfold Faiss.ntotal, len in *. lia. }
  exists (map (Retrieval.snippet_of (meta_of docs)) hits).
  rewrite (RetrievalFacts.retrieve_docs_run _ _ _ _ _ _ _ _ _ _ Hemb). cbv zeta.
  fold vec. rewrite Hsearch, RetrievalFacts.join_hits_run by done. cbn [fst app].
  split; [done|]. split.
  { unfold len, hits. rewrite length_map, length_take, Hlen.
    unfold Faiss.ntotal, len in *. lia. }
  apply Forall_fmap. eapply Forall_impl; [exact Hrow|].
  intros [d label] (i & embedding & rec & chunk & Hi & Hemb' & Hd & Hrec & Hchunk).
  cbn [fst snd] in *. subst label.
  destruct (Forall2_lookup_lr _ _ _ _ _ _ Hmeta Hrec Hchunk)
    as ([name text] & Hdoc & Hc & ->).
  exists name, text, chunk, embedding. cbn [fst snd] in *.
  rewrite (record_snippet _ _ _ _ _ Hrec). cbn.
  split; [done|]. split; [done|].
  split; [exact (Forall2_lookup_lr _ _ _ _ _ _ Hembeds Hchunk Hemb')|].
  split; [|done].
  rewrite Hrows. apply list_elem_of_fmap. exists embedding.
  split; [done|]. by eapply list_elem_of_lookup_2.
Qed.

End WithCollaborators.

End IngestRunFacts.

(** ** The facts above on concrete stores *)

Module MoreRuns.

Import PyFacts WorldFacts FaissFacts RetrievalFacts IngestFacts Retrieval Ingestion.
Import Scripts Sample Cases.

Lemma sample_backend_lengths (batch : list string) (model : string)
    (vs : list floats) :
  Sample.embedding_create batch model = Ok vs -> length vs = length batch.
Proof. intros H. inversion H. apply length_map. Qed.

Lemma sample_ingest_run :
  IngestDocset.main ascii Chunker.byte_encode Chunker.byte_decode plain_text
    Sample.embedding_create ingest_args docset_world = (Ok tt, ingested).
Proof. vm_compute. reflexivity. Qed.

Lemma missing_artifact_stops_query_witness :
  is_file (files (keyed ∅) !! "data/docset_index.faiss") = false /\
  is_file (files index_only !! "data/docset_index.faiss.meta.json") = false /\
  QueryDocset.main Sample.fvec_L2sqr Sample.embedding_create (query_args 5) (keyed ∅) =
  (Raise (SystemExit 1 "Index file not found: data/docset_index.faiss"),
   log (keyed ∅) [Stderr "Index file not found: data/docset_index.faiss"]) /\
  Assist.main Sample.fvec_L2sqr Sample.embedding_create (assist_args 5) index_only =
  (Raise (SystemExit 1 "Metadata file not found: data/docset_index.faiss.meta.json"),
   log index_only [Stderr "Metadata file not found: data/docset_index.faiss.meta.json"]).
Proof.
  split; [reflexivity|]. split; [reflexivity|]. split.
  - pose proof (ScriptFacts.missing_artifact_stops_query Sample.fvec_L2sqr
                  Sample.embedding_create
                  (query_args 5) (assist_args 5) (keyed ∅) eq_refl eq_refl) as T.
    cbv zeta in T. destruct T as (Hq & _). exact (Hq eq_refl).
  - pose proof (ScriptFacts.missing_artifact_stops_query Sample.fvec_L2sqr
                  Sample.embedding_create
                  (query_args 5) (assist_args 5) index_only eq_refl eq_refl) as T.
    cbv zeta in T. destruct T as (_ & _ & _ & Ha). exact (Ha one_row eq_refl eq_refl).
Defined.

Lemma embedding_failure_stops_query_witness :
  let w := store one_row [uiview] in
  embedding_down ["A view?"] ada = Raise OpenAIError /\
  QueryDocset.main Sample.fvec_L2sqr embedding_down (query_args 5) w =
    (Raise OpenAIError, log w [EmbeddingCreate ["A view?"] ada]) /\
  Assist.main Sample.fvec_L2sqr embedding_down (assist_args 5) w =
    (Raise OpenAIError, log w [EmbeddingCreate ["A view?"] ada]).
Proof.
  cbv zeta. split; [reflexivity|].
  pose proof (ScriptFacts.embedding_failure_stops_query Sample.fvec_L2sqr embedding_down
                (query_args 5) (assist_args 5) (store one_row [uiview])
                one_row [uiview]
                (Runs.sample_store_loaded _ _ 5) (Runs.sample_store_loaded _ _ 5)) as T.
  cbv zeta in T. destruct T as (Hq & _ & Ha & _).
  split; [exact (Hq _ eq_refl)|exact (Ha _ eq_refl)].
Defined.

Lemma retrieval_within_row_count_witness :
  let w := store two_rows [uiview; uibutton] in
  0 < 2 <= Faiss.ntotal two_rows /\
  len [uiview; uibutton] = Faiss.ntotal two_rows /\
  map (Sample.fvec_L2sqr asked) (Faiss.xb two_rows)
    = [Float32.finite 0; Float32.finite 4] /\
  Assist.retrieve_docs Sample.fvec_L2sqr Sample.embedding_create two_rows
    [uiview; uibutton] "A view?" ada 2 w =
  (Ok [Assist.mkSnippet "UIView Overview" "A view." 0;
       Assist.mkSnippet "UIButton Overview" "A button." 4],
   log w [EmbeddingCreate ["A view?"] ada; IndexSearch asked 2;
          MetaRead 0; MetaRead 1]).
Proof.
  cbv zeta.
  assert (Hk : 0 < 2 <= Faiss.ntotal two_rows) by (vm_compute; split; congruence).
  assert (Hall : Forall (fun row => exists d,
                    Sample.fvec_L2sqr (Faiss.as_float32 (embed_one "A view?")) row
                      = Float32.finite d /\
                    Qle_bool Faiss.FLT_MAX d = false) (Faiss.xb two_rows)).
  { repeat constructor; eexists; (split; [vm_compute; reflexivity|reflexivity]). }
  split; [exact Hk|]. split; [reflexivity|]. split; [vm_compute; reflexivity|].
  pose proof (RankingFacts.retrieval_within_row_count Sample.fvec_L2sqr
                Sample.embedding_create
                (query_args 2) (store two_rows [uiview; uibutton]) two_rows
                [uiview; uibutton] (embed_one "A view?") []) as T.
  cbv zeta in T.
  destruct (T eq_refl eq_refl eq_refl Hk Hall) as (_ & _ & _ & _ & Hrun & _).
  etransitivity; [exact Hrun|]. vm_compute. reflexivity.
Defined.

Lemma missing_text_key_witness :
  let w := store one_row [untexted] in
  getitem [untexted] 0 = Ok untexted /\
  untexted !! "text" = None /\
  for_each [(0%Q, 0)] (QueryDocset.show_result [untexted]) tt w =
    (Raise (KeyError "text"), log w [MetaRead 0]) /\
  for_each [(0%Q, 0)] (Assist.join_hit [untexted]) [] w =
    (Ok [Assist.mkSnippet "UIView Overview" "" 0], log w [MetaRead 0]).
Proof.
  cbv zeta. split; [reflexivity|]. split; [reflexivity|].
  destruct (RankingFacts.missing_text_key [untexted] [] [] (0%Q, 0) untexted
              (store one_row [untexted])
              (Forall_nil_2 _) (Forall_nil_2 _) eq_refl eq_refl) as [Hq Ha].
  split; [exact Hq|]. exact (Ha (Forall_nil_2 _)).
Defined.

Lemma assist_prints_every_result_witness :
  let w := store two_rows [uiview; uibutton] in
  Assist.main Sample.fvec_L2sqr Sample.embedding_create (assist_args 1) w =
  (Ok tt,
   log w [EmbeddingCreate ["A view?"] ada; IndexSearch asked 1; MetaRead 0;
          PrintSnippet "UIView Overview" 0 "A view."]).
Proof.
  cbv zeta.
  pose proof (RankingFacts.assist_prints_every_result Sample.fvec_L2sqr
                Sample.embedding_create
                (assist_args 1) (store two_rows [uiview; uibutton]) two_rows
                [uiview; uibutton] (Runs.sample_store_loaded _ _ 1)) as T.
  cbv zeta in T. destruct T as [Hrun _].
  rewrite Hrun. vm_compute. reflexivity.
Defined.


Lemma missing_key_stops_every_script_witness :
  environ unkeyed !! "OPENAI_API_KEY" = None /\
  ingest Sample.embedding_create ingest_args unkeyed =
    (Raise (SystemExit 1 IngestDocset.missing_key),
     log unkeyed [Stderr IngestDocset.missing_key]) /\
  QueryDocset.main Sample.fvec_L2sqr Sample.embedding_create (query_args 5) unkeyed =
    (Raise (SystemExit 1 QueryDocset.missing_key),
     log unkeyed [Stderr QueryDocset.missing_key]) /\
  Assist.main Sample.fvec_L2sqr Sample.embedding_create (assist_args 5) unkeyed =
    (Raise (SystemExit 1 "Missing OpenAI API key"),
     log unkeyed [Stderr "Missing OpenAI API key"]).
Proof.
  split; [reflexivity|].
  exact (IngestRunFacts.missing_key_stops_every_script ascii Chunker.byte_encode
           Chunker.byte_decode plain_text Sample.fvec_L2sqr Sample.embedding_create
           ingest_args (query_args 5) (assist_args 5) unkeyed
           eq_refl eq_refl eq_refl eq_refl).
Defined.

Lemma pruned_docset_stops_ingestion_witness :
  files pruned !! idx_path "Apple.docset" = Some (File (Sqlite (Some pruned_rows))) /\
  ingest Sample.embedding_create ingest_args pruned =
    (Raise (SystemExit 1 no_documents), log pruned [Stderr no_documents]).
Proof.
  assert (Hidx : files pruned !! idx_path (IngestDocset.docset ingest_args)
                 = Some (File (Sqlite (Some pruned_rows)))) by (by vm_compute).
  split; [exact Hidx|].
  refine (proj2 (IngestRunFacts.pruned_docset_stops_ingestion ascii Chunker.byte_encode
                   Chunker.byte_decode plain_text Sample.embedding_create
                   ingest_args pruned pruned_rows eq_refl Hidx _ _)).
  - by vm_compute.
  - intros name relpath Hin. unfold pruned_rows in Hin.
    repeat (apply elem_of_cons in Hin as [Heq|Hin];
            [inversion Heq; subst; by vm_compute|]).
    by apply elem_of_nil in Hin.
Defined.

Lemma tokenless_documents_fail_witness :
  IngestDocset.get_documents plain_text "Apple.docset" blank = (Ok [("Blank", "")], blank) /\
  Chunker.byte_encode "" = [] /\
  ingest Sample.embedding_create ingest_args blank = (Raise IndexError, blank).
Proof.
  assert (Hdocs : IngestDocset.get_documents plain_text
                    (IngestDocset.docset ingest_args) blank
                  = (Ok [("Blank", "")], blank)) by (vm_compute; reflexivity).
  split; [exact Hdocs|]. split; [reflexivity|].
  refine (IngestRunFacts.tokenless_documents_fail ascii Chunker.byte_encode
            Chunker.byte_decode plain_text Sample.embedding_create
            ingest_args blank [("Blank", "")] eq_refl Hdocs _ _).
  - discriminate.
  - by repeat constructor.
Defined.

Lemma batching_covers_texts_witness :
  let texts := replicate 120 "A view." in
  exists starts,
    range 0 (len texts) IngestDocset.batch_size = Ok starts /\
    len starts = 3 /\
    concat (map (fun i => slice texts i (i + IngestDocset.batch_size)) starts) = texts.
Proof.
  cbv zeta.
  destruct (IngestRunFacts.batching_covers_texts Sample.embedding_create
              (replicate 120 "A view.") ada docset_world
              (fun batch vs => sample_backend_lengths batch ada vs))
    as (starts & Hstarts & Hlen & Hcover & _).
  exists starts. split; [exact Hstarts|]. split; [exact Hlen|exact Hcover].
Defined.

Lemma bare_output_never_persists_witness :
  bare (IngestDocset.output bare_args) /\
  fst (ingest Sample.embedding_create bare_args docset_world) <> Ok tt /\
  files (snd (ingest Sample.embedding_create bare_args docset_world))
    = files docset_world.
Proof.
  assert (Hbare : bare (IngestDocset.output bare_args)).
  { unfold bare. apply (bool_decide_unpack _). by vm_compute. }
  split; [exact Hbare|].
  pose proof (IngestRunFacts.bare_output_never_persists ascii Chunker.byte_encode
                Chunker.byte_decode plain_text Sample.embedding_create
                bare_args docset_world Hbare) as T.
  cbv zeta in T. destruct T as (Hfail & Hfiles & _).
  split; [exact Hfail|exact Hfiles].
Defined.

Lemma ingest_then_load_witness :
  canonical (IngestDocset.output ingest_args) = true /\
  ingest Sample.embedding_create ingest_args docset_world = (Ok tt, ingested) /\
  exists docs outs ix,
    Faiss.xb ix = map Faiss.as_float32 (concat outs) /\
    QueryDocset.load_index "data/docset_index.faiss" ingested = (Ok ix, ingested) /\
    QueryDocset.load_metadata "data/docset_index.faiss.meta.json" ingested
      = (Ok (meta_of ascii Chunker.byte_encode Chunker.byte_decode docs), ingested) /\
    Forall (fun d => files ingested !! d = Some Dir)
      (ancestors (dirname (IngestDocset.output ingest_args))) /\
    Faiss.ntotal ix = len (meta_of ascii Chunker.byte_encode Chunker.byte_decode docs).
Proof.
  pose proof sample_ingest_run as Hrun.
  split; [reflexivity|]. split; [exact Hrun|].
  destruct (IngestRunFacts.ingest_then_load ascii Chunker.byte_encode
              Chunker.byte_decode plain_text Sample.embedding_create
              ingest_args docset_world ingested eq_refl Hrun)
    as (docs & starts & outs & ix & T).
  cbv zeta in T.
  destruct T as (_ & _ & _ & Hrows & _ & Hix & Hmeta & _ & _ & _ & Hdirs & Hn).
  exists docs, outs, ix. split; [exact Hrows|]. split; [exact Hix|].
  split; [exact Hmeta|]. split; [exact Hdirs|].
  apply Hn. intros batch vs. apply sample_backend_lengths.
Defined.

Lemma results_name_ingested_chunks_witness :
  canonical (IngestDocset.output ingest_args) = true /\
  ingest Sample.embedding_create ingest_args docset_world = (Ok tt, ingested) /\
  map (Sample.fvec_L2sqr asked) (Faiss.xb two_rows)
    = [Float32.finite 0; Float32.finite 4] /\
  exists docs ix,
    Assist.load_index "data/docset_index.faiss" ingested = (Ok ix, ingested) /\
    Assist.load_metadata "data/docset_index.faiss.meta.json" ingested
      = (Ok (meta_of ascii Chunker.byte_encode Chunker.byte_decode docs), ingested) /\
    exists results,
      fst (Assist.retrieve_docs Sample.fvec_L2sqr Sample.embedding_create ix
             (meta_of ascii Chunker.byte_encode Chunker.byte_decode docs)
             "A view?" ada 1 ingested) = Ok results /\
      len results = 1.
Proof.
  pose proof sample_ingest_run as Hrun.
  split; [reflexivity|]. split; [exact Hrun|]. split; [vm_compute; reflexivity|].
  destruct (IngestRunFacts.results_name_ingested_chunks ascii Chunker.byte_encode
              Chunker.byte_decode plain_text Sample.fvec_L2sqr Sample.embedding_create
              (fun t v => v = embed_one t) ingest_args docset_world ingested
              eq_refl (fun batch vs => Runs.sample_backend_in_order batch _ vs) Hrun)
    as (docs & ix & _ & Hix & Hmeta & Hq).
  exists docs, ix. split; [exact Hix|]. split; [exact Hmeta|].
  assert (E : ix = two_rows).
  { assert (E : Assist.load_index (IngestDocset.output ingest_args) ingested
                = (Ok two_rows, ingested)) by (vm_compute; reflexivity).
    rewrite Hix in E. apply (f_equal fst) in E. cbn [fst] in E.
    by injection E. }
  subst ix.
  destruct (Hq "A view?" ada 1 (embed_one "A view?") [] ingested eq_refl eq_refl)
    as (results & Hres & Hlen & _).
  - vm_compute. split; congruence.
  - repeat constructor; eexists; (split; [vm_compute; reflexivity|reflexivity]).
  - exists results. split; [exact Hres|exact Hlen].
Defined.

End MoreRuns.
